(** * Seq2SeqTrainer (training/ss_transformer_trainer.py): a shallow embedding

    The trainer class is embedded method by method.  Python objects that the
    trainer owns (the configuration [args], the cumulative [results], the
    model) live in an explicit [world] that every method threads; Python
    exceptions are the [Raise] outcomes of a state-and-exception monad, so
    that what a call did before it raised stays observable.

    The deep-learning runtime (forward pass, autograd, optimizer step, ...) is
    outside the repository and enters as the interface [Runtime].

    Numbers: Python [int] is [Z]; a Python [float] is an IEEE-754 binary64
    value ([spec_float] at precision 53); the entries of floating-point
    tensors are idealised as real numbers (an infinity or NaN has no place
    among them: where a Python float that is not finite meets a tensor,
    nothing is assumed of the result); integer tensors (token ids) are
    rows of [Z]. *)

From Stdlib Require Import ZArith List String Ascii Reals Lra Lia Permutation.
From Stdlib Require Import Floats.SpecFloat.
From stdpp Require Import gmap strings list pretty sorting.

Open Scope Z_scope.

(** ** Python exceptions and call outcomes *)

Inductive exn : Type :=
| KeyError (key : string)
| IndexError
| TypeError
| ValueError
| OverflowError
| ZeroDivisionError
| FileNotFoundError
| AttributeError (attr : string)
| UnboundLocalError (var : string)
| FileExistsError (path : string)
| IsADirectoryError (path : string).

Inductive outcome (A : Type) : Type :=
| Ret (a : A)
| Raise (e : exn).
Arguments Ret {A} a.
Arguments Raise {A} e.

Definition returns {A : Type} (o : outcome A) : Prop := exists a, o = Ret a.

(** Exceptions without state, for the pure helpers. *)
Definition obind {A B : Type} (o : outcome A) (k : A -> outcome B) : outcome B :=
  match o with
  | Ret a => k a
  | Raise e => Raise e
  end.

Notation "'try' x <- o ; k" := (obind o (fun x => k))
  (at level 10, x name, o at level 100, k at level 200).
Notation "'try' ' pat <- o ; k" := (obind o (fun x => match x with pat => k end))
  (at level 10, pat pattern, o at level 100, k at level 200).

(** ** Python numbers *)

Module PyFloat.

Definition prec : Z := 53.
Definition emax : Z := 1024.

(** A Python float. *)
Definition float : Type := spec_float.

Definition zero : float := S754_zero false.

Definition add (x y : float) : float := SFadd prec emax x y.
Definition mul (x y : float) : float := SFmul prec emax x y.

(** [float(n)] for an int: round to nearest even; too large an int raises. *)
Definition of_int (n : Z) : outcome float :=
  match binary_normalize prec emax n 0 false with
  | S754_infinity _ => Raise OverflowError
  | f => Ret f
  end.

Definition is_zero (x : float) : bool :=
  match x with S754_zero _ => true | _ => false end.

(** [x / y] on floats: Python raises on a zero divisor. *)
Definition div (x y : float) : outcome float :=
  if is_zero y then Raise ZeroDivisionError else Ret (SFdiv prec emax x y).

(** [n * x] and [x / n] with an int operand: the int is converted first. *)
Definition int_mul (n : Z) (x : float) : outcome float :=
  try fn <- of_int n; Ret (mul fn x).

Definition div_int (x : float) (n : Z) : outcome float :=
  try fn <- of_int n; div x fn.

(** [math.ceil]: the least integer not below the float; NaN and the
    infinities raise. A finite float is [(-1)^s * m * 2^e]. *)
Definition ceil (x : float) : outcome Z :=
  match x with
  | S754_zero _ => Ret 0
  | S754_infinity _ => Raise OverflowError
  | S754_nan => Raise ValueError
  | S754_finite s m e =>
      let v := cond_Zopp s (Zpos m) in
      Ret (if 0 <=? e then v * 2 ^ e else - ((- v) / 2 ^ (- e)))
  end.

(** The real number a float stands for: a zero or a finite float has one,
    an infinity or NaN has none. *)
Definition to_R (x : float) : option R :=
  match x with
  | S754_zero _ => Some 0%R
  | S754_finite s m e => Some (IZR (cond_Zopp s (Zpos m)) * powerRZ 2 e)%R
  | S754_infinity _ | S754_nan => None
  end.

(** 0.1, 0.01 and 2.0 as binary64 values. *)
Definition tenth : float := S754_finite false 7205759403792794 (-56).
Definition hundredth : float := S754_finite false 5764607523034235 (-59).
Definition two : float := S754_finite false 4503599627370496 (-51).

End PyFloat.

Abbreviation pyfloat := PyFloat.float.

(** [a // b] and [a % b] on ints: floor division, as [Z.div] and [Z.modulo]. *)
Definition py_floordiv (a b : Z) : outcome Z :=
  if b =? 0 then Raise ZeroDivisionError else Ret (a / b).

Definition py_mod (a b : Z) : outcome Z :=
  if b =? 0 then Raise ZeroDivisionError else Ret (a mod b).

(** [sub in s] on Python strings. *)
Fixpoint str_contains (sub s : string) : bool :=
  String.prefix sub s ||
  match s with
  | EmptyString => false
  | String _ s' => str_contains sub s'
  end.

(** ** Configuration values and dictionaries *)

Inductive pyval : Type :=
| VFloat (x : pyfloat)
| VInt (n : Z)
| VStr (s : string)
| VNames (names : list string).

Abbreviation pydict := (gmap string pyval).

(** [d.pop(k)]: the value and the dictionary without the key. *)
Definition dict_pop (k : string) (d : pydict) : outcome (pyval * pydict) :=
  match d !! k with
  | Some v => Ret (v, delete k d)
  | None => Raise (KeyError k)
  end.

(** The fields of [args] that the trainer reads. *)
Record config : Type := {
  custom_parameter_groups : list pydict;
  custom_layer_parameters : list pydict;
  train_custom_parameters_only : bool;
  weight_decay : pyfloat;
  learning_rate : pyfloat;
  adam_epsilon : pyfloat;
  warmup_ratio : pyfloat;
  warmup_steps : Z;
  gradient_accumulation_steps : Z;
  epochs : Z;
  n_gpu : Z;
  fp16 : bool;
  evaluate_during_training : bool;
  max_grad_norm : pyfloat;
  fl_algorithm : string;
  fedprox_mu : pyfloat;
  model_type : string;
  eval_batch_size : Z;
  output_dir : string;
  evaluate_generated_text : bool
}.

Definition set_custom_parameter_groups (gs : list pydict) (c : config) : config :=
  {| custom_parameter_groups := gs;
     custom_layer_parameters := custom_layer_parameters c;
     train_custom_parameters_only := train_custom_parameters_only c;
     weight_decay := weight_decay c;
     learning_rate := learning_rate c;
     adam_epsilon := adam_epsilon c;
     warmup_ratio := warmup_ratio c;
     warmup_steps := warmup_steps c;
     gradient_accumulation_steps := gradient_accumulation_steps c;
     epochs := epochs c;
     n_gpu := n_gpu c;
     fp16 := fp16 c;
     evaluate_during_training := evaluate_during_training c;
     max_grad_norm := max_grad_norm c;
     fl_algorithm := fl_algorithm c;
     fedprox_mu := fedprox_mu c;
     model_type := model_type c;
     eval_batch_size := eval_batch_size c;
     output_dir := output_dir c;
     evaluate_generated_text := evaluate_generated_text c |}.

Definition set_custom_layer_parameters (gs : list pydict) (c : config) : config :=
  {| custom_parameter_groups := custom_parameter_groups c;
     custom_layer_parameters := gs;
     train_custom_parameters_only := train_custom_parameters_only c;
     weight_decay := weight_decay c;
     learning_rate := learning_rate c;
     adam_epsilon := adam_epsilon c;
     warmup_ratio := warmup_ratio c;
     warmup_steps := warmup_steps c;
     gradient_accumulation_steps := gradient_accumulation_steps c;
     epochs := epochs c;
     n_gpu := n_gpu c;
     fp16 := fp16 c;
     evaluate_during_training := evaluate_during_training c;
     max_grad_norm := max_grad_norm c;
     fl_algorithm := fl_algorithm c;
     fedprox_mu := fedprox_mu c;
     model_type := model_type c;
     eval_batch_size := eval_batch_size c;
     output_dir := output_dir c;
     evaluate_generated_text := evaluate_generated_text c |}.

Definition set_warmup_steps (n : Z) (c : config) : config :=
  {| custom_parameter_groups := custom_parameter_groups c;
     custom_layer_parameters := custom_layer_parameters c;
     train_custom_parameters_only := train_custom_parameters_only c;
     weight_decay := weight_decay c;
     learning_rate := learning_rate c;
     adam_epsilon := adam_epsilon c;
     warmup_ratio := warmup_ratio c;
     warmup_steps := n;
     gradient_accumulation_steps := gradient_accumulation_steps c;
     epochs := epochs c;
     n_gpu := n_gpu c;
     fp16 := fp16 c;
     evaluate_during_training := evaluate_during_training c;
     max_grad_norm := max_grad_norm c;
     fl_algorithm := fl_algorithm c;
     fedprox_mu := fedprox_mu c;
     model_type := model_type c;
     eval_batch_size := eval_batch_size c;
     output_dir := output_dir c;
     evaluate_generated_text := evaluate_generated_text c |}.

(** ** Optimizer parameter groups (train_model, lines 63-115) *)

Section ParamGroups.

(** The parameter objects of the model; [named_parameters()] pairs each
    with its name. *)
Context {P : Type}.

(** A parameter-group dictionary: its ["params"] entry and the other keys. *)
Record param_group : Type := {
  pg_options : pydict;
  pg_params : list P
}.

Definition no_decay : list string := ["bias"; "LayerNorm.weight"]%string.

(** [any(nd in n for nd in no_decay)] *)
Definition is_no_decay (n : string) : bool :=
  existsb (fun nd => str_contains nd n) no_decay.

(** [[p for n, p in named if keep n]] *)
Definition select (keep : string -> bool) (named : list (string * P)) : list P :=
  map snd (filter (fun np => keep (fst np) = true) named).

(** [f"layer.{layer_number}."] *)
Definition format_value (v : pyval) (repr : pyval -> string) : string :=
  match v with
  | VInt n => pretty n
  | VStr s => s
  | _ => repr v
  end.

Definition layer_pattern (repr : pyval -> string) (layer_number : pyval) : string :=
  ("layer." +:+ format_value layer_number repr +:+ ".")%string.

(** The elements of a string: its one-character substrings. *)
Fixpoint characters (s : string) : list string :=
  match s with
  | EmptyString => []
  | String c s' => String c EmptyString :: characters s'
  end.

(** First loop: one group per entry of [custom_parameter_groups]. Each
    entry loses its ["params"] key; the second component is the list of
    entries as the loop leaves them in the configuration. A ["params"]
    entry is a list of names. Given a string instead, [update] adds its
    characters to the claimed names and [n in params] is the substring
    test; a number is not iterable, [update] raises. The dictionaries of
    the list are distinct objects. *)
Fixpoint named_groups (named : list (string * P)) (gs : list pydict)
    (custom_parameter_names : gset string)
    : outcome (list param_group * gset string) * list pydict :=
  match gs with
  | [] => (Ret ([], custom_parameter_names), [])
  | group :: rest =>
      match dict_pop "params" group with
      | Raise e => (Raise e, group :: rest)
      | Ret (VNames params, group') =>
          let names := custom_parameter_names ∪ list_to_set params in
          let pg := {| pg_options := group';
                       pg_params := select (fun n => bool_decide (n ∈ params)) named |} in
          let '(r, rest') := named_groups named rest names in
          (try ' (pgs, names') <- r; Ret (pg :: pgs, names'), group' :: rest')
      | Ret (VStr params, group') =>
          let names := custom_parameter_names ∪ list_to_set (characters params) in
          let pg := {| pg_options := group';
                       pg_params := select (fun n => str_contains n params) named |} in
          let '(r, rest') := named_groups named rest names in
          (try ' (pgs, names') <- r; Ret (pg :: pgs, names'), group' :: rest')
      | Ret (_, group') => (Raise TypeError, group' :: rest)
      end
  end.

(** The inner loop of the second stage: the parameters of one layer that
    are not claimed yet, split by the no-decay markers, and the names
    claimed so far. *)
Fixpoint layer_split (layer : string) (named : list (string * P))
    (custom_parameter_names : gset string)
    : list P * list P * gset string :=
  match named with
  | [] => ([], [], custom_parameter_names)
  | (n, p) :: rest =>
      if bool_decide (n ∉ custom_parameter_names) && str_contains layer n then
        let '(params_d, params_nd, names) :=
          layer_split layer rest (custom_parameter_names ∪ {[ n ]}) in
        if is_no_decay n then (params_d, p :: params_nd, names)
        else (p :: params_d, params_nd, names)
      else layer_split layer rest custom_parameter_names
  end.

(** Second loop: two groups per entry of [custom_layer_parameters]. *)
Fixpoint layer_groups (repr : pyval -> string) (named : list (string * P))
    (gs : list pydict) (custom_parameter_names : gset string)
    : outcome (list param_group * gset string) * list pydict :=
  match gs with
  | [] => (Ret ([], custom_parameter_names), [])
  | group :: rest =>
      match dict_pop "layer" group with
      | Raise e => (Raise e, group :: rest)
      | Ret (layer_number, group') =>
          let layer := layer_pattern repr layer_number in
          let '(params_d, params_nd, names) :=
            layer_split layer named custom_parameter_names in
          let group_d := {| pg_options := group'; pg_params := params_d |} in
          let group_nd :=
            {| pg_options := <["weight_decay" := VFloat PyFloat.zero]> group';
               pg_params := params_nd |} in
          let '(r, rest') := layer_groups repr named rest names in
          (try ' (pgs, names') <- r; Ret (group_d :: group_nd :: pgs, names'),
           group' :: rest')
      end
  end.

(** The two catch-all groups. *)
Definition default_groups (wd : pyfloat) (named : list (string * P))
    (custom_parameter_names : gset string) : list param_group :=
  [ {| pg_options := {[ "weight_decay" := VFloat wd ]};
       pg_params := select (fun n => bool_decide (n ∉ custom_parameter_names)
                                     && negb (is_no_decay n)) named |};
    {| pg_options := {[ "weight_decay" := VFloat PyFloat.zero ]};
       pg_params := select (fun n => bool_decide (n ∉ custom_parameter_names)
                                     && is_no_decay n) named |} ].

(** Lines 63-115 as a whole: [optimizer_grouped_parameters], and the
    configuration as the two loops leave it. *)
Definition build_param_groups (repr : pyval -> string)
    (named : list (string * P)) (args : config)
    : outcome (list param_group) * config :=
  let '(r1, cpg) := named_groups named (custom_parameter_groups args) ∅ in
  let args1 := set_custom_parameter_groups cpg args in
  match r1 with
  | Raise e => (Raise e, args1)
  | Ret (groups1, names1) =>
      let '(r2, clp) :=
        layer_groups repr named (custom_layer_parameters args1) names1 in
      let args2 := set_custom_layer_parameters clp args1 in
      match r2 with
      | Raise e => (Raise e, args2)
      | Ret (groups2, names2) =>
          (Ret (groups1 ++ groups2 ++
                (if train_custom_parameters_only args2 then []
                 else default_groups (weight_decay args2) named names2)),
           args2)
      end
  end.

End ParamGroups.

Arguments param_group P : clear implicits.

(** ** Tensors, batches and data loaders *)

(** An integer tensor of token ids (batch rows of positions) and the device
    that holds it. *)
Record itensor : Type := {
  it_rows : list (list Z);
  it_device : string
}.

(** [t.to(device)] *)
Definition it_to (device : string) (t : itensor) : itensor :=
  {| it_rows := it_rows t; it_device := device |}.

(** [t.clone()] is a fresh tensor with the same entries on the same device. *)
Definition it_clone (t : itensor) : itensor :=
  {| it_rows := it_rows t; it_device := it_device t |}.

(** [t[t == v] = w]: in-place masked assignment. *)
Definition it_masked_fill (v w : Z) (t : itensor) : itensor :=
  {| it_rows := map (map (fun x => if x =? v then w else x)) (it_rows t);
     it_device := it_device t |}.

(** [t[mask_source == v] = w] where the mask comes from another tensor of
    the same shape. *)
Definition it_masked_fill_by (src : itensor) (v w : Z) (t : itensor) : itensor :=
  {| it_rows :=
       zip_with (zip_with (fun s x => if s =? v then w else x))
                (it_rows src) (it_rows t);
     it_device := it_device t |}.

(** [y[:, :-1]] and [y[:, 1:]] *)
Definition it_drop_last_col (t : itensor) : itensor :=
  {| it_rows := map (@removelast Z) (it_rows t); it_device := it_device t |}.

Definition it_drop_first_col (t : itensor) : itensor :=
  {| it_rows := map (@tail Z) (it_rows t); it_device := it_device t |}.

(** A batch is a tuple of tensors or a mapping of named tensors, depending
    on the model family; [tuple(t for t in batch)] of a mapping is the tuple
    of its keys. These three shapes are the batches of the embedding: other
    objects that Python can index (a single stacked tensor, a mapping with
    integer keys) are outside it, and nothing is stated about them. *)
Inductive batch : Type :=
| BatchTuple (ts : list itensor)
| BatchDict (d : gmap string itensor)
| BatchKeys (ks : list string).

(** The named-tensor mapping handed to the model. *)
Abbreviation inputs := (gmap string itensor).

Record example : Type := {
  input_text : string;
  output_text : string
}.

(** A data loader, by what the trainer observes of it: the batches an
    iteration yields ([len] is their number), [len(dl.dataset)], and the
    [examples] attribute when it has one. *)
Record dataloader : Type := {
  dl_batches : list batch;
  dl_dataset_len : Z;
  dl_examples : option (list example)
}.

Record tokenizer : Type := {
  pad_token_id : Z
}.

(** ** Events and the file system *)

(** What [logging.info] and [wandb.log] receive. *)
Inductive event : Type :=
| LogTrainDevice (device : string)
| LogWarmupSteps (n : Z)
| LogTrainBatch (epoch batch_idx len_dl : Z) (current_loss : pyfloat)
| LogEvalLen (len_dl n_batches : Z)
| LogEvalRange (i start_index end_index : Z)
| LogResults (r : pydict)
| WandbLog (r : pydict).

(** The file system, by the paths the trainer names. *)
Record filesystem : Type := {
  fs_dirs : gset string;
  fs_files : gmap string string
}.


(** Paths are compared as written: two spellings of one path are two
    paths here, and a path below a file is not recognised as such. *)

Fixpoint ends_with_slash (s : string) : bool :=
  match s with
  | EmptyString => false
  | String c EmptyString => bool_decide (c = "/"%char)
  | String _ s' => ends_with_slash s'
  end.

(** [os.path.join(a, b)] *)
Definition path_join (a b : string) : string :=
  if String.prefix "/" b then b
  else if bool_decide (a = EmptyString) || ends_with_slash a then a +:+ b
  else a +:+ "/" +:+ b.


(** [os.makedirs(d, exist_ok=True)], by what it does to [d] itself. The
    missing parents of [d], which the call creates too, are not entered in
    [fs_dirs]: the set lists the directories that the trainer names and
    says nothing of the others. *)
Definition makedirs (d : string) (f : filesystem) : outcome filesystem :=
  if bool_decide (d = EmptyString) then Raise FileNotFoundError
  else if bool_decide (d ∈ dom (fs_files f)) then Raise (FileExistsError d)
  else Ret {| fs_dirs := fs_dirs f ∪ {[ d ]}; fs_files := fs_files f |}.

(** [with open(path, "w") as writer: ...] with everything written. *)
Definition write_file (path content : string) (f : filesystem)
    : outcome filesystem :=
  if bool_decide (path ∈ fs_dirs f) then Raise (IsADirectoryError path)
  else Ret {| fs_dirs := fs_dirs f;
              fs_files := <[ path := content ]> (fs_files f) |}.


(** ** The optimizer, by what the trainer binds it to *)

Inductive optimizer_family : Type := AdamW | SGD.

(** ** The external runtime *)

(** What the trainer calls in the tensor runtime and the pretrained-model
    library. The loss tensor [outputs[0]] is given by its entries (a single
    one unless replicas return one loss each). *)
Class Runtime : Type := {
  Model : Type;
  Param : Type;
  OptState : Type;
  Scaler : Type;
  (** [model.named_parameters()] and the entries of a parameter tensor *)
  named_parameters : Model -> list (string * Param);
  param_data : Param -> list R;
  (** [model.to(device)], [model.train()], [model.eval()],
      [model.zero_grad()], [torch.nn.DataParallel(model)],
      [copy.deepcopy(model)] *)
  model_to : string -> Model -> Model;
  model_train : Model -> Model;
  model_eval : Model -> Model;
  zero_grad : Model -> Model;
  data_parallel : Model -> Model;
  deepcopy : Model -> Model;
  deepcopy_data :
    forall m, map param_data (map snd (named_parameters (deepcopy m)))
              = map param_data (map snd (named_parameters m));
  (** the loss [outputs[0]] of a model call on the inputs, under
      [amp.autocast()] when the flag is set *)
  forward_loss : bool -> Model -> inputs -> list R;
  (** [loss.backward()] and [scaler.scale(loss).backward()]: the gradients of
      the loss, given as a function of the model, are added to the model's *)
  backward : option Scaler -> (Model -> list R) -> Model -> Model;
  clip_grad_norm : pyfloat -> Model -> Model;
  (** the optimizer's internal state and [optimizer.step()] *)
  opt_init : optimizer_family -> list Param -> OptState;
  opt_step : OptState -> Model -> OptState * Model;
  (** the scheduler's effect on the optimizer at construction and at
      [scheduler.step()], for warmup and total step counts *)
  sched_apply : Z -> Z -> Z -> OptState -> OptState;
  (** [amp.GradScaler()] and its methods *)
  grad_scaler : Scaler;
  scaler_unscale : Scaler -> OptState -> Model -> Model;
  scaler_step : Scaler -> OptState -> Model -> OptState * Model;
  scaler_update : Scaler -> Scaler;
  (** [c * x] for a Python float [c] and a tensor entry [x]: the product in
      the reals when [c] is finite. With [c] an infinity or NaN the entry
      becomes an infinity or NaN, which no real number stands for: nothing
      is known of it then *)
  scalar_mul : pyfloat -> R -> R;
  scalar_mul_finite :
    forall c r x, PyFloat.to_R c = Some r -> scalar_mul c x = (r * x)%R;
  (** [t.item()] of a one-entry tensor, as a Python float *)
  item_float : R -> pyfloat;
  (** [str(v)] and [repr(v)] *)
  py_str : pyval -> string;
  (** [self.predict] and [self.compute_metrics], which the class does not
      define: [None] unless a subclass supplies them *)
  predict : option (Model -> list string -> list string);
  compute_metrics : option (list string -> list string -> pydict)
}.

Section Trainer.

Context `{RT : Runtime}.

(** [model.parameters()] *)
Definition parameters (m : Model) : list Param := map snd (named_parameters m).

(** An optimizer: its family, the parameter groups it is bound to and its
    internal state. Given an iterable of tensors instead of group
    dictionaries, the constructor makes one group of all of them with the
    constructor's own settings. *)
Record optimizer : Type := {
  opt_family : optimizer_family;
  opt_param_groups : list (param_group Param);
  opt_state : OptState
}.

(** [AdamW(params, lr=lr, eps=eps)] with [params] an iterable of tensors;
    the library's default weight decay is 0.0. *)
Definition new_AdamW (params : list Param) (lr eps : pyfloat) : optimizer :=
  {| opt_family := AdamW;
     opt_param_groups :=
       [ {| pg_options := {[ "lr" := VFloat lr; "eps" := VFloat eps;
                             "weight_decay" := VFloat PyFloat.zero ]};
            pg_params := params |} ];
     opt_state := opt_init AdamW params |}.

(** [SGD(params, lr=lr)], likewise with weight decay 0. *)
Definition new_SGD (params : list Param) (lr : pyfloat) : optimizer :=
  {| opt_family := SGD;
     opt_param_groups :=
       [ {| pg_options := {[ "lr" := VFloat lr;
                             "weight_decay" := VFloat PyFloat.zero ]};
            pg_params := params |} ];
     opt_state := opt_init SGD params |}.

(** The linear warmup schedule: its two step counts and the number of
    [step()] calls so far. *)
Record scheduler : Type := {
  num_warmup_steps : Z;
  num_training_steps : Z;
  last_epoch : Z
}.

(** ** The trainer object and the world around it *)

Record trainer : Type := {
  args : config;
  device : string;
  model : Model;
  train_dl : dataloader;
  test_dl : dataloader;
  encoder_tokenizer : tokenizer;
  decoder_tokenizer : tokenizer;
  results : pydict
}.

Record world : Type := {
  self : trainer;
  fs : filesystem;
  events : list event
}.

(** State and exceptions: a raising call keeps the world it reached. *)
Definition M (A : Type) : Type := world -> outcome A * world.

Definition ret {A : Type} (a : A) : M A := fun w => (Ret a, w).

Definition raise {A : Type} (e : exn) : M A := fun w => (Raise e, w).

Definition bind {A B : Type} (m : M A) (k : A -> M B) : M B :=
  fun w =>
    match m w with
    | (Ret a, w') => k a w'
    | (Raise e, w') => (Raise e, w')
    end.

Definition lift {A : Type} (o : outcome A) : M A := fun w => (o, w).

Definition get_self : M trainer := fun w => (Ret (self w), w).

Definition put_self (t : trainer) : M unit :=
  fun w => (Ret tt, {| self := t; fs := fs w; events := events w |}).

Definition emit (e : event) : M unit :=
  fun w => (Ret tt, {| self := self w; fs := fs w; events := events w ++ [e] |}).

Definition get_fs : M filesystem := fun w => (Ret (fs w), w).

Definition put_fs (f : filesystem) : M unit :=
  fun w => (Ret tt, {| self := self w; fs := f; events := events w |}).

End Trainer.

Notation "x <- m ;; k" := (bind m (fun x => k))
  (at level 100, m at next level, right associativity).
Notation "m ;; k" := (bind m (fun _ => k))
  (at level 100, right associativity).

(** [for x in xs: s = body(s, x)], stopping at the first exception. *)
Fixpoint for_each `{RT : Runtime} {A S : Type} (body : S -> A -> M S)
    (xs : list A) (s : S) : M S :=
  match xs with
  | [] => ret s
  | x :: xs' => s' <- body s x;; for_each body xs' s'
  end.

(** [enumerate(xs)] *)
Definition enumerate {A : Type} (xs : list A) : list (Z * A) :=
  zip (seqZ 0 (Z.of_nat (length xs))) xs.

(** [len(xs)] *)
Definition len {A : Type} (xs : list A) : Z := Z.of_nat (length xs).

(** ** Floating-point tensors, idealised *)

Definition Rsum (xs : list R) : R := fold_right Rplus 0%R xs.

(** [t.mean()]: a one-entry tensor. *)
Definition t_mean (t : list R) : list R := [ (Rsum t / INR (length t))%R ].

(** [torch.norm(t)]: the 2-norm. *)
Definition t_norm (t : list R) : R := sqrt (Rsum (map (fun x => x * x)%R t)).

(** [a - b], entry by entry. *)
Definition t_sub (a b : list R) : list R := zip_with Rminus a b.

(** [t.item()]: only a one-entry tensor converts to a Python scalar. *)
Definition t_item `{RT : Runtime} (t : list R) : outcome pyfloat :=
  match t with
  | [x] => Ret (item_float x)
  | _ => Raise ValueError
  end.

(** The squared Euclidean distance of two tensors. *)
Definition sq_dist (a b : list R) : R :=
  Rsum (zip_with (fun x y => (x - y) * (x - y))%R a b).

(** ** Input-batch adapter (_get_inputs_dict) *)

(** [batch[key]] for a string key and [batch[i]] for a position. *)
Definition batch_key (b : batch) (key : string) : outcome itensor :=
  match b with
  | BatchDict d =>
      match d !! key with
      | Some t => Ret t
      | None => Raise (KeyError key)
      end
  | BatchTuple _ | BatchKeys _ => Raise TypeError
  end.

Definition batch_index (b : batch) (i : nat) : outcome itensor :=
  match b with
  | BatchTuple ts =>
      match ts !! i with
      | Some t => Ret t
      | None => Raise IndexError
      end
  | BatchDict _ => Raise (KeyError (pretty (Z.of_nat i)))
  | BatchKeys ks =>
      match ks !! i with
      | Some _ => Raise (AttributeError "clone")
      | None => Raise IndexError
      end
  end.

Definition ignore_index : Z := -100.

Definition get_inputs_dict (model_type device : string)
    (encoder_tokenizer decoder_tokenizer : tokenizer) (b : batch)
    : outcome inputs :=
  if bool_decide (model_type ∈ ["bart"; "marian"]%string) then
    let pad := pad_token_id encoder_tokenizer in
    try source_ids <- batch_key b "source_ids";
    try source_mask <- batch_key b "source_mask";
    try y <- batch_key b "target_ids";
    let y_ids := it_drop_last_col y in
    let lm_labels :=
      it_masked_fill_by (it_drop_first_col y) pad ignore_index
                        (it_clone (it_drop_first_col y)) in
    Ret ({[ "input_ids" := it_to device source_ids;
            "attention_mask" := it_to device source_mask;
            "decoder_input_ids" := it_to device y_ids;
            "labels" := it_to device lm_labels ]} : inputs)
  else if bool_decide (model_type ∈ ["mbart"]%string) then
    try input_ids <- batch_key b "input_ids";
    try attention_mask <- batch_key b "attention_mask";
    try decoder_input_ids <- batch_key b "decoder_input_ids";
    try labels <- batch_key b "labels";
    Ret ({[ "input_ids" := it_to device input_ids;
            "attention_mask" := it_to device attention_mask;
            "decoder_input_ids" := it_to device decoder_input_ids;
            "labels" := it_to device labels ]} : inputs)
  else
    try lm_labels <- batch_index b 1;
    let lm_labels_masked :=
      it_masked_fill (pad_token_id decoder_tokenizer) ignore_index
                     (it_clone lm_labels) in
    try input_ids <- batch_index b 0;
    Ret ({[ "input_ids" := it_to device input_ids;
            "decoder_input_ids" := it_to device lm_labels;
            "labels" := it_to device lm_labels_masked ]} : inputs).

Section Methods.

Context `{RT : Runtime}.

(** ** Field updates of the trainer object *)

Definition set_args (a : config) (t : trainer) : trainer :=
  {| args := a; device := device t; model := model t;
     train_dl := train_dl t; test_dl := test_dl t;
     encoder_tokenizer := encoder_tokenizer t;
     decoder_tokenizer := decoder_tokenizer t; results := results t |}.

Definition set_model (m : Model) (t : trainer) : trainer :=
  {| args := args t; device := device t; model := m;
     train_dl := train_dl t; test_dl := test_dl t;
     encoder_tokenizer := encoder_tokenizer t;
     decoder_tokenizer := decoder_tokenizer t; results := results t |}.

Definition set_results (r : pydict) (t : trainer) : trainer :=
  {| args := args t; device := device t; model := model t;
     train_dl := train_dl t; test_dl := test_dl t;
     encoder_tokenizer := encoder_tokenizer t;
     decoder_tokenizer := decoder_tokenizer t; results := r |}.

Definition modify_self (f : trainer -> trainer) : M unit :=
  t <- get_self;; put_self (f t).

(** [__init__] and [set_data] *)
Definition init (a : config) (dev : string) (m : Model)
    (train test : dataloader) (tok : tokenizer * tokenizer) : trainer :=
  {| args := a; device := dev; model := model_to dev m;
     train_dl := train; test_dl := test;
     encoder_tokenizer := fst tok; decoder_tokenizer := snd tok;
     results := ∅ |}.

Definition set_data (train test : dataloader) (t : trainer) : trainer :=
  {| args := args t; device := device t; model := model t;
     train_dl := train; test_dl := test;
     encoder_tokenizer := encoder_tokenizer t;
     decoder_tokenizer := decoder_tokenizer t; results := results t |}.

(** [self._get_inputs_dict(batch)] *)
Definition self_get_inputs_dict (t : trainer) (b : batch) : outcome inputs :=
  get_inputs_dict (model_type (args t)) (device t)
                  (encoder_tokenizer t) (decoder_tokenizer t) b.

(** ** build_optimizer *)

(** Line 282 and the right-hand side of line 283. *)
Definition compute_warmup_steps (a : config) (iteration_in_total : Z) : outcome Z :=
  try product <- PyFloat.int_mul iteration_in_total (warmup_ratio a);
  try warmup <- PyFloat.ceil product;
  Ret (if warmup_steps a =? 0 then warmup else warmup_steps a).

(** Lines 285-288: the optimizer family follows the federated algorithm;
    either one is built from [model.parameters()]. *)
Definition select_optimizer (a : config) (m : Model) : optimizer :=
  if bool_decide (fl_algorithm a = "FedOPT") || bool_decide (fl_algorithm a = EmptyString)
  then new_AdamW (parameters m) (learning_rate a) (adam_epsilon a)
  else new_SGD (parameters m) (learning_rate a).

(** [get_linear_schedule_with_warmup(optimizer, warmup, total)]: the
    scheduler, and the optimizer with its learning rate set for step 0. *)
Definition get_linear_schedule_with_warmup (o : optimizer) (warmup total : Z)
    : optimizer * scheduler :=
  ({| opt_family := opt_family o;
      opt_param_groups := opt_param_groups o;
      opt_state := sched_apply warmup total 0 (opt_state o) |},
   {| num_warmup_steps := warmup;
      num_training_steps := total;
      last_epoch := 0 |}).

Definition build_optimizer (m : Model) (iteration_in_total : Z)
    : M (optimizer * scheduler) :=
  t <- get_self;;
  ws <- lift (compute_warmup_steps (args t) iteration_in_total);;
  modify_self (fun t => set_args (set_warmup_steps ws (args t)) t);;
  t <- get_self;;
  emit (LogWarmupSteps (warmup_steps (args t)));;
  let optimizer := select_optimizer (args t) m in
  ret (get_linear_schedule_with_warmup optimizer (warmup_steps (args t))
                                       iteration_in_total).

(** ** train_model *)

(** The local variables of [train_model] that the loops read and write. *)
Record train_locals : Type := {
  tl_optimizer : optimizer;
  tl_scheduler : scheduler;
  tl_scaler : option Scaler;
  tl_global_model : option Model;
  tl_global_step : Z;
  tl_tr_loss : pyfloat
}.

(** [mu / 2], a Python float. *)
Definition half (mu : pyfloat) : pyfloat :=
  SFdiv PyFloat.prec PyFloat.emax mu PyFloat.two.

(** Lines 174-178: the accumulated [fed_prox_reg]. *)
Definition fed_prox_reg (mu : pyfloat) (m global_model : Model) : R :=
  fold_left
    (fun reg pg =>
       (reg + scalar_mul (half mu)
                ((t_norm (t_sub (param_data (fst pg)) (param_data (snd pg)))) ^ 2))%R)
    (zip (parameters m) (parameters global_model)) 0%R.

(** Lines 160-171: the loss of the model call, averaged over the replicas
    when there are several. *)
Definition model_loss (a : config) (inp : inputs) (m : Model) : list R :=
  let loss := forward_loss (fp16 a) m inp in
  if 1 <? n_gpu a then t_mean loss else loss.

(** Lines 160-179: the loss tensor of one batch as a function of the
    model. Without the FedProx tag [global_model] is never read. *)
Definition batch_loss (a : config) (global_model : option Model)
    (inp : inputs) (m : Model) : list R :=
  let loss := model_loss a inp m in
  if bool_decide (fl_algorithm a = "FedProx") then
    match global_model with
    | Some g => map (fun x => (x + fed_prox_reg (fedprox_mu a) m g)%R) loss
    | None => loss
    end
  else loss.

(** Lines 183-184. *)
Definition scaled_loss (a : config) (global_model : option Model)
    (inp : inputs) (m : Model) : list R :=
  let loss := batch_loss a global_model inp m in
  if 1 <? gradient_accumulation_steps a
  then map (fun x => (x / IZR (gradient_accumulation_steps a))%R) loss
  else loss.

(** Lines 197-208: the optimizer step taken on every N-th batch. *)
Definition optimizer_update (a : config) (s : train_locals) (m : Model)
    : train_locals * Model :=
  let amp_scaler := if fp16 a then tl_scaler s else None in
  let m := match amp_scaler with
           | Some sc => scaler_unscale sc (opt_state (tl_optimizer s)) m
           | None => m
           end in
  let m := clip_grad_norm (max_grad_norm a) m in
  let '(st, m, sc) :=
    match amp_scaler with
    | Some sc =>
        let '(st, m) := scaler_step sc (opt_state (tl_optimizer s)) m in
        (st, m, Some (scaler_update sc))
    | None =>
        let '(st, m) := opt_step (opt_state (tl_optimizer s)) m in
        (st, m, tl_scaler s)
    end in
  let sched :=
    {| num_warmup_steps := num_warmup_steps (tl_scheduler s);
       num_training_steps := num_training_steps (tl_scheduler s);
       last_epoch := last_epoch (tl_scheduler s) + 1 |} in
  let st := sched_apply (num_warmup_steps sched) (num_training_steps sched)
                        (last_epoch sched) st in
  ({| tl_optimizer := {| opt_family := opt_family (tl_optimizer s);
                         opt_param_groups := opt_param_groups (tl_optimizer s);
                         opt_state := st |};
      tl_scheduler := sched;
      tl_scaler := sc;
      tl_global_model := tl_global_model s;
      tl_global_step := tl_global_step s + 1;
      tl_tr_loss := tl_tr_loss s |},
   zero_grad m).

(** Lines 155-208: the body of the batch loop. *)
Definition train_batch (epoch : Z) (s : train_locals) (ib : Z * batch)
    : M train_locals :=
  let '(batch_idx, b) := ib in
  t <- get_self;;
  let a := args t in
  inp <- lift (self_get_inputs_dict t b);;
  let loss := batch_loss a (tl_global_model s) inp (model t) in
  current_loss <- lift (t_item loss);;
  let loss := scaled_loss a (tl_global_model s) inp (model t) in
  modify_self
    (set_model (backward (if fp16 a then tl_scaler s else None)
                         (scaled_loss a (tl_global_model s) inp) (model t)));;
  item <- lift (t_item loss);;
  let s := {| tl_optimizer := tl_optimizer s;
              tl_scheduler := tl_scheduler s;
              tl_scaler := tl_scaler s;
              tl_global_model := tl_global_model s;
              tl_global_step := tl_global_step s;
              tl_tr_loss := PyFloat.add (tl_tr_loss s) item |} in
  emit (LogTrainBatch epoch batch_idx (len (dl_batches (train_dl t))) current_loss);;
  r <- lift (py_mod (batch_idx + 1) (gradient_accumulation_steps a));;
  if r =? 0 then
    t <- get_self;;
    let '(s, m) := optimizer_update a s (model t) in
    modify_self (set_model m);;
    ret s
  else ret s.

(** Lines 151-208: one epoch, and all of them. *)
Definition train_epoch (s : train_locals) (epoch : Z) : M train_locals :=
  modify_self (fun t => set_model (model_train (model t)) t);;
  t <- get_self;;
  for_each (train_batch epoch) (enumerate (dl_batches (train_dl t))) s.

Definition train_epochs (s : train_locals) : M train_locals :=
  t <- get_self;;
  for_each train_epoch (seqZ 0 (epochs (args t))) s.

(** Lines 54-147: everything before the loops. The parameter groups are
    built (and the configuration entries consumed), but the list
    [optimizer_grouped_parameters] is not used afterwards. *)
Definition train_setup (device_arg : option string) : M train_locals :=
  t <- get_self;;
  let dev := match device_arg with
             | Some d => if bool_decide (d = EmptyString) then device t else d
             | None => device t
             end in
  emit (LogTrainDevice dev);;
  modify_self (fun t => set_model (model_to dev (model t)) t);;
  t <- get_self;;
  let '(groups, a) :=
    build_param_groups py_str (named_parameters (model t)) (args t) in
  put_self (set_args a t);;
  optimizer_grouped_parameters <- lift groups;;
  t <- get_self;;
  per_epoch <- lift (py_floordiv (len (dl_batches (train_dl t)))
                                 (gradient_accumulation_steps (args t)));;
  let iteration_in_total := per_epoch * epochs (args t) in
  built <- build_optimizer (model t) iteration_in_total;;
  let '(optimizer, sched) := built in
  t <- get_self;;
  (if 1 <? n_gpu (args t)
   then put_self (set_model (data_parallel (model t)) t)
   else ret tt);;
  modify_self (fun t => set_model (zero_grad (model t)) t);;
  t <- get_self;;
  (if evaluate_during_training (args t)
   then raise (AttributeError "_create_training_progress_scores")
   else ret tt);;
  let scaler := if fp16 (args t) then Some grad_scaler else None in
  let global_model :=
    if bool_decide (fl_algorithm (args t) = "FedProx")
    then Some (deepcopy (model t)) else None in
  ret {| tl_optimizer := optimizer;
         tl_scheduler := sched;
         tl_scaler := scaler;
         tl_global_model := global_model;
         tl_global_step := 0;
         tl_tr_loss := PyFloat.zero |}.

Definition train_model (device_arg : option string) : M (Z * pyfloat) :=
  s <- train_setup device_arg;;
  s <- train_epochs s;;
  mean_loss <- lift (PyFloat.div_int (tl_tr_loss s) (tl_global_step s));;
  ret (tl_global_step s, mean_loss).

End Methods.

(** ** eval_model *)

Definition str_le (a b : string) : Prop := String.leb a b = true.

#[global] Instance str_le_dec (a b : string) : Decision (str_le a b).
Proof. unfold str_le. apply _. Defined.

(** [sorted(d.keys())] *)
Definition sorted_keys (d : pydict) : list string :=
  merge_sort str_le (map fst (map_to_list d)).

Definition newline : string := String (ascii_of_nat 10) EmptyString.

Section Eval.

Context `{RT : Runtime}.

(** One line of the results file. *)
Definition result_line (d : pydict) (key : string) : string :=
  match d !! key with
  | Some v => key +:+ " = " +:+ py_str v +:+ newline
  | None => EmptyString
  end.

(** Lines 265-266: what the loop writes. *)
Definition results_text (d : pydict) : string :=
  fold_right String.append EmptyString (map (result_line d) (sorted_keys d)).

(** [tuple(t for t in batch)] *)
Definition as_tuple (b : batch) : batch :=
  match b with
  | BatchTuple ts => BatchTuple ts
  | BatchDict d => BatchKeys (map fst (map_to_list d))
  | BatchKeys ks => BatchKeys ks
  end.

(** Lines 247-249. *)
Definition eval_range (eval_batch_size n_batches test_sample_len i : Z) : Z * Z :=
  let start_index := eval_batch_size * i in
  let end_index := if bool_decide (i ≠ n_batches - 1)
                   then start_index + eval_batch_size
                   else test_sample_len in
  (start_index, end_index).

(** Lines 233-250: the body of the evaluation loop, on the locals
    [eval_loss] and [nb_eval_steps]. *)
Definition eval_batch (n_batches test_sample_len : Z)
    (s : pyfloat * Z) (ib : Z * batch) : M (pyfloat * Z) :=
  let '(i, b) := ib in
  let '(eval_loss, nb_eval_steps) := s in
  t <- get_self;;
  inp <- lift (self_get_inputs_dict t (as_tuple b));;
  tmp_eval_loss <- lift (t_item (forward_loss false (model t) inp));;
  let '(start_index, end_index) :=
    eval_range (eval_batch_size (args t)) n_batches test_sample_len i in
  emit (LogEvalRange i start_index end_index);;
  ret (PyFloat.add eval_loss tmp_eval_loss, nb_eval_steps + 1).

(** Lines 269-275: the generated-text branch, on the locals [result] and
    [model_preds] ([None] while the name is unbound). *)
Definition generated_text (result : pydict) : M (pydict * option (list string)) :=
  t <- get_self;;
  if evaluate_generated_text (args t) then
    examples <- lift (match dl_examples (test_dl t) with
                      | Some exs => Ret exs
                      | None => Raise (AttributeError "examples")
                      end);;
    let to_predict := map input_text examples in
    let references := map output_text examples in
    self_predict <- lift (match predict with
                          | Some f => Ret f
                          | None => Raise (AttributeError "predict")
                          end);;
    let model_preds := self_predict (model t) to_predict in
    self_compute_metrics <- lift (match compute_metrics with
                                  | Some f => Ret f
                                  | None => Raise (AttributeError "compute_metrics")
                                  end);;
    let result := self_compute_metrics references model_preds in
    modify_self (fun t => set_results (result ∪ results t) t);;
    ret (result, Some model_preds)
  else ret (result, None).

(** Lines 213-250: the loss pass over the evaluation batches. *)
Definition eval_pass (device_arg : option string) : M (pyfloat * Z) :=
  t <- get_self;;
  let dev := match device_arg with
             | Some d => if bool_decide (d = EmptyString) then device t else d
             | None => device t
             end in
  let n_batches := len (dl_batches (test_dl t)) in
  let test_sample_len := dl_dataset_len (test_dl t) in
  modify_self (fun t => set_model (model_eval (model_to dev (model t))) t);;
  emit (LogEvalLen (len (dl_batches (test_dl t))) n_batches);;
  for_each (eval_batch n_batches test_sample_len)
           (enumerate (dl_batches (test_dl t))) (PyFloat.zero, 0).

(** Lines 252-267: the mean loss, the results file and the merge into
    [self.results]. *)
Definition eval_report (acc : pyfloat * Z) : M pydict :=
  let '(eval_loss, nb_eval_steps) := acc in
  t <- get_self;;
  let eval_output_dir := output_dir (args t) in
  eval_loss <- lift (PyFloat.div_int eval_loss nb_eval_steps);;
  let result : pydict := <[ "eval_loss" := VFloat eval_loss ]>
                           {[ "eval_loss" := VFloat eval_loss ]} in
  emit (WandbLog result);;
  f <- get_fs;;
  f <- lift (makedirs eval_output_dir f);;
  put_fs f;;
  let output_eval_file := path_join eval_output_dir "eval_results.txt" in
  f <- lift (write_file output_eval_file (results_text result) f);;
  put_fs f;;
  modify_self (fun t => set_results (result ∪ results t) t);;
  ret result.

Definition eval_model (device_arg : option string)
    : M (pydict * list string * unit) :=
  acc <- eval_pass device_arg;;
  result <- eval_report acc;;
  generated <- generated_text result;;
  let '(result, model_preds) := generated in
  t <- get_self;;
  emit (LogResults (results t));;
  match model_preds with
  | Some preds => ret (result, preds, tt)
  | None => raise (UnboundLocalError "model_preds")
  end.

End Eval.

(** ** A small runtime and trainer, to run the methods on *)

Module Demo.

(** A model is its named parameter tensors; the optimizer step moves
    every entry by one. *)
Definition demo_step (m : list (string * list R)) : list (string * list R) :=
  map (fun np => (fst np, map (fun x => (x - 1)%R) (snd np))) m.

(** The product with a float that is not finite is set to 0. *)
Definition demo_scalar_mul (c : pyfloat) (x : R) : R :=
  match PyFloat.to_R c with
  | Some r => (r * x)%R
  | None => 0%R
  end.

#[local] Instance runtime : Runtime := {|
  Model := list (string * list R);
  Param := list R;
  OptState := unit;
  Scaler := unit;
  named_parameters := fun m => m;
  param_data := fun p => p;
  model_to := fun _ m => m;
  model_train := fun m => m;
  model_eval := fun m => m;
  zero_grad := fun m => m;
  data_parallel := fun m => m;
  deepcopy := fun m => m;
  deepcopy_data := fun m => eq_refl;
  forward_loss := fun _ _ _ => [0%R];
  backward := fun _ _ m => m;
  clip_grad_norm := fun _ m => m;
  opt_init := fun _ _ => tt;
  opt_step := fun st m => (st, demo_step m);
  sched_apply := fun _ _ _ st => st;
  grad_scaler := tt;
  scaler_unscale := fun _ _ m => m;
  scaler_step := fun _ st m => (st, demo_step m);
  scaler_update := fun sc => sc;
  scalar_mul := demo_scalar_mul;
  scalar_mul_finite := fun c r x H =>
    f_equal (fun o => match o with Some r' => (r' * x)%R | None => 0%R end) H;
  item_float := fun _ => PyFloat.zero;
  py_str := fun v => match v with VStr s => s | VInt n => pretty n | _ => "0.0"%string end;
  predict := None;
  compute_metrics := None
|}.

Definition demo_model : list (string * list R) :=
  [ ("encoder.layer.0.weight", [1%R; 2%R]);
    ("encoder.layer.0.bias", [0%R]);
    ("head.weight", [3%R]) ]%string.

Definition make_args (groups layers : list pydict) (accumulation n_epochs : Z)
    : config :=
  {| custom_parameter_groups := groups;
     custom_layer_parameters := layers;
     train_custom_parameters_only := false;
     weight_decay := PyFloat.hundredth;
     learning_rate := PyFloat.hundredth;
     adam_epsilon := PyFloat.hundredth;
     warmup_ratio := PyFloat.tenth;
     warmup_steps := 0;
     gradient_accumulation_steps := accumulation;
     epochs := n_epochs;
     n_gpu := 1;
     fp16 := false;
     evaluate_during_training := false;
     max_grad_norm := PyFloat.two;
     fl_algorithm := "FedProx";
     fedprox_mu := PyFloat.tenth;
     model_type := "bert";
     eval_batch_size := 8;
     output_dir := "/tmp/";
     evaluate_generated_text := false |}.

Definition demo_args : config := make_args [] [] 1 1.

Definition on_cpu (rows : list (list Z)) : itensor :=
  {| it_rows := rows; it_device := "cpu" |}.

Definition demo_batch : batch :=
  BatchTuple [ on_cpu [[5; 6; 7]; [8; 9; 0]]; on_cpu [[1; 2; 0]; [3; 0; 0]] ].

Definition demo_loader (n : nat) (samples : Z) : dataloader :=
  {| dl_batches := repeat demo_batch n;
     dl_dataset_len := samples;
     dl_examples := None |}.

Definition demo_trainer (a : config) (train test : dataloader) : trainer :=
  init a "cpu" demo_model train test
       ({| pad_token_id := 0 |}, {| pad_token_id := 0 |}).

Definition demo_world (a : config) (train test : dataloader) : world :=
  {| self := demo_trainer a train test;
     fs := {| fs_dirs := ∅; fs_files := ∅ |};
     events := [] |}.

(** An evaluation stream of three batches over 21 samples, and an
    empty one. *)
Definition eval_world : world :=
  demo_world demo_args (demo_loader 1 8) (demo_loader 3 21).

Definition empty_eval_world : world :=
  demo_world demo_args (demo_loader 1 8) (demo_loader 0 0).

(** A configuration in which two custom groups list the same name. *)
Definition overlapping_args : config :=
  set_custom_parameter_groups
    [ {[ "params" := VNames ["head.weight"] ]};
      {[ "params" := VNames ["head.weight"]; "lr" := VFloat PyFloat.tenth ]} ]%string
    demo_args.

(** Two epochs of three batches, an optimizer step every second batch. *)
Definition accumulating_world : world :=
  demo_world (make_args [] [] 2 2) (demo_loader 3 24) (demo_loader 1 8).

(** One custom parameter group and one custom layer entry. *)
Definition custom_args : config :=
  make_args [ {[ "params" := VNames ["head.weight"]; "lr" := VFloat PyFloat.tenth ]} ]
            [ {[ "layer" := VInt 0; "lr" := VFloat PyFloat.hundredth ]} ] 1 1.

Definition custom_world : world :=
  demo_world custom_args (demo_loader 2 16) (demo_loader 1 8).

Definition layered : list (string * nat) :=
  [ ("encoder.layer.0.weight", 0); ("encoder.layer.0.bias", 1);
    ("encoder.layer.1.weight", 2); ("head.weight", 3); ("head.bias", 4) ]%string%nat.

(** Parameters given by their position in the model. *)
Definition numbered : list (string * nat) :=
  [ ("head.weight", 0); ("head.bias", 1) ]%string%nat.

End Demo.

(** ** Notions used to state the properties *)

(** The entry of an integer tensor at a row and a position. *)
Definition it_entry (t : itensor) (i j : nat) : option Z :=
  match it_rows t !! i with
  | Some row => row !! j
  | None => None
  end.

(** The names a custom parameter group lists. *)
Definition group_names (g : pydict) : list string :=
  match g !! "params" with
  | Some (VNames names) => names
  | _ => []
  end.

(** The layer pattern of a custom layer entry. *)
Definition group_layer (repr : pyval -> string) (g : pydict) : string :=
  match g !! "layer" with
  | Some v => layer_pattern repr v
  | None => EmptyString
  end.

(** Every name listed by some custom parameter group, and the patterns of
    the custom layer entries. *)
Definition custom_names (a : config) : list string :=
  concat (map group_names (custom_parameter_groups a)).

Definition layer_patterns (repr : pyval -> string) (a : config) : list string :=
  map (group_layer repr) (custom_layer_parameters a).

Definition in_custom (a : config) (n : string) : bool :=
  bool_decide (n ∈ custom_names a).

Definition matches_any (patterns : list string) (n : string) : bool :=
  existsb (fun layer => str_contains layer n) patterns.

Definition in_layer (repr : pyval -> string) (a : config) (n : string) : bool :=
  matches_any (layer_patterns repr a) n.

(** A configuration whose custom entries have the keys the loops pop. *)
Definition well_formed_groups (a : config) : Prop :=
  Forall (fun g => exists names, g !! "params" = Some (VNames names))
         (custom_parameter_groups a)
  /\ Forall (fun g => is_Some (g !! "layer")) (custom_layer_parameters a).

(** No name is listed by two custom parameter groups. *)
Definition disjoint_groups (a : config) : Prop :=
  ForallOrdPairs (fun g1 g2 => group_names g1 ## group_names g2)
                 (custom_parameter_groups a).

Section Notions.

Context `{RT : Runtime}.

(** The device a method call runs on. *)
Definition call_device (device_arg : option string) (t : trainer) : string :=
  match device_arg with
  | Some d => if bool_decide (d = EmptyString) then device t else d
  | None => device t
  end.

(** The fields of the configuration other than the two custom lists and
    [warmup_steps]. *)
Definition other_fields (a : config) :=
  (train_custom_parameters_only a, weight_decay a, learning_rate a,
   adam_epsilon a, warmup_ratio a, gradient_accumulation_steps a, epochs a,
   n_gpu a, fp16 a, evaluate_during_training a, max_grad_norm a,
   fl_algorithm a, fedprox_mu a, model_type a, eval_batch_size a,
   output_dir a, evaluate_generated_text a).

(** The loss of a model call converts to a Python scalar: it has one
    entry, or it is averaged over the replicas first. *)
Definition scalar_loss (a : config) : Prop :=
  1 < n_gpu a \/ forall fp m inp, exists x, forward_loss fp m inp = [x].

(** The optimizer steps of a run: per epoch, one for every full window of
    [gradient_accumulation_steps] batches. *)
Definition planned_steps (t : trainer) : Z :=
  epochs (args t)
  * (len (dl_batches (train_dl t)) / gradient_accumulation_steps (args t)).

(** What a call of [train_model] needs to get to its return statement. *)
Definition train_ready (t : trainer) : Prop :=
  well_formed_groups (args t)
  /\ 0 < gradient_accumulation_steps (args t)
  /\ evaluate_during_training (args t) = false
  /\ returns (compute_warmup_steps (args t)
               (len (dl_batches (train_dl t)) / gradient_accumulation_steps (args t)
                * epochs (args t)))
  /\ Forall (fun b => returns (self_get_inputs_dict t b)) (dl_batches (train_dl t))
  /\ scalar_loss (args t)
  /\ 0 < planned_steps t
  /\ (exists f, PyFloat.of_int (planned_steps t) = Ret f /\ PyFloat.is_zero f = false).

(** The model as [train_model] has it when the loops start. *)
Definition setup_model (device_arg : option string) (t : trainer) (a : config) : Model :=
  let m := model_to (call_device device_arg t) (model t) in
  zero_grad (if 1 <? n_gpu a then data_parallel m else m).

(** Between two worlds nothing but the model (and the log) differs. *)
Definition model_changed (w w' : world) : Prop :=
  (exists m, self w' = set_model m (self w)) /\ fs w' = fs w.

(** The trainer during the evaluation loop. *)
Definition eval_trainer (device_arg : option string) (t : trainer) : trainer :=
  set_model (model_eval (model_to (call_device device_arg t) (model t))) t.

(** The loss value one evaluation batch contributes. *)
Definition eval_batch_loss (t : trainer) (b : batch) : outcome pyfloat :=
  try inp <- self_get_inputs_dict t (as_tuple b);
  t_item (forward_loss false (model t) inp).

(** The event the evaluation loop logs for batch [i]. *)
Definition range_event (t : trainer) (i : Z) : event :=
  let b := eval_batch_size (args t) in
  LogEvalRange i (b * i)
    (if bool_decide (i = len (dl_batches (test_dl t)) - 1)
     then dl_dataset_len (test_dl t) else b * i + b).

(** The proximal term as the description of FedProx has it: a factor
    times the sum, over the parameters, of the squared distance between
    the parameter of the model and the parameter of the snapshot. *)
Definition proximal_term (c : R) (m snapshot : Model) : R :=
  (c * Rsum (map (fun pg => sq_dist (param_data (fst pg)) (param_data (snd pg)))
                 (zip (parameters m) (parameters snapshot))))%R.




End Notions.


(** ** Further notions *)

(** The epoch, the batch index and the loader length that a line of the
    training log names. *)
Definition train_batch_key (ev : event) : option (Z * Z * Z) :=
  match ev with
  | LogTrainBatch epoch batch_idx len_dl _ => Some (epoch, batch_idx, len_dl)
  | _ => None
  end.

(** The batches of a run, in the order of the two loops. *)
Definition batch_keys (n_epochs n_batches : Z) : list (Z * Z * Z) :=
  flat_map (fun epoch => map (fun i => (epoch, i, n_batches)) (seqZ 0 n_batches))
           (seqZ 0 n_epochs).

Section MoreNotions.

Context `{RT : Runtime}.

(** What a call of [train_model] needs to get through its loops. *)
Definition loops_ready (t : trainer) : Prop :=
  well_formed_groups (args t)
  /\ gradient_accumulation_steps (args t) <> 0
  /\ evaluate_during_training (args t) = false
  /\ returns (compute_warmup_steps (args t)
               (len (dl_batches (train_dl t)) / gradient_accumulation_steps (args t)
                * epochs (args t)))
  /\ Forall (fun b => returns (self_get_inputs_dict t b)) (dl_batches (train_dl t))
  /\ scalar_loss (args t).

(** The configuration once the loops over the custom entries are through. *)
Definition consumed (a : config) : config :=
  set_custom_layer_parameters
    (map (delete "layer"%string) (custom_layer_parameters a))
    (set_custom_parameter_groups
       (map (delete "params"%string) (custom_parameter_groups a)) a).

End MoreNotions.

(** ** Further trainers, to run the methods on *)

Module Cases.

(** A configuration, by the fields that the cases below vary. *)
Definition variant (mt : string) (groups layers : list pydict)
    (accumulation n_epochs : Z) (during generated only : bool) (out : string)
    : config :=
  {| custom_parameter_groups := groups;
     custom_layer_parameters := layers;
     train_custom_parameters_only := only;
     weight_decay := PyFloat.hundredth;
     learning_rate := PyFloat.hundredth;
     adam_epsilon := PyFloat.hundredth;
     warmup_ratio := PyFloat.tenth;
     warmup_steps := 0;
     gradient_accumulation_steps := accumulation;
     epochs := n_epochs;
     n_gpu := 1;
     fp16 := false;
     evaluate_during_training := during;
     max_grad_norm := PyFloat.two;
     fl_algorithm := "FedProx";
     fedprox_mu := PyFloat.tenth;
     model_type := mt;
     eval_batch_size := 8;
     output_dir := out;
     evaluate_generated_text := generated |}.

(** A batch for the bart and marian types: two rows, padded with 0. *)
Definition source_ids : itensor := Demo.on_cpu [[5; 6; 7]; [8; 9; 0]].
Definition source_mask : itensor := Demo.on_cpu [[1; 1; 1]; [1; 1; 0]].
Definition target_ids : itensor := Demo.on_cpu [[2; 3; 4; 0]; [2; 5; 0; 0]].

Definition keyed : gmap string itensor :=
  {[ "source_ids" := source_ids; "source_mask" := source_mask;
     "target_ids" := target_ids ]}%string.

Definition keyed_loader (n : nat) (samples : Z) : dataloader :=
  {| dl_batches := repeat (BatchDict keyed) n;
     dl_dataset_len := samples;
     dl_examples := None |}.

Definition bart_world : world (RT := Demo.runtime) :=
  Demo.demo_world (variant "bart" [] [] 1 1 false false false "/tmp/")
                  (keyed_loader 1 2) (keyed_loader 2 4).

(** One custom parameter group and layer entries, the second for the
    layer of the first, the third without its key. *)
Definition head_group : pydict :=
  {[ "params" := VNames ["head.weight"]; "lr" := VFloat PyFloat.tenth ]}%string.

Definition layer_0 : pydict :=
  {[ "layer" := VInt 0; "lr" := VFloat PyFloat.hundredth ]}%string.

Definition layer_0_again : pydict :=
  {[ "layer" := VInt 0; "weight_decay" := VFloat PyFloat.tenth ]}%string.

Definition keyless : pydict := {[ "lr" := VFloat PyFloat.tenth ]}%string.

Definition layer_1 : pydict := {[ "layer" := VInt 1 ]}%string.

Definition custom_only_args : config :=
  variant "bert" [head_group] [layer_0] 1 1 false false true "/tmp/".

Definition twice_layered_args : config :=
  variant "bert" [head_group] [layer_0; layer_0_again] 1 1 false false false "/tmp/".

Definition faulty_world : world (RT := Demo.runtime) :=
  Demo.demo_world (variant "bert" [head_group] [layer_0; keyless; layer_1]
                           1 1 false false false "/tmp/")
                  (Demo.demo_loader 2 16) (Demo.demo_loader 1 8).

(** Evaluation during training switched on; no accumulation steps; more
    accumulation steps than batches. *)
Definition during_world : world (RT := Demo.runtime) :=
  Demo.demo_world (variant "bert" [head_group] [layer_0] 1 1 true false false "/tmp/")
                  (Demo.demo_loader 2 16) (Demo.demo_loader 1 8).

Definition zero_accumulation_world : world (RT := Demo.runtime) :=
  Demo.demo_world (variant "bert" [head_group] [layer_0] 0 1 false false false "/tmp/")
                  (Demo.demo_loader 2 16) (Demo.demo_loader 1 8).

Definition stepless_world : world (RT := Demo.runtime) :=
  Demo.demo_world (variant "bert" [] [] 4 2 false false false "/tmp/")
                  (Demo.demo_loader 3 24) (Demo.demo_loader 1 8).

(** No output directory configured. *)
Definition homeless_world : world (RT := Demo.runtime) :=
  Demo.demo_world (variant "bert" [] [] 1 1 false false false EmptyString)
                  (Demo.demo_loader 1 8) (Demo.demo_loader 3 21).

(** A subclass that supplies [predict] and [compute_metrics]: the
    predictions echo the inputs, the metric counts the references. *)
Definition scoring : Runtime :=
  {| Model := Demo.runtime.(Model);
     Param := Demo.runtime.(Param);
     OptState := Demo.runtime.(OptState);
     Scaler := Demo.runtime.(Scaler);
     named_parameters := Demo.runtime.(named_parameters);
     param_data := Demo.runtime.(param_data);
     model_to := Demo.runtime.(model_to);
     model_train := Demo.runtime.(model_train);
     model_eval := Demo.runtime.(model_eval);
     zero_grad := Demo.runtime.(zero_grad);
     data_parallel := Demo.runtime.(data_parallel);
     deepcopy := Demo.runtime.(deepcopy);
     deepcopy_data := Demo.runtime.(deepcopy_data);
     forward_loss := Demo.runtime.(forward_loss);
     backward := Demo.runtime.(backward);
     clip_grad_norm := Demo.runtime.(clip_grad_norm);
     opt_init := Demo.runtime.(opt_init);
     opt_step := Demo.runtime.(opt_step);
     sched_apply := Demo.runtime.(sched_apply);
     grad_scaler := Demo.runtime.(grad_scaler);
     scaler_unscale := Demo.runtime.(scaler_unscale);
     scaler_step := Demo.runtime.(scaler_step);
     scaler_update := Demo.runtime.(scaler_update);
     scalar_mul := Demo.runtime.(scalar_mul);
     scalar_mul_finite := Demo.runtime.(scalar_mul_finite);
     item_float := Demo.runtime.(item_float);
     py_str := Demo.runtime.(py_str);
     predict := Some (fun _ texts => texts);
     compute_metrics :=
       Some (fun references _ =>
               ({[ "references" := VInt (len references) ]} : pydict)%string) |}.

Definition examples : list example :=
  [ {| input_text := "a b"; output_text := "b a" |};
    {| input_text := "c"; output_text := "c" |} ]%string.

Definition scoring_world : world (RT := scoring) :=
  {| self := init (RT := scoring)
               (variant "bert" [] [] 1 1 false true false "/tmp/") "cpu"
               Demo.demo_model (Demo.demo_loader 1 8)
               {| dl_batches := repeat Demo.demo_batch 2;
                  dl_dataset_len := 2;
                  dl_examples := Some examples |}
               ({| pad_token_id := 0 |}, {| pad_token_id := 0 |});
     fs := {| fs_dirs := ∅; fs_files := ∅ |};
     events := [] |}.

End Cases.

(** * Properties *)

(** ** The monad *)

Ltac run_monad :=
  unfold modify_self;
  unfold bind, ret, raise, lift, get_self, put_self, emit, get_fs, put_fs.

Section Loops.
Context `{RT : Runtime}.

Lemma for_each_app {A S : Type} (body : S -> A -> M S) (xs ys : list A) (s : S) (w : world) :
  for_each body (xs ++ ys) s w
  = match for_each body xs s w with
    | (Ret s', w') => for_each body ys s' w'
    | (Raise e, w') => (Raise e, w')
    end.
Proof.
  revert s w. induction xs as [|x xs IH]; intros s w; [reflexivity|].
  cbn. unfold bind. destruct (body s x w) as [[s'|e] w']; [apply IH|reflexivity].
Qed.

(** A loop whose body keeps an invariant keeps it. *)
Lemma for_each_invariant {A S : Type} (I : S -> world -> Prop)
    (body : S -> A -> M S) (xs : list A) :
  (forall s w x s' w', In x xs -> I s w -> body s x w = (Ret s', w') -> I s' w') ->
  forall s w s' w', I s w -> for_each body xs s w = (Ret s', w') -> I s' w'.
Proof.
  induction xs as [|x xs IH]; intros Hbody s w s' w' HI Hrun.
  - cbn in Hrun. injection Hrun as <- <-. exact HI.
  - cbn in Hrun. unfold bind in Hrun.
    destruct (body s x w) as [[s1|e] w1] eqn:Hb; [|discriminate].
    apply (IH (fun s0 w0 x0 s0' w0' Hin => Hbody s0 w0 x0 s0' w0' (or_intror Hin))
              s1 w1 s' w'); [|exact Hrun].
    apply (Hbody s w x s1 w1); [left; reflexivity|exact HI|exact Hb].
Qed.
End Loops.

(** ** The evaluation loop *)

Section EvalLoop.
Context `{RT : Runtime}.

Lemma eval_batch_run (t : trainer) (f : filesystem) (evs : list event)
    (n test_len i : Z) (b : batch) (l : pyfloat) (nb : Z) (x : pyfloat) :
  n = len (dl_batches (test_dl t)) ->
  test_len = dl_dataset_len (test_dl t) ->
  eval_batch_loss t b = Ret x ->
  eval_batch n test_len (l, nb) (i, b) {| self := t; fs := f; events := evs |}
  = (Ret (PyFloat.add l x, nb + 1),
     {| self := t; fs := f; events := evs ++ [range_event t i] |}).
Proof.
  intros -> -> Hx. unfold eval_batch_loss in Hx. unfold eval_batch. run_monad. cbn.
  destruct (self_get_inputs_dict t (as_tuple b)) as [inp|e]; [|discriminate].
  cbn in Hx |- *. rewrite Hx. cbn. unfold range_event.
  destruct (decide (i = len (dl_batches (test_dl t)) - 1)) as [Hi|Hi].
  - rewrite bool_decide_eq_false_2 by (intros H; apply H, Hi).
    rewrite bool_decide_eq_true_2 by exact Hi. reflexivity.
  - rewrite bool_decide_eq_true_2 by exact Hi.
    rewrite bool_decide_eq_false_2 by exact Hi. reflexivity.
Qed.

Lemma eval_loop_run (t : trainer) (f : filesystem) (n test_len : Z)
    (bs : list batch) (losses : list pyfloat) :
  n = len (dl_batches (test_dl t)) ->
  test_len = dl_dataset_len (test_dl t) ->
  Forall2 (fun b x => eval_batch_loss t b = Ret x) bs losses ->
  forall (k : Z) (l : pyfloat) (nb : Z) (evs : list event),
    for_each (eval_batch n test_len) (zip (seqZ k (len bs)) bs) (l, nb)
             {| self := t; fs := f; events := evs |}
    = (Ret (fold_left PyFloat.add losses l, nb + len bs),
       {| self := t; fs := f;
          events := evs ++ map (range_event t) (seqZ k (len bs)) |}).
Proof.
  intros Hn Hlen Hall. induction Hall as [|b x bs losses Hx Hall IH]; intros k l nb evs.
  - cbn. unfold ret. rewrite Z.add_0_r, app_nil_r. reflexivity.
  - unfold len in *. cbn [length]. rewrite Nat2Z.inj_succ.
    rewrite seqZ_cons by lia. rewrite Z.pred_succ. cbn [zip zip_with for_each map].
    unfold bind at 1. rewrite (eval_batch_run t f evs n test_len k b l nb x Hn Hlen Hx).
    rewrite IH. cbn [fold_left]. rewrite <- app_assoc. cbn [app].
    do 3 f_equal. lia.
Qed.

(** The loss pass, when every batch yields a loss value. *)
Lemma eval_pass_run (device_arg : option string) (w : world) (losses : list pyfloat) :
  let t := eval_trainer device_arg (self w) in
  Forall2 (fun b x => eval_batch_loss t b = Ret x) (dl_batches (test_dl (self w))) losses ->
  eval_pass device_arg w
  = (Ret (fold_left PyFloat.add losses PyFloat.zero, len (dl_batches (test_dl (self w)))),
     {| self := t; fs := fs w;
        events := events w
                  ++ LogEvalLen (len (dl_batches (test_dl (self w))))
                                (len (dl_batches (test_dl (self w))))
                  :: map (range_event t) (seqZ 0 (len (dl_batches (test_dl (self w))))) |}).
Proof.
  intros t Hall. unfold eval_pass. run_monad. cbn.
  change (set_model _ (self w)) with t.
  unfold enumerate.
  rewrite (eval_loop_run t (fs w) _ _ (dl_batches (test_dl (self w))) losses
             eq_refl eq_refl Hall 0 PyFloat.zero 0).
  rewrite <- app_assoc. reflexivity.
Qed.
End EvalLoop.

(** ** Python floats: the ceiling *)

Lemma powerRZ_two_nonneg (k : Z) : 0 <= k -> powerRZ 2 k = IZR (2 ^ k).
Proof.
  intros Hk. destruct k as [|p|p]; [reflexivity| |lia].
  symmetry. apply Zpower_pos_powerRZ.
Qed.

Lemma ceil_finite_bounds (s : bool) (m : positive) (e c : Z) :
  PyFloat.ceil (S754_finite s m e) = Ret c ->
  (IZR c - 1 < IZR (cond_Zopp s (Z.pos m)) * powerRZ 2 e <= IZR c)%R.
Proof.
  unfold PyFloat.ceil. set (v := cond_Zopp s (Z.pos m)).
  intros [= <-]. destruct (Z.leb_spec 0 e) as [He|He].
  - rewrite powerRZ_two_nonneg by assumption. rewrite <- mult_IZR. lra.
  - assert (Hk : 0 < 2 ^ (- e)) by (apply Z.pow_pos_nonneg; lia).
    assert (Hp : powerRZ 2 e = (/ IZR (2 ^ (- e)))%R).
    { rewrite <- powerRZ_two_nonneg, <- powerRZ_neg' by lia. f_equal. lia. }
    rewrite Hp.
    pose proof (Z.div_mod (- v) (2 ^ (- e)) ltac:(lia)) as Hdm.
    pose proof (Z.mod_pos_bound (- v) (2 ^ (- e)) Hk) as Hb.
    set (q := (- v) / 2 ^ (- e)) in *. set (d := 2 ^ (- e)) in *.
    assert (Hd : (0 < IZR d)%R) by (apply IZR_lt; lia).
    assert (H1 : (IZR (- q) * IZR d - IZR d < IZR v)%R).
    { rewrite <- mult_IZR, <- minus_IZR. apply IZR_lt. nia. }
    assert (H2 : (IZR v <= IZR (- q) * IZR d)%R).
    { rewrite <- mult_IZR. apply IZR_le. nia. }
    assert (Hne : IZR d <> 0%R) by lra.
    split.
    + apply Rmult_lt_reg_r with (r := IZR d); [assumption|].
      rewrite Rmult_assoc, Rinv_l by assumption. lra.
    + apply Rmult_le_reg_r with (r := IZR d); [assumption|].
      rewrite Rmult_assoc, Rinv_l by assumption. lra.
Qed.

Lemma ceil_bounds (x : pyfloat) (c : Z) :
  PyFloat.ceil x = Ret c ->
  exists r, PyFloat.to_R x = Some r /\ (IZR c - 1 < r <= IZR c)%R.
Proof.
  destruct x as [s|s| |s m e]; try discriminate.
  - intros [= <-]. exists 0%R. split; [reflexivity|]. simpl. lra.
  - intros Hc. eexists. split; [reflexivity|]. apply ceil_finite_bounds, Hc.
Qed.

Section BuildOptimizer.
Context `{RT : Runtime}.

Lemma build_optimizer_run (m : Model) (n : Z) (w : world) (ws : Z) :
  compute_warmup_steps (args (self w)) n = Ret ws ->
  build_optimizer m n w
  = (Ret (get_linear_schedule_with_warmup
            (select_optimizer (set_warmup_steps ws (args (self w))) m) ws n),
     {| self := set_args (set_warmup_steps ws (args (self w))) (self w);
        fs := fs w;
        events := events w ++ [LogWarmupSteps ws] |}).
Proof.
  intros Hws. unfold build_optimizer. run_monad. cbn. rewrite Hws. reflexivity.
Qed.

Lemma build_optimizer_raises (m : Model) (n : Z) (w : world) (e : exn) :
  compute_warmup_steps (args (self w)) n = Raise e ->
  build_optimizer m n w = (Raise e, w).
Proof.
  intros Hws. unfold build_optimizer. run_monad. cbn. rewrite Hws. reflexivity.
Qed.
End BuildOptimizer.

(** C4. [build_optimizer] takes as warmup steps the ceiling of
    [iteration_in_total * warmup_ratio] when the configured [warmup_steps]
    is zero, and the configured [warmup_steps], unchanged, when it is not;
    the count is stored in the configuration and handed to the scheduler.
    The product is the float product of [float(iteration_in_total)] and
    [warmup_ratio]; whenever it and its [math.ceil] exist, which line 282
    needs whatever [warmup_steps] is, the product is a finite float and the
    ceiling [c] is the least integer not below its value. With 1000
    iterations and a ratio of 0.1 the count is 100 for [warmup_steps] zero,
    and 50 for [warmup_steps] 50. *)
Theorem build_optimizer_warmup_steps `{RT : Runtime}
    (m : Model) (n : Z) (w : world) (x : pyfloat) (c : Z) :
  PyFloat.int_mul n (warmup_ratio (args (self w))) = Ret x ->
  PyFloat.ceil x = Ret c ->
  (exists opt sched w',
     build_optimizer m n w = (Ret (opt, sched), w')
     /\ warmup_steps (args (self w'))
        = (if warmup_steps (args (self w)) =? 0 then c
           else warmup_steps (args (self w)))
     /\ num_warmup_steps sched = warmup_steps (args (self w')))
  /\ (exists r, PyFloat.to_R x = Some r /\ (IZR c - 1 < r <= IZR c)%R)
  /\ (forall a : config,
        warmup_ratio a = PyFloat.tenth ->
        compute_warmup_steps a 1000
        = Ret (if warmup_steps a =? 0 then 100 else warmup_steps a)).
Proof.
  intros Hx Hc. split; [|split].
  - eexists _, _, _. split; [|split].
    + apply build_optimizer_run. unfold compute_warmup_steps.
      rewrite Hx. cbn. rewrite Hc. reflexivity.
    + reflexivity.
    + reflexivity.
  - apply ceil_bounds, Hc.
  - intros a Ha. unfold compute_warmup_steps. rewrite Ha. reflexivity.
Qed.

Lemma build_optimizer_warmup_steps_witness :
  let w0 := Demo.demo_world Demo.demo_args (Demo.demo_loader 1 1) (Demo.demo_loader 1 1) in
  let w50 := Demo.demo_world (set_warmup_steps 50 Demo.demo_args)
                             (Demo.demo_loader 1 1) (Demo.demo_loader 1 1) in
  (exists opt sched w',
     build_optimizer (RT := Demo.runtime) Demo.demo_model 1000 w0 = (Ret (opt, sched), w')
     /\ warmup_steps (args (self w')) = 100
     /\ num_warmup_steps sched = warmup_steps (args (self w')))
  /\ (exists opt sched w',
     build_optimizer (RT := Demo.runtime) Demo.demo_model 1000 w50 = (Ret (opt, sched), w')
     /\ warmup_steps (args (self w')) = 50
     /\ num_warmup_steps sched = warmup_steps (args (self w'))).
Proof.
  intros w0 w50. split.
  - exact (proj1 (build_optimizer_warmup_steps (RT := Demo.runtime) Demo.demo_model 1000 w0
             (S754_finite false 7036874417766400 (-46)) 100 eq_refl eq_refl)).
  - exact (proj1 (build_optimizer_warmup_steps (RT := Demo.runtime) Demo.demo_model 1000 w50
             (S754_finite false 7036874417766400 (-46)) 100 eq_refl eq_refl)).
Defined.

(** ** The results file *)

#[local] Instance str_le_total : Total str_le.
Proof. intros a b. unfold str_le. apply String.leb_total. Qed.

Lemma sorted_keys_sorted (d : pydict) : Sorted str_le (sorted_keys d).
Proof. apply (Sorted_merge_sort str_le). Qed.

Lemma sorted_keys_perm (d : pydict) : sorted_keys d ≡ₚ map fst (map_to_list d).
Proof. apply merge_sort_Permutation. Qed.

Lemma sorted_keys_elem (d : pydict) (k : string) : k ∈ sorted_keys d <-> is_Some (d !! k).
Proof.
  rewrite sorted_keys_perm. rewrite list_elem_of_fmap. split.
  - intros ([k' v] & -> & Hin). apply elem_of_map_to_list in Hin. cbn. eauto.
  - intros [v Hv]. exists (k, v). split; [reflexivity|]. apply elem_of_map_to_list, Hv.
Qed.

Lemma sorted_keys_nodup (d : pydict) : NoDup (sorted_keys d).
Proof. rewrite sorted_keys_perm. apply NoDup_fst_map_to_list. Qed.

Lemma string_app_empty_r (s : string) : (s +:+ EmptyString)%string = s.
Proof.
  induction s as [|c s IH]; [reflexivity|].
  change (String c (s +:+ EmptyString) = String c s). rewrite IH. reflexivity.
Qed.

Section ResultsFile.
Context `{RT : Runtime}.

Lemma results_text_singleton (k : string) (v : pyval) :
  results_text (<[ k := v ]> {[ k := v ]}) = (k +:+ " = " +:+ py_str v +:+ newline)%string.
Proof.
  rewrite insert_singleton_eq. unfold results_text, sorted_keys.
  rewrite map_to_list_singleton. cbn. unfold result_line.
  rewrite lookup_singleton_eq.
  apply string_app_empty_r.
Qed.
End ResultsFile.

Lemma string_length_app (a b : string) :
  String.length (a +:+ b) = (String.length a + String.length b)%nat.
Proof.
  induction a as [|c a IH]; [reflexivity|].
  change (S (String.length (a +:+ b)) = S (String.length a + String.length b)).
  rewrite IH. reflexivity.
Qed.

Lemma path_join_results_ne (d : string) : path_join d "eval_results.txt" <> d.
Proof.
  intros H. apply (f_equal String.length) in H. unfold path_join in H.
  change (String.prefix "/" "eval_results.txt") with false in H. cbv iota in H.
  destruct (bool_decide (d = EmptyString) || ends_with_slash d);
    repeat rewrite string_length_app in H; cbn in H; lia.
Qed.

(** ** eval_model after the loss pass *)

#[local] Arguments path_join : simpl never.
#[local] Arguments String.append : simpl never.

Section EvalReport.
Context `{RT : Runtime}.

(** What [eval_report] does, case by case. *)
Lemma eval_report_run (l : pyfloat) (n : Z) (w : world) :
  let d := output_dir (args (self w)) in
  let path := path_join d "eval_results.txt" in
  eval_report (l, n) w =
  match PyFloat.div_int l n with
  | Raise e => (Raise e, w)
  | Ret v =>
      let result : pydict := {[ "eval_loss" := VFloat v ]} in
      let evs := events w ++ [WandbLog result] in
      match makedirs d (fs w) with
      | Raise e => (Raise e, {| self := self w; fs := fs w; events := evs |})
      | Ret f1 =>
          match write_file path ("eval_loss = " +:+ py_str (VFloat v) +:+ newline) f1 with
          | Raise e => (Raise e, {| self := self w; fs := f1; events := evs |})
          | Ret f2 =>
              (Ret result,
               {| self := set_results (result ∪ results (self w)) (self w);
                  fs := f2; events := evs |})
          end
      end
  end.
Proof.
  intros d path. subst path d. unfold eval_report. run_monad. cbn.
  destruct (PyFloat.div_int l n) as [v|e]; [|reflexivity]. cbn.
  rewrite results_text_singleton. rewrite insert_singleton_eq.
  change ("eval_loss" +:+ " = " +:+ py_str (VFloat v) +:+ newline)%string
    with ("eval_loss = " +:+ py_str (VFloat v) +:+ newline)%string.
  destruct (makedirs (output_dir (args (self w))) (fs w)) as [f1|e]; [|reflexivity]. cbn.
  match goal with
  | |- context [write_file ?p ?c f1] => destruct (write_file p c f1) as [f2|e]
  end; reflexivity.
Qed.

(** The generated-text branch leaves everything but [self.results] alone,
    and merges into those. *)
Lemma generated_text_run (result : pydict) (w : world) :
  exists o extra,
    generated_text result w
    = (o, {| self := set_results (extra ∪ results (self w)) (self w);
             fs := fs w; events := events w |})
    /\ (evaluate_generated_text (args (self w)) = false ->
        o = Ret (result, None) /\ extra = ∅)
    /\ (forall r p, o = Ret (r, p) ->
        evaluate_generated_text (args (self w)) = true -> is_Some p).
Proof.
  assert (Hid : forall w0 : world,
             w0 = {| self := set_results (∅ ∪ results (self w0)) (self w0);
                     fs := fs w0; events := events w0 |}).
  { intros [[] ? ?]. cbn. unfold set_results. cbn. rewrite (left_id_L ∅ (∪)). reflexivity. }
  unfold generated_text. run_monad. cbn.
  destruct (evaluate_generated_text (args (self w))) eqn:Hflag.
  - destruct (dl_examples (test_dl (self w))) as [exs|]; cbn.
    2:{ exists (Raise (AttributeError "examples")), ∅. rewrite <- Hid.
        repeat split; [discriminate|discriminate]. }
    destruct predict as [f|]; cbn.
    2:{ exists (Raise (AttributeError "predict")), ∅. rewrite <- Hid.
        repeat split; [discriminate|discriminate]. }
    destruct compute_metrics as [g|]; cbn.
    2:{ exists (Raise (AttributeError "compute_metrics")), ∅. rewrite <- Hid.
        repeat split; [discriminate|discriminate]. }
    eexists _, _. split; [reflexivity|]. split; [discriminate|].
    intros r p [= <- <-] _. eauto.
  - exists (Ret (result, None)), ∅. rewrite <- Hid. repeat split. discriminate.
Qed.
End EvalReport.

(** ** eval_model as a whole *)

Section EvalModel.
Context `{RT : Runtime}.

Lemma eval_model_cases (device_arg : option string) (w : world) :
  eval_model device_arg w =
  match eval_pass device_arg w with
  | (Raise e, w1) => (Raise e, w1)
  | (Ret acc, w1) =>
      match eval_report acc w1 with
      | (Raise e, w2) => (Raise e, w2)
      | (Ret result, w2) =>
          match generated_text result w2 with
          | (Raise e, w3) => (Raise e, w3)
          | (Ret (r, model_preds), w3) =>
              (match model_preds with
               | Some preds => Ret (r, preds, tt)
               | None => Raise (UnboundLocalError "model_preds")
               end,
               {| self := self w3; fs := fs w3;
                  events := events w3 ++ [LogResults (results (self w3))] |})
          end
      end
  end.
Proof.
  unfold eval_model. unfold bind at 1.
  destruct (eval_pass device_arg w) as [[acc|e] w1]; [|reflexivity].
  unfold bind at 1.
  destruct (eval_report acc w1) as [[result|e] w2]; [|reflexivity].
  unfold bind at 1.
  destruct (generated_text result w2) as [[[r p]|e] w3]; [|reflexivity].
  run_monad. cbn. destruct p; reflexivity.
Qed.

Lemma eval_batch_frame (n test_len : Z) (s s' : pyfloat * Z) (ib : Z * batch)
    (w w' : world) :
  eval_batch n test_len s ib w = (Ret s', w') -> self w' = self w /\ fs w' = fs w.
Proof.
  destruct ib as [i b], s as [l nb]. unfold eval_batch. run_monad. cbn.
  destruct (self_get_inputs_dict (self w) (as_tuple b)) as [inp|e]; [|discriminate]. cbn.
  destruct (t_item _) as [x|e]; [|discriminate]. cbn.
  intros [= _ <-]. split; reflexivity.
Qed.

Lemma eval_pass_frame (device_arg : option string) (acc : pyfloat * Z) (w w1 : world) :
  eval_pass device_arg w = (Ret acc, w1) ->
  self w1 = eval_trainer device_arg (self w) /\ fs w1 = fs w.
Proof.
  unfold eval_pass. run_monad. cbn. intros Hrun.
  eapply (for_each_invariant
            (fun _ w0 => self w0 = eval_trainer device_arg (self w) /\ fs w0 = fs w))
    in Hrun; [exact Hrun| |split; reflexivity].
  intros s w0 x s' w0' _ [Hs Hf] Hb. apply eval_batch_frame in Hb as [-> ->].
  split; assumption.
Qed.

(** With generated-text evaluation off, no call returns. *)
Lemma eval_model_raises (device_arg : option string) (w : world) :
  evaluate_generated_text (args (self w)) = false ->
  exists e w', eval_model device_arg w = (Raise e, w').
Proof.
  intros Hflag. rewrite eval_model_cases.
  destruct (eval_pass device_arg w) as [[acc|e] w1] eqn:Hpass; [|eauto].
  apply eval_pass_frame in Hpass as [Hself1 _].
  destruct acc as [l n]. rewrite eval_report_run.
  destruct (PyFloat.div_int l n) as [v|e]; [|eauto]. cbn zeta.
  destruct (makedirs _ (fs w1)) as [f1|e]; [|eauto].
  destruct (write_file _ _ f1) as [f2|e]; [|eauto].
  match goal with
  | |- context [generated_text ?r ?w2] =>
      destruct (generated_text_run r w2) as (o & extra & -> & Hoff & _)
  end.
  destruct Hoff as [-> _]; [cbn; rewrite Hself1; exact Hflag|]. eauto.
Qed.

(** A call whose loss pass and file operations succeed. *)
Lemma eval_model_run (device_arg : option string) (w : world)
    (losses : list pyfloat) (v : pyfloat) :
  let t := eval_trainer device_arg (self w) in
  let n := len (dl_batches (test_dl (self w))) in
  let d := output_dir (args (self w)) in
  let path := path_join d "eval_results.txt" in
  Forall2 (fun b x => eval_batch_loss t b = Ret x) (dl_batches (test_dl (self w))) losses ->
  PyFloat.div_int (fold_left PyFloat.add losses PyFloat.zero) n = Ret v ->
  d <> EmptyString ->
  d ∉ dom (fs_files (fs w)) ->
  path ∉ fs_dirs (fs w) ->
  exists o w' extra later,
    eval_model device_arg w = (o, w')
    /\ fs w' = {| fs_dirs := fs_dirs (fs w) ∪ {[ d ]};
                  fs_files := <[ path := ("eval_loss = " +:+ py_str (VFloat v) +:+ newline)%string ]>
                                (fs_files (fs w)) |}
    /\ results (self w') = extra ∪ ({[ "eval_loss" := VFloat v ]} ∪ results (self w))
    /\ events w' = events w ++ LogEvalLen n n :: map (range_event t) (seqZ 0 n) ++ later
    /\ (evaluate_generated_text (args (self w)) = false ->
        o = Raise (UnboundLocalError "model_preds") /\ extra = ∅).
Proof.
  intros t n d path Hall Hv Hd Hfile Hdir.
  rewrite eval_model_cases, (eval_pass_run device_arg w losses Hall).
  rewrite eval_report_run. cbn [self args fs events]. fold n. rewrite Hv. cbn zeta.
  change (output_dir (args t)) with d. fold path.
  unfold makedirs. rewrite bool_decide_eq_false_2 by exact Hd.
  rewrite bool_decide_eq_false_2 by exact Hfile.
  unfold write_file. cbn [fs_dirs fs_files].
  rewrite bool_decide_eq_false_2.
  2:{ rewrite elem_of_union, elem_of_singleton. intros [H|H]; [exact (Hdir H)|].
      exact (path_join_results_ne d H). }
  match goal with
  | |- context [generated_text ?r ?w2] =>
      destruct (generated_text_run r w2) as (o & extra & -> & Hoff & _)
  end.
  cbn [self args fs events results set_results] in *.
  destruct o as [[r p]|e].
  - eexists _, _, extra, _. split; [reflexivity|]. cbn.
    split; [reflexivity|]. split; [reflexivity|].
    split; [rewrite <- !app_assoc; reflexivity|].
    intros Hflag. destruct (Hoff Hflag) as [[= -> ->] ->]. split; reflexivity.
  - eexists _, _, extra, _. split; [reflexivity|]. cbn.
    split; [reflexivity|]. split; [reflexivity|].
    split; [rewrite <- !app_assoc; reflexivity|].
    intros Hflag. destruct (Hoff Hflag) as [[=] _].
Qed.
End EvalModel.

(** ** Claims about eval_model and the batch adapter *)

(** C7. In [eval_model], batch [i] of [n] over an evaluation batch size [b]
    is logged with the row range that starts at [b * i] and ends at
    [b * i + b], except for the last batch ([i = n - 1]), whose end is the
    number of samples; with [b = 8] and 21 samples in three batches the
    ranges are (0,8), (8,16) and (16,21). *)
Theorem eval_model_index_ranges `{RT : Runtime}
    (device_arg : option string) (w : world) (losses : list pyfloat) :
  let t := eval_trainer device_arg (self w) in
  let n := len (dl_batches (test_dl (self w))) in
  let b := eval_batch_size (args (self w)) in
  Forall2 (fun bt x => eval_batch_loss t bt = Ret x) (dl_batches (test_dl (self w))) losses ->
  (exists o w' later,
     eval_model device_arg w = (o, w')
     /\ events w'
        = events w
          ++ LogEvalLen n n
          :: map (fun i => LogEvalRange i (b * i)
                             (if bool_decide (i = n - 1)
                              then dl_dataset_len (test_dl (self w))
                              else b * i + b))
                 (seqZ 0 n)
          ++ later)
  /\ (forall b' n' samples i, i <> n' - 1 ->
        eval_range b' n' samples i = (b' * i, b' * i + b'))
  /\ (forall b' n' samples, eval_range b' n' samples (n' - 1) = (b' * (n' - 1), samples))
  /\ map (eval_range 8 3 21) [0; 1; 2] = [(0, 8); (8, 16); (16, 21)].
Proof.
  intros t n b Hall. split; [|split; [|split]].
  - rewrite eval_model_cases, (eval_pass_run device_arg w losses Hall).
    fold t n.
    match goal with
    | |- context [eval_report ?acc ?w1] =>
        pose proof (eval_report_run (fst acc) (snd acc) w1) as Hrep;
        cbn [fst snd self fs events] in Hrep
    end.
    rewrite Hrep. clear Hrep.
    destruct (PyFloat.div_int _ n) as [v|e].
    2:{ eexists _, _, []. split; [reflexivity|]. cbn. rewrite app_nil_r. reflexivity. }
    cbn zeta. destruct (makedirs _ (fs w)) as [f1|e].
    2:{ eexists _, _, _. split; [reflexivity|]. cbn. rewrite <- !app_assoc. reflexivity. }
    destruct (write_file _ _ f1) as [f2|e].
    2:{ eexists _, _, _. split; [reflexivity|]. cbn. rewrite <- !app_assoc. reflexivity. }
    match goal with
    | |- context [generated_text ?r ?w2] =>
        destruct (generated_text_run r w2) as (o & extra & -> & _)
    end.
    destruct o as [[r p]|e]; eexists _, _, _; (split; [reflexivity|]); cbn;
      rewrite <- !app_assoc; reflexivity.
  - intros b' n' samples i Hi. unfold eval_range.
    rewrite bool_decide_eq_true_2 by exact Hi. reflexivity.
  - intros b' n' samples. unfold eval_range.
    rewrite bool_decide_eq_false_2 by (intros H; apply H; reflexivity). reflexivity.
  - reflexivity.
Qed.

Lemma eval_model_index_ranges_witness :
  exists o w' later,
    eval_model (RT := Demo.runtime) None Demo.eval_world = (o, w')
    /\ events w'
       = LogEvalLen 3 3
         :: [LogEvalRange 0 0 8; LogEvalRange 1 8 16; LogEvalRange 2 16 21] ++ later.
Proof.
  refine (proj1 (eval_model_index_ranges (RT := Demo.runtime) None Demo.eval_world
                   [PyFloat.zero; PyFloat.zero; PyFloat.zero] _)).
  repeat constructor.
Defined.

(** C8, as stated, fails on an evaluation stream without batches: the mean
    loss divides by zero before the directory is created, so nothing is
    written and nothing is merged. *)
Lemma eval_model_empty_stream_writes_nothing :
  let w := Demo.empty_eval_world in
  let w' := snd (eval_model (RT := Demo.runtime) None w) in
  fst (eval_model (RT := Demo.runtime) None w) = Raise ZeroDivisionError
  /\ (output_dir (args (self w)) ∉ fs_dirs (fs w'))
  /\ fs_files (fs w') !! (path_join (output_dir (args (self w))) "eval_results.txt") = None
  /\ results (self w') !! "eval_loss"%string = None.
Proof.
  cbv zeta. split; [reflexivity|]. split; [|split; reflexivity].
  change (fs_dirs (fs (snd (eval_model (RT := Demo.runtime) None Demo.empty_eval_world))))
    with (∅ : gset string).
  apply not_elem_of_empty.
Qed.

(** C8, amended. A call of [eval_model] whose loss pass succeeds on at least
    one batch (so that the mean loss [v] exists) and whose directory and file
    can be created makes the configured output directory, overwrites
    [eval_results.txt] in it with the single line ["eval_loss = v"] -- one
    line per metric computed by then, written in ascending key order -- and
    merges that metric into [self.results], over any earlier value of the
    same key; metrics of the generated-text branch are merged on top and are
    not written. *)
Theorem eval_model_writes_results `{RT : Runtime}
    (device_arg : option string) (w : world) (losses : list pyfloat) (v : pyfloat) :
  let t := eval_trainer device_arg (self w) in
  let n := len (dl_batches (test_dl (self w))) in
  let d := output_dir (args (self w)) in
  let path := path_join d "eval_results.txt" in
  Forall2 (fun b x => eval_batch_loss t b = Ret x) (dl_batches (test_dl (self w))) losses ->
  PyFloat.div_int (fold_left PyFloat.add losses PyFloat.zero) n = Ret v ->
  d <> EmptyString ->
  d ∉ dom (fs_files (fs w)) ->
  path ∉ fs_dirs (fs w) ->
  (exists o w' extra,
     eval_model device_arg w = (o, w')
     /\ fs_dirs (fs w') = fs_dirs (fs w) ∪ {[ d ]}
     /\ fs_files (fs w')
        = <[ path := ("eval_loss = " +:+ py_str (VFloat v) +:+ newline)%string ]>
            (fs_files (fs w))
     /\ results (self w') = extra ∪ ({[ "eval_loss" := VFloat v ]} ∪ results (self w))
     /\ (evaluate_generated_text (args (self w)) = false -> extra = ∅))
  /\ n <> 0
  /\ (forall r : pydict,
        Sorted str_le (sorted_keys r)
        /\ NoDup (sorted_keys r)
        /\ (forall k, k ∈ sorted_keys r <-> is_Some (r !! k))
        /\ results_text r
           = fold_right String.append EmptyString
               (map (fun k => match r !! k with
                              | Some x => (k +:+ " = " +:+ py_str x +:+ newline)%string
                              | None => EmptyString
                              end) (sorted_keys r))).
Proof.
  intros t n d path Hall Hv Hd Hfile Hdir. split; [|split].
  - destruct (eval_model_run device_arg w losses v Hall Hv Hd Hfile Hdir)
      as (o & w' & extra & later & Hrun & Hfs & Hres & _ & Hoff).
    exists o, w', extra. split; [exact Hrun|]. rewrite Hfs. cbn.
    repeat split; [exact Hres|]. intros Hflag. apply (Hoff Hflag).
  - intros Hn. fold n in Hv. rewrite Hn in Hv. discriminate Hv.
  - intros r. split; [apply sorted_keys_sorted|].
    split; [apply sorted_keys_nodup|]. split; [apply sorted_keys_elem|]. reflexivity.
Qed.

Lemma eval_model_writes_results_witness :
  exists o w' extra,
    eval_model (RT := Demo.runtime) None Demo.eval_world = (o, w')
    /\ fs_dirs (fs w') = fs_dirs (fs Demo.eval_world) ∪ {[ "/tmp/"%string ]}
    /\ fs_files (fs w')
       = <[ "/tmp/eval_results.txt"%string
            := ("eval_loss = " +:+ "0.0" +:+ newline)%string ]>
           (fs_files (fs Demo.eval_world))
    /\ results (self w')
       = extra ∪ ({[ "eval_loss"%string := VFloat PyFloat.zero ]}
                  ∪ results (self Demo.eval_world))
    /\ (evaluate_generated_text (args (self Demo.eval_world)) = false -> extra = ∅).
Proof.
  refine (proj1 (eval_model_writes_results (RT := Demo.runtime) None Demo.eval_world
                   [PyFloat.zero; PyFloat.zero; PyFloat.zero] PyFloat.zero _ _ _ _ _)).
  - repeat constructor.
  - reflexivity.
  - discriminate.
  - apply not_elem_of_dom. reflexivity.
  - apply not_elem_of_empty.
Defined.

(** C10. With [evaluate_generated_text] off, [eval_model] never returns its
    triple: every call raises, and a call that gets through the loss pass
    and the writing of the results file raises the unbound-name error for
    [model_preds] at the return statement, with the file written and the
    loss merged into [self.results]. *)
Theorem eval_model_unbound_predictions `{RT : Runtime}
    (device_arg : option string) (w : world) :
  evaluate_generated_text (args (self w)) = false ->
  (exists e w', eval_model device_arg w = (Raise e, w'))
  /\ (forall (losses : list pyfloat) (v : pyfloat),
        let t := eval_trainer device_arg (self w) in
        let d := output_dir (args (self w)) in
        let path := path_join d "eval_results.txt" in
        Forall2 (fun b x => eval_batch_loss t b = Ret x)
                (dl_batches (test_dl (self w))) losses ->
        PyFloat.div_int (fold_left PyFloat.add losses PyFloat.zero)
                        (len (dl_batches (test_dl (self w)))) = Ret v ->
        d <> EmptyString ->
        d ∉ dom (fs_files (fs w)) ->
        path ∉ fs_dirs (fs w) ->
        exists w',
          eval_model device_arg w = (Raise (UnboundLocalError "model_preds"), w')
          /\ fs_files (fs w') !! path
             = Some ("eval_loss = " +:+ py_str (VFloat v) +:+ newline)%string
          /\ results (self w') !! "eval_loss"%string = Some (VFloat v)).
Proof.
  intros Hflag. split; [apply eval_model_raises, Hflag|].
  intros losses v t d path Hall Hv Hd Hfile Hdir.
  destruct (eval_model_run device_arg w losses v Hall Hv Hd Hfile Hdir)
    as (o & w' & extra & later & Hrun & Hfs & Hres & _ & Hoff).
  destruct (Hoff Hflag) as [-> ->]. exists w'. split; [exact Hrun|].
  rewrite Hfs, Hres. cbn. split; [apply lookup_insert_eq|].
  rewrite (left_id_L ∅ (∪)). apply lookup_union_Some_l, lookup_singleton_eq.
Qed.

Lemma eval_model_unbound_predictions_witness :
  (exists e w', eval_model (RT := Demo.runtime) None Demo.eval_world = (Raise e, w'))
  /\ exists w',
       eval_model (RT := Demo.runtime) None Demo.eval_world
       = (Raise (UnboundLocalError "model_preds"), w')
       /\ fs_files (fs w') !! "/tmp/eval_results.txt"%string
          = Some ("eval_loss = " +:+ "0.0" +:+ newline)%string
       /\ results (self w') !! "eval_loss"%string = Some (VFloat PyFloat.zero).
Proof.
  pose proof (eval_model_unbound_predictions (RT := Demo.runtime) None Demo.eval_world
                eq_refl) as [Hraise Hrun].
  split; [exact Hraise|].
  refine (Hrun [PyFloat.zero; PyFloat.zero; PyFloat.zero] PyFloat.zero _ _ _ _ _).
  - repeat constructor.
  - reflexivity.
  - discriminate.
  - apply not_elem_of_dom. reflexivity.
  - apply not_elem_of_empty.
Defined.

(** ** The default branch of the batch adapter *)

Lemma it_entry_masked_fill (v w : Z) (t : itensor) (i j : nat) :
  it_entry (it_masked_fill v w t) i j
  = (fun x => if x =? v then w else x) <$> it_entry t i j.
Proof.
  unfold it_entry, it_masked_fill. cbn [it_rows].
  rewrite list_lookup_fmap. destruct (it_rows t !! i) as [row|]; [|reflexivity].
  cbn. apply list_lookup_fmap.
Qed.

(** C5. For a model type other than bart, marian and mbart, the adapter
    returns the raw label tensor [batch[1]] unchanged as
    [decoder_input_ids], and as [labels] a tensor of the same shape in which
    every entry equal to the decoder tokenizer's pad id is -100 and every
    other entry is the raw label. *)
Theorem default_adapter_masks_labels `{RT : Runtime}
    (t : trainer) (input_ids lm_labels : itensor) (rest : list itensor) :
  model_type (args t) ∉ ["bart"; "marian"; "mbart"]%string ->
  exists (inp : inputs) (dec lab : itensor),
    self_get_inputs_dict t (BatchTuple (input_ids :: lm_labels :: rest)) = Ret inp
    /\ inp !! "decoder_input_ids"%string = Some dec
    /\ inp !! "labels"%string = Some lab
    /\ it_rows dec = it_rows lm_labels
    /\ forall i j : nat,
         it_entry lab i j
         = (fun x => if x =? pad_token_id (decoder_tokenizer t) then -100 else x)
             <$> it_entry lm_labels i j.
Proof.
  intros Hty. unfold self_get_inputs_dict, get_inputs_dict.
  rewrite bool_decide_eq_false_2
    by (intros H; apply Hty; rewrite !elem_of_cons in H; rewrite !elem_of_cons; tauto).
  rewrite bool_decide_eq_false_2
    by (intros H; apply Hty; rewrite !elem_of_cons in H; rewrite !elem_of_cons; tauto).
  cbn. eexists _, _, _. split; [reflexivity|].
  split; [reflexivity|]. split; [reflexivity|]. split; [reflexivity|].
  intros i j.
  exact (it_entry_masked_fill (pad_token_id (decoder_tokenizer t)) ignore_index
           (it_clone lm_labels) i j).
Qed.

Lemma default_adapter_masks_labels_witness :
  exists (inp : inputs) (dec lab : itensor),
    self_get_inputs_dict (RT := Demo.runtime) (self Demo.eval_world) Demo.demo_batch = Ret inp
    /\ inp !! "decoder_input_ids"%string = Some dec
    /\ inp !! "labels"%string = Some lab
    /\ it_rows dec = [[1; 2; 0]; [3; 0; 0]]
    /\ forall i j : nat,
         it_entry lab i j
         = (fun x => if x =? 0 then -100 else x)
             <$> it_entry (Demo.on_cpu [[1; 2; 0]; [3; 0; 0]]) i j.
Proof.
  refine (default_adapter_masks_labels (RT := Demo.runtime) (self Demo.eval_world)
            (Demo.on_cpu [[5; 6; 7]; [8; 9; 0]]) (Demo.on_cpu [[1; 2; 0]; [3; 0; 0]]) [] _).
  apply (bool_decide_unpack _). vm_compute. exact I.
Defined.

(** ** Parameter groups *)

Section Select.
Context {P : Type}.
Implicit Types (named : list (string * P)) (p q : string -> bool).

Lemma select_nil p : select p (@nil (string * P)) = [].
Proof. reflexivity. Qed.

Lemma select_cons p (n : string) (x : P) named :
  select p ((n, x) :: named)
  = if p n then x :: select p named else select p named.
Proof.
  unfold select. destruct (p n) eqn:Hp.
  - rewrite filter_cons_True by exact Hp. reflexivity.
  - rewrite filter_cons_False by (cbn; rewrite Hp; discriminate). reflexivity.
Qed.

Lemma select_ext p q named :
  (forall n, n ∈ map fst named -> p n = q n) -> select p named = select q named.
Proof.
  induction named as [|[n x] named IH]; intros Hpq; [reflexivity|].
  rewrite !select_cons, (Hpq n) by (cbn; left).
  rewrite IH by (intros m Hm; apply Hpq; cbn; right; exact Hm). reflexivity.
Qed.

Lemma select_true named : select (fun _ => true) named = map snd named.
Proof.
  induction named as [|[n x] named IH]; [reflexivity|].
  rewrite select_cons, IH. reflexivity.
Qed.

Lemma select_false named : select (fun _ => false) named = [].
Proof.
  induction named as [|[n x] named IH]; [reflexivity|].
  rewrite select_cons, IH. reflexivity.
Qed.

(** Two exclusive selections together are the selection of either. *)
Lemma select_or p q named :
  (forall n, n ∈ map fst named -> p n = true -> q n = true -> False) ->
  select p named ++ select q named ≡ₚ select (fun n => p n || q n) named.
Proof.
  induction named as [|[n x] named IH]; intros Hex; [reflexivity|].
  rewrite !select_cons.
  assert (IH' := IH (fun m Hm => Hex m (list_elem_of_further _ _ _ Hm))).
  destruct (p n) eqn:Hp, (q n) eqn:Hq; cbn [orb].
  - exfalso. apply (Hex n); [cbn; left|exact Hp|exact Hq].
  - cbn. rewrite IH'. reflexivity.
  - rewrite <- Permutation_middle, IH'. reflexivity.
  - exact IH'.
Qed.

Lemma select_split p named :
  select p named ++ select (fun n => negb (p n)) named ≡ₚ map snd named.
Proof.
  rewrite select_or by (intros n _ Hp Hn; rewrite Hp in Hn; discriminate).
  rewrite <- select_true. erewrite select_ext; [reflexivity|].
  intros n _. cbn. apply orb_negb_r.
Qed.
End Select.

Section GroupStages.
Context {P : Type}.
Implicit Types (named : list (string * P)) (gs : list pydict) (C : gset string).

(** *** The loop over [custom_parameter_groups] *)

Lemma named_groups_run named gs :
  Forall (fun g => exists names, g !! "params"%string = Some (VNames names)) gs ->
  forall C,
  exists pgs,
    named_groups named gs C
    = (Ret (pgs, C ∪ list_to_set (concat (map group_names gs))),
       map (delete "params"%string) gs)
    /\ map pg_params pgs
       = map (fun g => select (fun n => bool_decide (n ∈ group_names g)) named) gs
    /\ map pg_options pgs = map (delete "params"%string) gs.
Proof.
  induction 1 as [|g gs [names Hg] _ IH]; intros C.
  - exists []. cbn. rewrite (right_id_L ∅ (∪)). repeat split.
  - destruct (IH (C ∪ list_to_set names)) as (pgs & Hrun & Hparams & Hopts).
    cbn [named_groups]. unfold dict_pop. rewrite Hg, Hrun. cbn.
    eexists. split; [|split].
    + cbn [map concat]. assert (Hn : group_names g = names)
        by (unfold group_names; rewrite Hg; reflexivity).
      rewrite Hn, list_to_set_app_L, (assoc_L (∪)). reflexivity.
    + cbn. rewrite Hparams. do 2 f_equal. unfold group_names. rewrite Hg. reflexivity.
    + cbn. rewrite Hopts. reflexivity.
Qed.

Lemma named_groups_perm named gs :
  ForallOrdPairs (fun g1 g2 => group_names g1 ## group_names g2) gs ->
  concat (map (fun g => select (fun n => bool_decide (n ∈ group_names g)) named) gs)
  ≡ₚ select (fun n => bool_decide (n ∈ concat (map group_names gs))) named.
Proof.
  induction 1 as [|g gs Hg _ IH].
  - cbn [map concat].
    rewrite (select_ext _ (fun _ => false)), select_false; [reflexivity|].
    intros n _. apply bool_decide_eq_false_2, not_elem_of_nil.
  - cbn [map concat]. rewrite IH. rewrite select_or.
    + rewrite (select_ext _ (fun n => bool_decide
                                      (n ∈ group_names g ++ concat (map group_names gs))));
        [reflexivity|].
      intros n _. apply eq_true_iff_eq. rewrite orb_true_iff, !bool_decide_eq_true.
      rewrite elem_of_app. reflexivity.
    + intros n _ H1 H2. apply bool_decide_eq_true_1 in H1, H2.
      apply list_elem_of_In, in_concat in H2 as (l & Hl & Hn).
      apply in_map_iff in Hl as (g' & <- & Hg').
      rewrite Forall_forall in Hg.
      apply (Hg g' (proj2 (list_elem_of_In _ _) Hg') n H1).
      apply list_elem_of_In, Hn.
Qed.

(** *** The loop over the parameters of one layer *)

Lemma layer_split_run (layer : string) named :
  NoDup (map fst named) ->
  forall C,
  exists names',
    layer_split layer named C
    = (select (fun n => bool_decide (n ∉ C) && str_contains layer n
                        && negb (is_no_decay n)) named,
       select (fun n => bool_decide (n ∉ C) && str_contains layer n
                        && is_no_decay n) named,
       names')
    /\ forall n, n ∈ names' <-> n ∈ C \/ (n ∈ map fst named /\ str_contains layer n = true).
Proof.
  induction named as [|[n x] named IH]; intros Hnd C.
  - exists C. split; [reflexivity|]. intros n. cbn. rewrite elem_of_nil. tauto.
  - cbn [map fst] in Hnd. apply NoDup_cons in Hnd as [Hn Hnd].
    cbn [layer_split]. rewrite !select_cons.
    destruct (bool_decide (n ∉ C) && str_contains layer n) eqn:Hclaim.
    + apply andb_true_iff in Hclaim as [HnC Hl]. apply bool_decide_eq_true_1 in HnC.
      destruct (IH Hnd (C ∪ {[ n ]})) as (names' & -> & Hnames).
      assert (Hext : forall q : string -> bool,
                 select (fun m => bool_decide (m ∉ C ∪ {[ n ]}) && str_contains layer m && q m) named
                 = select (fun m => bool_decide (m ∉ C) && str_contains layer m && q m) named).
      { intros q. apply select_ext. intros m Hm. do 2 f_equal.
        apply bool_decide_ext. rewrite not_elem_of_union, not_elem_of_singleton.
        split; [tauto|]. intros HmC. split; [exact HmC|]. intros ->. exact (Hn Hm). }
      rewrite !Hext. exists names'. split.
      * destruct (is_no_decay n); reflexivity.
      * intros m. rewrite Hnames, elem_of_union, elem_of_singleton. cbn [map fst].
        rewrite elem_of_cons. split.
        -- intros [[?| ->]|[? ?]]; eauto.
        -- intros [?|[[->|?] ?]]; eauto.
    + destruct (IH Hnd C) as (names' & -> & Hnames). exists names'. split.
      * reflexivity.
      * intros m. rewrite Hnames. cbn [map fst]. rewrite elem_of_cons. split.
        -- intros [?|[? ?]]; eauto.
        -- intros [?|[[->|?] Hl]]; eauto.
           apply andb_false_iff in Hclaim as [HnC|Hl'].
           ++ left. apply bool_decide_eq_false_1 in HnC.
              destruct (decide (n ∈ C)); [assumption|contradiction].
           ++ rewrite Hl in Hl'. discriminate.
Qed.
End GroupStages.

Section LayerGroups.
Context {P : Type}.
Implicit Types (named : list (string * P)) (gs : list pydict) (C : gset string).

(** *** The loop over [custom_layer_parameters] *)

Lemma layer_groups_run (repr : pyval -> string) named gs :
  NoDup (map fst named) ->
  Forall (fun g => is_Some (g !! "layer"%string)) gs ->
  forall C,
  exists pgs names',
    layer_groups repr named gs C = (Ret (pgs, names'), map (delete "layer"%string) gs)
    /\ length pgs = (2 * length gs)%nat
    /\ concat (map pg_params pgs)
       ≡ₚ select (fun n => bool_decide (n ∉ C)
                           && matches_any (map (group_layer repr) gs) n) named
    /\ forall n, n ∈ map fst named ->
         (n ∈ names' <-> n ∈ C \/ matches_any (map (group_layer repr) gs) n = true).
Proof.
  intros Hnd. induction 1 as [|g gs [v Hg] _ IH]; intros C.
  - exists [], C. split; [reflexivity|]. split; [reflexivity|]. split.
    + cbn [map concat matches_any existsb].
      rewrite (select_ext _ (fun _ => false)), select_false; [reflexivity|].
      intros n _. apply andb_false_r.
    + intros n _. cbn. split; [tauto|]. intros [H|H]; [exact H|discriminate].
  - cbn [layer_groups]. unfold dict_pop. rewrite Hg.
    assert (Hl : group_layer repr g = layer_pattern repr v)
      by (unfold group_layer; rewrite Hg; reflexivity).
    destruct (layer_split_run (layer_pattern repr v) named Hnd C)
      as (names1 & -> & Hnames1).
    destruct (IH names1) as (pgs & names' & -> & Hlen & Hperm & Hnames').
    cbn [obind]. eexists _, names'. split; [reflexivity|].
    split; [cbn [length]; lia|]. split.
    + cbn [map concat pg_params]. rewrite Hl, Hperm. rewrite (assoc (++)).
      rewrite select_or.
      2:{ intros n _ H1 H2. apply andb_true_iff in H1 as [_ H1], H2 as [_ H2].
          rewrite H2 in H1. discriminate. }
      rewrite select_or.
      2:{ intros n Hn H1 H2. apply andb_true_iff in H2 as [H2 _].
          apply bool_decide_eq_true_1 in H2. apply H2, Hnames1.
          right. split; [exact Hn|].
          destruct (str_contains (layer_pattern repr v) n); [reflexivity|].
          rewrite !andb_false_r in H1. discriminate. }
      rewrite (select_ext _ (fun n => bool_decide (n ∉ C)
                                      && (str_contains (layer_pattern repr v) n
                                          || matches_any (map (group_layer repr) gs) n)));
        [reflexivity|].
      intros n Hn.
      assert (Hdec : bool_decide (n ∉ names1)
                     = bool_decide (n ∉ C) && negb (str_contains (layer_pattern repr v) n)).
      { apply eq_true_iff_eq.
        rewrite andb_true_iff, negb_true_iff, !bool_decide_eq_true, Hnames1.
        destruct (str_contains (layer_pattern repr v) n); split.
        - intros H. exfalso. apply H. right. split; [exact Hn|reflexivity].
        - intros [_ ?]. discriminate.
        - intros H. split; [|reflexivity]. intros HC. apply H. left. exact HC.
        - intros [H _] [HC|[_ ?]]; [exact (H HC)|discriminate]. }
      rewrite Hdec.
      destruct (bool_decide (n ∉ C)), (str_contains (layer_pattern repr v) n),
        (is_no_decay n), (matches_any (map (group_layer repr) gs) n); reflexivity.
    + intros n Hn. rewrite (Hnames' n Hn), Hnames1. cbn [map matches_any existsb].
      rewrite Hl, orb_true_iff. fold (matches_any (map (group_layer repr) gs) n). tauto.
Qed.
End LayerGroups.

(** *** Lines 63-115 as a whole *)

Section BuildGroups.
Context {P : Type}.

Lemma build_param_groups_run (repr : pyval -> string)
    (named : list (string * P)) (a : config) :
  NoDup (map fst named) ->
  well_formed_groups a ->
  exists G1 G2 names2,
    build_param_groups repr named a
    = (Ret (G1 ++ G2 ++
            (if train_custom_parameters_only a then []
             else default_groups (weight_decay a) named names2)),
       set_custom_layer_parameters
         (map (delete "layer"%string) (custom_layer_parameters a))
         (set_custom_parameter_groups
            (map (delete "params"%string) (custom_parameter_groups a)) a))
    /\ map pg_params G1
       = map (fun g => select (fun n => bool_decide (n ∈ group_names g)) named)
             (custom_parameter_groups a)
    /\ length G2 = (2 * length (custom_layer_parameters a))%nat
    /\ concat (map pg_params G2)
       ≡ₚ select (fun n => negb (in_custom a n) && in_layer repr a n) named
    /\ forall n, n ∈ map fst named ->
         (n ∈ names2 <-> in_custom a n = true \/ in_layer repr a n = true).
Proof.
  intros Hnd [Hwf1 Hwf2]. unfold build_param_groups.
  destruct (named_groups_run named _ Hwf1 ∅) as (G1 & -> & Hp1 & _).
  cbn [custom_layer_parameters set_custom_parameter_groups].
  destruct (layer_groups_run repr named _ Hnd Hwf2
              (∅ ∪ list_to_set (concat (map group_names (custom_parameter_groups a)))))
    as (G2 & names2 & -> & Hlen & Hperm & Hnames).
  assert (Hin : forall n,
             n ∈ (∅ ∪ list_to_set (custom_names a) : gset string)
             <-> in_custom a n = true).
  { intros n. unfold in_custom. rewrite bool_decide_eq_true, (left_id_L ∅ (∪)).
    apply elem_of_list_to_set. }
  exists G1, G2, names2. split; [reflexivity|]. split; [exact Hp1|].
  split; [exact Hlen|]. split.
  - rewrite Hperm.
    rewrite (select_ext _ (fun n => negb (in_custom a n) && in_layer repr a n));
      [reflexivity|].
    intros n _. f_equal.
    apply eq_true_iff_eq. rewrite negb_true_iff, bool_decide_eq_true.
    fold (custom_names a). rewrite Hin.
    destruct (in_custom a n); split; congruence.
  - intros n Hn. rewrite (Hnames n Hn). fold (custom_names a). rewrite Hin. reflexivity.
Qed.
End BuildGroups.

(** C1, as stated, fails when two custom parameter groups list the same
    name: the first loop puts the parameter into both groups. *)
Lemma param_groups_duplicate_across_custom_groups :
  exists groups a',
    build_param_groups (fun _ => EmptyString) Demo.numbered Demo.overlapping_args
    = (Ret groups, a')
    /\ train_custom_parameters_only Demo.overlapping_args = false
    /\ map pg_params groups = [[0%nat]; [0%nat]; []; [1%nat]]
    /\ ~ concat (map pg_params groups) ≡ₚ map snd Demo.numbered.
Proof.
  eexists _, _. split; [reflexivity|]. split; [reflexivity|]. split; [reflexivity|].
  intros H. apply Permutation_length in H. discriminate H.
Qed.

(** C1, amended. For parameters with distinct names and a configuration
    with [train_custom_parameters_only] off whose custom parameter groups
    list no name twice, the group construction of [train_model] yields, in
    this order, one group per custom parameter group (holding the parameters
    it names), two groups per custom layer entry (together the parameters not
    named by a custom group whose name contains a layer pattern) and the two
    catch-all groups (all remaining parameters, split by the no-decay
    markers); all groups together hold every parameter exactly once. *)
Theorem param_groups_partition {P : Type} (repr : pyval -> string)
    (named : list (string * P)) (a : config) :
  NoDup (map fst named) ->
  well_formed_groups a ->
  disjoint_groups a ->
  train_custom_parameters_only a = false ->
  exists G1 G2 gd gnd a',
    build_param_groups repr named a = (Ret (G1 ++ G2 ++ [gd; gnd]), a')
    /\ map pg_params G1
       = map (fun g => select (fun n => bool_decide (n ∈ group_names g)) named)
             (custom_parameter_groups a)
    /\ length G2 = (2 * length (custom_layer_parameters a))%nat
    /\ concat (map pg_params G2)
       ≡ₚ select (fun n => negb (in_custom a n) && in_layer repr a n) named
    /\ pg_params gd
       = select (fun n => negb (in_custom a n) && negb (in_layer repr a n)
                          && negb (is_no_decay n)) named
    /\ pg_params gnd
       = select (fun n => negb (in_custom a n) && negb (in_layer repr a n)
                          && is_no_decay n) named
    /\ concat (map pg_params (G1 ++ G2 ++ [gd; gnd])) ≡ₚ map snd named
    /\ (NoDup (map snd named) -> NoDup (concat (map pg_params (G1 ++ G2 ++ [gd; gnd])))).
Proof.
  intros Hnd Hwf Hdis Hall.
  destruct (build_param_groups_run repr named a Hnd Hwf)
    as (G1 & G2 & names2 & Hrun & Hp1 & Hlen & Hp2 & Hnames).
  rewrite Hall in Hrun. unfold default_groups in Hrun.
  assert (Hfree : forall n, n ∈ map fst named ->
             bool_decide (n ∉ names2) = negb (in_custom a n) && negb (in_layer repr a n)).
  { intros n Hn. apply eq_true_iff_eq.
    rewrite bool_decide_eq_true, (Hnames n Hn), andb_true_iff, !negb_true_iff.
    destruct (in_custom a n), (in_layer repr a n); intuition congruence. }
  assert (Hperm : concat (map pg_params (G1 ++ G2 ++ [
             {| pg_options := {[ "weight_decay"%string := VFloat (weight_decay a) ]};
                pg_params := select (fun n => bool_decide (n ∉ names2)
                                              && negb (is_no_decay n)) named |};
             {| pg_options := {[ "weight_decay"%string := VFloat PyFloat.zero ]};
                pg_params := select (fun n => bool_decide (n ∉ names2)
                                              && is_no_decay n) named |} ]))
           ≡ₚ map snd named).
  { rewrite !map_app, !concat_app, Hp1, Hp2, (named_groups_perm named _ Hdis).
    cbn [map concat pg_params]. rewrite app_nil_r.
    rewrite select_or
      by (intros n _ H1 H2; apply andb_true_iff in H1 as [_ H1], H2 as [_ H2];
          rewrite H2 in H1; discriminate).
    rewrite select_or.
    2:{ intros n Hn H1 H2. rewrite <- !andb_orb_distrib_r in H2.
        apply andb_true_iff in H2 as [H2 _]. rewrite (Hfree n Hn) in H2.
        destruct (in_custom a n), (in_layer repr a n); discriminate. }
    rewrite <- (select_split (in_custom a) named).
    apply Permutation_app; [reflexivity|].
    rewrite (select_ext _ (fun n => negb (in_custom a n))); [reflexivity|].
    intros n Hn. rewrite (Hfree n Hn).
    destruct (in_custom a n), (in_layer repr a n), (is_no_decay n); reflexivity. }
  eexists G1, G2, _, _, _. split; [exact Hrun|]. split; [exact Hp1|].
  split; [exact Hlen|]. split; [exact Hp2|]. cbn [pg_params].
  split; [|split; [|split]].
  - apply select_ext. intros n Hn. rewrite (Hfree n Hn). reflexivity.
  - apply select_ext. intros n Hn. rewrite (Hfree n Hn). reflexivity.
  - exact Hperm.
  - intros Hnd'. rewrite Hperm. exact Hnd'.
Qed.

Lemma param_groups_partition_witness :
  exists G1 G2 gd gnd a',
    build_param_groups (fun _ => EmptyString) Demo.layered Demo.custom_args
    = (Ret (G1 ++ G2 ++ [gd; gnd]), a')
    /\ map pg_params G1 = [[3%nat]]
    /\ length G2 = 2%nat
    /\ concat (map pg_params G2) ≡ₚ [0%nat; 1%nat]
    /\ pg_params gd = [2%nat]
    /\ pg_params gnd = [4%nat]
    /\ concat (map pg_params (G1 ++ G2 ++ [gd; gnd])) ≡ₚ [0; 1; 2; 3; 4]%nat
    /\ (NoDup [0; 1; 2; 3; 4]%nat ->
        NoDup (concat (map pg_params (G1 ++ G2 ++ [gd; gnd])))).
Proof.
  refine (param_groups_partition (fun _ => EmptyString) Demo.layered Demo.custom_args _ _ _ _).
  - apply (bool_decide_unpack _). vm_compute. exact I.
  - split; repeat constructor; eexists; reflexivity.
  - repeat constructor.
  - reflexivity.
Defined.

(** ** The training loop *)

Section LoopFrames.
Context `{RT : Runtime}.

(** A loop keeps what its body keeps, whether it returns or raises. *)
Lemma for_each_world_invariant {A S : Type} (I : world -> Prop)
    (body : S -> A -> M S) (xs : list A) :
  (forall s x w o w', I w -> body s x w = (o, w') -> I w') ->
  forall s w o w', I w -> for_each body xs s w = (o, w') -> I w'.
Proof.
  intros Hbody. induction xs as [|x xs IH]; intros s w o w' HI Hrun.
  - cbn in Hrun. injection Hrun as <- <-. exact HI.
  - cbn in Hrun. unfold bind in Hrun.
    destruct (body s x w) as [[s1|e] w1] eqn:Hb.
    + apply (IH s1 w1 o w'); [|exact Hrun]. exact (Hbody s x w _ w1 HI Hb).
    + injection Hrun as <- <-. exact (Hbody s x w _ w1 HI Hb).
Qed.

(** Nothing but the model and the log is touched by a batch. *)
Lemma model_changed_refl (w : world) : model_changed w w.
Proof. split; [exists (model (self w)); destruct w as [[] ? ?]|]; reflexivity. Qed.

Lemma model_changed_trans (w1 w2 w3 : world) :
  model_changed w1 w2 -> model_changed w2 w3 -> model_changed w1 w3.
Proof.
  intros [[m1 H1] F1] [[m2 H2] F2]. split; [|congruence].
  exists m2. rewrite H2, H1. reflexivity.
Qed.

Lemma model_changed_args (w w' : world) :
  model_changed w w' ->
  args (self w') = args (self w) /\ train_dl (self w') = train_dl (self w)
  /\ device (self w') = device (self w)
  /\ encoder_tokenizer (self w') = encoder_tokenizer (self w)
  /\ decoder_tokenizer (self w') = decoder_tokenizer (self w)
  /\ results (self w') = results (self w).
Proof. intros [[m ->] _]. repeat split. Qed.

Lemma optimizer_update_step (a : config) (s : train_locals) (m : Model) :
  tl_global_step (fst (optimizer_update a s m)) = tl_global_step s + 1
  /\ tl_global_model (fst (optimizer_update a s m)) = tl_global_model s.
Proof.
  unfold optimizer_update.
  destruct (if fp16 a then tl_scaler s else None) as [sc|].
  - destruct (scaler_step _ _ _). split; reflexivity.
  - destruct (opt_step _ _). split; reflexivity.
Qed.

Lemma train_batch_frame (epoch : Z) (s : train_locals) (ib : Z * batch)
    (w : world) (o : outcome train_locals) (w' : world) :
  train_batch epoch s ib w = (o, w') -> model_changed w w'.
Proof.
  destruct ib as [i b]. unfold train_batch. run_monad. cbn.
  destruct (self_get_inputs_dict (self w) b) as [inp|e]; cbn.
  2:{ intros [= _ <-]. apply model_changed_refl. }
  destruct (t_item (batch_loss _ _ _ _)) as [x|e]; cbn.
  2:{ intros [= _ <-]. apply model_changed_refl. }
  destruct (t_item (scaled_loss _ _ _ _)) as [y|e]; cbn.
  2:{ intros [= _ <-]. split; [eexists|]; reflexivity. }
  destruct (py_mod _ _) as [r|e]; cbn.
  2:{ intros [= _ <-]. split; [eexists|]; reflexivity. }
  destruct (r =? 0).
  - destruct (optimizer_update _ _ _) as [s1 m1]. cbn.
    intros [= _ <-]. split; [eexists|]; reflexivity.
  - intros [= _ <-]. split; [eexists|]; reflexivity.
Qed.

(** What a returning batch did. *)
Lemma train_batch_inv (epoch : Z) (s : train_locals) (i : Z) (b : batch)
    (w : world) (s' : train_locals) (w' : world) :
  let a := args (self w) in
  train_batch epoch s (i, b) w = (Ret s', w') ->
  exists inp x,
    self_get_inputs_dict (self w) b = Ret inp
    /\ batch_loss a (tl_global_model s) inp (model (self w)) = [x]
    /\ gradient_accumulation_steps a <> 0
    /\ tl_global_step s'
       = tl_global_step s
         + (if (i + 1) mod gradient_accumulation_steps a =? 0 then 1 else 0)
    /\ tl_global_model s' = tl_global_model s
    /\ events w'
       = events w ++ [LogTrainBatch epoch i (len (dl_batches (train_dl (self w))))
                                    (item_float x)].
Proof.
  intros a. unfold train_batch. run_monad. cbn. fold a.
  destruct (self_get_inputs_dict (self w) b) as [inp|e]; cbn; [|discriminate].
  destruct (batch_loss a (tl_global_model s) inp (model (self w)))
    as [|x [|x' l]] eqn:Hloss; cbn; try discriminate.
  destruct (t_item (scaled_loss _ _ _ _)) as [y|e]; cbn; [|discriminate].
  unfold py_mod. destruct (gradient_accumulation_steps a =? 0) eqn:Hacc; cbn;
    [discriminate|].
  apply Z.eqb_neq in Hacc.
  destruct ((i + 1) mod gradient_accumulation_steps a =? 0).
  - match goal with
    | |- context [optimizer_update ?a0 ?s0 ?m0] =>
        pose proof (optimizer_update_step a0 s0 m0) as [Hstep Hglobal];
        destruct (optimizer_update a0 s0 m0) as [s1 m1]
    end.
    cbn in *. intros [= <- <-]. exists inp, x.
    repeat split; first [assumption|reflexivity|lia].
  - intros [= <- <-]. exists inp, x. cbn.
    repeat split; first [assumption|reflexivity|lia].
Qed.

(** A batch returns when its inputs adapt and its loss is a scalar. *)
Lemma train_batch_returns (epoch : Z) (s : train_locals) (i : Z) (b : batch) (w : world) :
  let a := args (self w) in
  returns (self_get_inputs_dict (self w) b) ->
  scalar_loss a ->
  gradient_accumulation_steps a <> 0 ->
  exists s' w', train_batch epoch s (i, b) w = (Ret s', w').
Proof.
  intros a [inp Hinp] Hscalar Hacc. unfold train_batch. run_monad. cbn. fold a.
  rewrite Hinp. cbn.
  assert (Hloss : exists x, batch_loss a (tl_global_model s) inp (model (self w)) = [x]).
  { unfold batch_loss, model_loss. destruct Hscalar as [Hgpu|Hfwd].
    - apply Z.ltb_lt in Hgpu. rewrite Hgpu. unfold t_mean.
      destruct (bool_decide _); [destruct (tl_global_model s)|]; cbn; eauto.
    - destruct (Hfwd (fp16 a) (model (self w)) inp) as [x ->].
      destruct (1 <? n_gpu a); unfold t_mean;
        (destruct (bool_decide _); [destruct (tl_global_model s)|]); cbn; eauto. }
  destruct Hloss as [x Hloss]. unfold scaled_loss. rewrite Hloss. cbn.
  destruct (1 <? gradient_accumulation_steps a); cbn;
    unfold py_mod; rewrite (proj2 (Z.eqb_neq _ _) Hacc); cbn;
    (destruct (_ =? 0); [destruct (optimizer_update _ _ _)|]; cbn; eauto).
Qed.
End LoopFrames.

(** *** Counting the optimizer steps *)

Lemma window_step (acc k : Z) :
  acc <> 0 ->
  (if (k + 1) mod acc =? 0 then 1 else 0) = (k + 1) / Z.abs acc - k / Z.abs acc.
Proof.
  intros Hacc. set (d := Z.abs acc). assert (Hd : 0 < d) by (unfold d; lia).
  assert (Hmod : (k + 1) mod acc = 0 <-> (k + 1) mod d = 0).
  { rewrite !Z.mod_divide by lia. unfold d. symmetry. apply Z.divide_abs_l. }
  pose proof (Z.div_mod k d ltac:(lia)) as Hk.
  pose proof (Z.mod_pos_bound k d Hd) as Hr.
  pose proof (Z.div_mod (k + 1) d ltac:(lia)) as Hk1.
  pose proof (Z.mod_pos_bound (k + 1) d Hd) as Hr1.
  destruct (Z.eqb_spec ((k + 1) mod acc) 0) as [H0|H0].
  - apply Hmod in H0. nia.
  - assert ((k + 1) mod d <> 0) by (intros H; apply H0, Hmod, H). nia.
Qed.

Section LoopCount.
Context `{RT : Runtime}.

Lemma self_get_inputs_dict_model_changed (w w' : world) (b : batch) :
  model_changed w w' ->
  self_get_inputs_dict (self w') b = self_get_inputs_dict (self w) b.
Proof. intros [[m ->] _]. reflexivity. Qed.

(** The batches of one epoch, from batch index [k] on. *)
Lemma train_batches_inv (epoch : Z) (bs : list batch) :
  forall (k : Z) (s : train_locals) (w : world) (s' : train_locals) (w' : world),
    for_each (train_batch epoch) (zip (seqZ k (len bs)) bs) s w = (Ret s', w') ->
    tl_global_step s'
    = tl_global_step s
      + ((k + len bs) / Z.abs (gradient_accumulation_steps (args (self w)))
         - k / Z.abs (gradient_accumulation_steps (args (self w))))
    /\ tl_global_model s' = tl_global_model s
    /\ model_changed w w'.
Proof.
  induction bs as [|b bs IH]; intros k s w s' w' Hrun.
  - cbn in Hrun. injection Hrun as <- <-. unfold len. cbn [length Z.of_nat].
    rewrite Z.add_0_r. split; [lia|]. split; [reflexivity|apply model_changed_refl].
  - unfold len in *. cbn [length] in Hrun |- *. rewrite Nat2Z.inj_succ in Hrun |- *.
    rewrite seqZ_cons in Hrun by lia. rewrite Z.pred_succ in Hrun.
    cbn [zip zip_with for_each] in Hrun. unfold bind in Hrun.
    destruct (train_batch epoch s (k, b) w) as [[s1|e] w1] eqn:Hb; [|discriminate].
    pose proof (train_batch_frame _ _ _ _ _ _ Hb) as Hframe.
    apply train_batch_inv in Hb as (inp & x & _ & _ & Hacc & Hstep & Hglobal & _).
    apply IH in Hrun as (Hsteps & Hglobal' & Hframe').
    destruct (model_changed_args _ _ Hframe) as (Hargs & _).
    rewrite Hargs in Hsteps. rewrite (window_step _ k Hacc) in Hstep.
    split; [|split].
    + rewrite Hsteps, Hstep. replace (Z.succ k + Z.of_nat (length bs))
        with (k + Z.succ (Z.of_nat (length bs))) by lia. lia.
    + congruence.
    + exact (model_changed_trans _ _ _ Hframe Hframe').
Qed.

Lemma train_batches_returns (epoch : Z) (bs : list batch) :
  forall (k : Z) (s : train_locals) (w : world),
    Forall (fun b => returns (self_get_inputs_dict (self w) b)) bs ->
    scalar_loss (args (self w)) ->
    gradient_accumulation_steps (args (self w)) <> 0 ->
    exists s' w',
      for_each (train_batch epoch) (zip (seqZ k (len bs)) bs) s w = (Ret s', w').
Proof.
  induction bs as [|b bs IH]; intros k s w Hall Hscalar Hacc.
  - eexists _, _. reflexivity.
  - apply Forall_cons in Hall as [Hb Hall].
    unfold len in *. cbn [length]. rewrite Nat2Z.inj_succ.
    rewrite seqZ_cons by lia. rewrite Z.pred_succ.
    cbn [zip zip_with for_each]. unfold bind.
    destruct (train_batch_returns epoch s k b w Hb Hscalar Hacc) as (s1 & w1 & Hrun).
    rewrite Hrun. pose proof (train_batch_frame _ _ _ _ _ _ Hrun) as Hframe.
    destruct (model_changed_args _ _ Hframe) as (Hargs & _).
    apply IH.
    + eapply Forall_impl; [exact Hall|]. intros b' Hb'. cbn.
      rewrite (self_get_inputs_dict_model_changed _ _ b' Hframe). exact Hb'.
    + rewrite Hargs. exact Hscalar.
    + rewrite Hargs. exact Hacc.
Qed.

(** One epoch. *)
Lemma train_epoch_frame (s : train_locals) (epoch : Z) (w : world)
    (o : outcome train_locals) (w' : world) :
  train_epoch s epoch w = (o, w') -> model_changed w w'.
Proof.
  unfold train_epoch. run_monad. cbn. intros Hrun.
  eapply (for_each_world_invariant (model_changed w)); [| |exact Hrun].
  - intros s0 x w0 o0 w0' H0 Hb. apply train_batch_frame in Hb.
    exact (model_changed_trans _ _ _ H0 Hb).
  - split; [eexists|]; reflexivity.
Qed.

Lemma train_epoch_inv (s : train_locals) (epoch : Z) (w : world)
    (s' : train_locals) (w' : world) :
  train_epoch s epoch w = (Ret s', w') ->
  tl_global_step s'
  = tl_global_step s
    + len (dl_batches (train_dl (self w)))
      / Z.abs (gradient_accumulation_steps (args (self w)))
  /\ tl_global_model s' = tl_global_model s.
Proof.
  unfold train_epoch. run_monad. cbn. unfold enumerate. intros Hrun.
  apply train_batches_inv in Hrun as (Hsteps & Hglobal & _). cbn in Hsteps.
  split; [|exact Hglobal]. rewrite Hsteps. unfold len. rewrite Z.add_0_l.
  change (0 / _) with 0. lia.
Qed.

Lemma train_epoch_returns (s : train_locals) (epoch : Z) (w : world) :
  Forall (fun b => returns (self_get_inputs_dict (self w) b))
         (dl_batches (train_dl (self w))) ->
  scalar_loss (args (self w)) ->
  gradient_accumulation_steps (args (self w)) <> 0 ->
  exists s' w', train_epoch s epoch w = (Ret s', w').
Proof.
  intros Hall Hscalar Hacc. unfold train_epoch. run_monad. cbn. unfold enumerate.
  apply train_batches_returns; assumption.
Qed.

(** All epochs. *)
Lemma train_epochs_list_inv (es : list Z) :
  forall (s : train_locals) (w : world) (s' : train_locals) (w' : world),
    for_each train_epoch es s w = (Ret s', w') ->
    tl_global_step s'
    = tl_global_step s
      + len es * (len (dl_batches (train_dl (self w)))
                  / Z.abs (gradient_accumulation_steps (args (self w))))
    /\ tl_global_model s' = tl_global_model s.
Proof.
  induction es as [|e es IH]; intros s w s' w' Hrun.
  - cbn in Hrun. injection Hrun as <- <-. unfold len. cbn. split; [lia|reflexivity].
  - cbn [for_each] in Hrun. unfold bind in Hrun.
    destruct (train_epoch s e w) as [[s1|ex] w1] eqn:He; [|discriminate].
    pose proof (train_epoch_frame _ _ _ _ _ He) as Hframe.
    destruct (model_changed_args _ _ Hframe) as (Hargs & Hdl & _).
    apply train_epoch_inv in He as [Hstep Hglobal].
    apply IH in Hrun as [Hsteps Hglobal']. rewrite Hargs, Hdl in Hsteps.
    split; [|congruence]. unfold len in *. cbn [length]. rewrite Nat2Z.inj_succ. lia.
Qed.

Lemma train_epochs_list_returns (es : list Z) :
  forall (s : train_locals) (w : world),
    Forall (fun b => returns (self_get_inputs_dict (self w) b))
           (dl_batches (train_dl (self w))) ->
    scalar_loss (args (self w)) ->
    gradient_accumulation_steps (args (self w)) <> 0 ->
    exists s' w', for_each train_epoch es s w = (Ret s', w').
Proof.
  induction es as [|e es IH]; intros s w Hall Hscalar Hacc.
  - eexists _, _. reflexivity.
  - cbn [for_each]. unfold bind.
    destruct (train_epoch_returns s e w Hall Hscalar Hacc) as (s1 & w1 & He).
    rewrite He. pose proof (train_epoch_frame _ _ _ _ _ He) as Hframe.
    destruct (model_changed_args _ _ Hframe) as (Hargs & Hdl & _).
    apply IH.
    + rewrite Hdl. eapply Forall_impl; [exact Hall|]. intros b' Hb'. cbn.
      rewrite (self_get_inputs_dict_model_changed _ _ b' Hframe). exact Hb'.
    + rewrite Hargs. exact Hscalar.
    + rewrite Hargs. exact Hacc.
Qed.

Lemma train_epochs_frame (s : train_locals) (w : world)
    (o : outcome train_locals) (w' : world) :
  train_epochs s w = (o, w') -> model_changed w w'.
Proof.
  unfold train_epochs. run_monad. cbn. intros Hrun.
  eapply (for_each_world_invariant (model_changed w)); [| |exact Hrun].
  - intros s0 x w0 o0 w0' H0 Hb. apply train_epoch_frame in Hb.
    exact (model_changed_trans _ _ _ H0 Hb).
  - apply model_changed_refl.
Qed.

Lemma train_epochs_inv (s : train_locals) (w : world) (s' : train_locals) (w' : world) :
  train_epochs s w = (Ret s', w') ->
  tl_global_step s'
  = tl_global_step s
    + Z.max 0 (epochs (args (self w)))
      * (len (dl_batches (train_dl (self w)))
         / Z.abs (gradient_accumulation_steps (args (self w))))
  /\ tl_global_model s' = tl_global_model s.
Proof.
  unfold train_epochs. run_monad. cbn. intros Hrun.
  apply train_epochs_list_inv in Hrun as [Hsteps Hglobal]. split; [|exact Hglobal].
  rewrite Hsteps. unfold len at 1. rewrite length_seqZ. f_equal. f_equal. lia.
Qed.
End LoopCount.

(** ** train_model before the loops *)

Lemma build_param_groups_frame {P : Type} (repr : pyval -> string)
    (named : list (string * P)) (a : config) :
  exists cpg clp,
    snd (build_param_groups repr named a)
    = set_custom_layer_parameters clp (set_custom_parameter_groups cpg a).
Proof.
  unfold build_param_groups.
  destruct (named_groups named (custom_parameter_groups a) ∅) as [[[g1 n1]|e] cpg].
  - cbn [custom_layer_parameters set_custom_parameter_groups].
    destruct (layer_groups repr named (custom_layer_parameters a) n1) as [[[g2 n2]|e] clp];
      exists cpg, clp; reflexivity.
  - exists cpg, (custom_layer_parameters a). reflexivity.
Qed.

Section TrainSetup.
Context `{RT : Runtime}.

Lemma train_setup_cases (device_arg : option string) (w : world) :
  let t := self w in
  let m1 := model_to (call_device device_arg t) (model t) in
  let built := build_param_groups py_str (named_parameters m1) (args t) in
  let a1 := snd built in
  let w1 := {| self := set_args a1 (set_model m1 t); fs := fs w;
               events := events w ++ [LogTrainDevice (call_device device_arg t)] |} in
  train_setup device_arg w =
  match fst built with
  | Raise e => (Raise e, w1)
  | Ret _ =>
      match py_floordiv (len (dl_batches (train_dl t))) (gradient_accumulation_steps a1) with
      | Raise e => (Raise e, w1)
      | Ret per_epoch =>
          let total := per_epoch * epochs a1 in
          match compute_warmup_steps a1 total with
          | Raise e => (Raise e, w1)
          | Ret ws =>
              let a2 := set_warmup_steps ws a1 in
              let w2 := {| self := set_model (setup_model device_arg t a2)
                                             (set_args a2 t);
                           fs := fs w;
                           events := events w1 ++ [LogWarmupSteps ws] |} in
              if evaluate_during_training a2
              then (Raise (AttributeError "_create_training_progress_scores"), w2)
              else
                let built_opt :=
                  get_linear_schedule_with_warmup (select_optimizer a2 m1) ws total in
                (Ret {| tl_optimizer := fst built_opt;
                        tl_scheduler := snd built_opt;
                        tl_scaler := if fp16 a2 then Some grad_scaler else None;
                        tl_global_model :=
                          if bool_decide (fl_algorithm a2 = "FedProx")
                          then Some (deepcopy (setup_model device_arg t a2))
                          else None;
                        tl_global_step := 0;
                        tl_tr_loss := PyFloat.zero |},
                 w2)
          end
      end
  end.
Proof.
  intros t m1 built a1 w1. unfold train_setup. run_monad.
  cbn [self fs events]. fold t. fold (call_device device_arg t). fold m1.
  change (model (set_model m1 t)) with m1.
  change (args (set_model m1 t)) with (args t). fold built.
  subst a1 w1. destruct built as [groups a1]. cbn [fst snd].
  destruct groups as [groups|e]; [|reflexivity].
  cbn [self args train_dl set_args set_model].
  destruct (py_floordiv _ _) as [per_epoch|e]; [|reflexivity].
  unfold build_optimizer. run_monad. cbn [self args fs events set_args set_model].
  destruct (compute_warmup_steps a1 (per_epoch * epochs a1)) as [ws|e]; [|reflexivity].
  cbn [self args model fs events set_args set_model warmup_steps set_warmup_steps
       n_gpu evaluate_during_training fp16 fl_algorithm
       get_linear_schedule_with_warmup fst snd].
  unfold setup_model. fold (call_device device_arg t). fold m1.
  cbn [n_gpu set_warmup_steps].
  change (evaluate_during_training (set_warmup_steps ws a1))
    with (evaluate_during_training a1).
  destruct (1 <? n_gpu a1); cbn [self args model fs events set_args set_model];
    change (evaluate_during_training (set_warmup_steps ws a1))
      with (evaluate_during_training a1);
    destruct (evaluate_during_training a1); reflexivity.
Qed.
End TrainSetup.

Lemma layer_groups_returns {P : Type} (repr : pyval -> string)
    (named : list (string * P)) (gs : list pydict) :
  Forall (fun g => is_Some (g !! "layer"%string)) gs ->
  forall C, exists pgs names',
    layer_groups repr named gs C = (Ret (pgs, names'), map (delete "layer"%string) gs).
Proof.
  induction 1 as [|g gs [v Hg] _ IH]; intros C.
  - eexists _, _. reflexivity.
  - cbn [layer_groups]. unfold dict_pop. rewrite Hg.
    destruct (layer_split (layer_pattern repr v) named C) as [[d nd] names1].
    destruct (IH names1) as (pgs & names' & ->). cbn [obind].
    eexists _, _. reflexivity.
Qed.

Lemma build_param_groups_returns {P : Type} (repr : pyval -> string)
    (named : list (string * P)) (a : config) :
  well_formed_groups a ->
  exists groups,
    build_param_groups repr named a
    = (Ret groups,
       set_custom_layer_parameters
         (map (delete "layer"%string) (custom_layer_parameters a))
         (set_custom_parameter_groups
            (map (delete "params"%string) (custom_parameter_groups a)) a)).
Proof.
  intros [Hwf1 Hwf2]. unfold build_param_groups.
  destruct (named_groups_run named _ Hwf1 ∅) as (G1 & -> & _).
  cbn [custom_layer_parameters set_custom_parameter_groups].
  destruct (layer_groups_returns repr named _ Hwf2
              (∅ ∪ list_to_set (concat (map group_names (custom_parameter_groups a)))))
    as (G2 & names2 & ->).
  eexists. reflexivity.
Qed.

Section TrainModel.
Context `{RT : Runtime}.

(** What a returning [train_setup] established. *)
Lemma train_setup_inv (device_arg : option string) (w : world)
    (s0 : train_locals) (w0 : world) :
  let t := self w in
  let m1 := model_to (call_device device_arg t) (model t) in
  let a1 := snd (build_param_groups py_str (named_parameters m1) (args t)) in
  train_setup device_arg w = (Ret s0, w0) ->
  exists ws,
    let a2 := set_warmup_steps ws a1 in
    self w0 = set_model (setup_model device_arg t a2) (set_args a2 t)
    /\ fs w0 = fs w
    /\ gradient_accumulation_steps a1 <> 0
    /\ tl_global_step s0 = 0
    /\ tl_global_model s0
       = (if bool_decide (fl_algorithm a2 = "FedProx")
          then Some (deepcopy (model (self w0))) else None)
    /\ opt_param_groups (tl_optimizer s0) = opt_param_groups (select_optimizer a2 m1).
Proof.
  intros t m1 a1. rewrite train_setup_cases. fold t. fold m1. fold a1.
  destruct (fst _) as [groups|e]; [|discriminate].
  unfold py_floordiv. destruct (Z.eqb_spec (gradient_accumulation_steps a1) 0) as [|Hacc];
    [discriminate|].
  cbv zeta. destruct (compute_warmup_steps a1 _) as [ws|e]; [|discriminate].
  destruct (evaluate_during_training _); [discriminate|].
  intros [= <- <-]. exists ws. cbn. repeat split. exact Hacc.
Qed.

(** [train_setup] returns on a trainer that is ready. *)
Lemma train_setup_returns (device_arg : option string) (w : world) :
  train_ready (self w) ->
  exists s0 w0, train_setup device_arg w = (Ret s0, w0).
Proof.
  intros (Hwf & Hacc & Heval & [ws Hws] & _).
  rewrite train_setup_cases.
  destruct (build_param_groups_returns py_str
              (named_parameters (model_to (call_device device_arg (self w))
                                          (model (self w))))
              (args (self w)) Hwf) as [groups ->].
  cbn [fst snd gradient_accumulation_steps set_custom_layer_parameters
       set_custom_parameter_groups epochs].
  unfold py_floordiv. rewrite (proj2 (Z.eqb_neq _ 0)) by lia. cbv zeta.
  match goal with
  | |- context [compute_warmup_steps ?a1 ?n] =>
      change (compute_warmup_steps a1 n)
        with (compute_warmup_steps (args (self w)) n)
  end.
  rewrite Hws. cbn [evaluate_during_training set_warmup_steps
                    set_custom_layer_parameters set_custom_parameter_groups].
  rewrite Heval. eexists _, _. reflexivity.
Qed.

(** Every returning run takes, per epoch, one optimizer step for each
    full window of batches. *)
Lemma train_model_inv (device_arg : option string) (w : world)
    (gs : Z) (mean : pyfloat) (w' : world) :
  train_model device_arg w = (Ret (gs, mean), w') ->
  gradient_accumulation_steps (args (self w)) <> 0
  /\ gs = Z.max 0 (epochs (args (self w)))
          * (len (dl_batches (train_dl (self w)))
             / Z.abs (gradient_accumulation_steps (args (self w)))).
Proof.
  unfold train_model. unfold bind at 1.
  destruct (train_setup device_arg w) as [[s0|e] w0] eqn:Hsetup; [|discriminate].
  unfold bind at 1.
  destruct (train_epochs s0 w0) as [[s1|e] w1] eqn:Hloop; [|discriminate].
  run_monad. destruct (PyFloat.div_int _ _) as [x|e]; [|discriminate].
  intros [= <- _ _].
  apply train_setup_inv in Hsetup as (ws & Hself & _ & Hacc & Hstep0 & _).
  destruct (build_param_groups_frame py_str
              (named_parameters (model_to (call_device device_arg (self w))
                                          (model (self w))))
              (args (self w))) as (cpg & clp & Hframe).
  rewrite Hframe in Hself, Hacc.
  apply train_epochs_inv in Hloop as [Hsteps _].
  rewrite Hself in Hsteps. cbn in Hsteps, Hacc. split; [exact Hacc|]. lia.
Qed.

(** A ready trainer's run returns the planned number of steps. *)
Lemma train_model_returns (device_arg : option string) (w : world) :
  train_ready (self w) ->
  exists mean w', train_model device_arg w = (Ret (planned_steps (self w), mean), w').
Proof.
  intros Hready.
  destruct (train_setup_returns device_arg w Hready) as (s0 & w0 & Hsetup).
  destruct Hready as (Hwf & Hacc & Heval & Hws & Hadapt & Hscalar & Hpos & f & Hf & Hnz).
  pose proof Hsetup as Hinv.
  apply train_setup_inv in Hinv as (ws & Hself & _ & _ & Hstep0 & _).
  destruct (build_param_groups_frame py_str
              (named_parameters (model_to (call_device device_arg (self w))
                                          (model (self w))))
              (args (self w))) as (cpg & clp & Hframe).
  rewrite Hframe in Hself.
  destruct (train_epochs_list_returns (seqZ 0 (epochs (args (self w0)))) s0 w0)
    as (s1 & w1 & Hloop).
  { rewrite Hself. cbn [train_dl set_model set_args]. exact Hadapt. }
  { rewrite Hself. exact Hscalar. }
  { rewrite Hself. cbn. lia. }
  assert (Hepochs : train_epochs s0 w0 = (Ret s1, w1)).
  { unfold train_epochs. run_monad. exact Hloop. }
  pose proof (train_epochs_inv _ _ _ _ Hepochs) as [Hsteps _].
  rewrite Hself in Hsteps. cbn in Hsteps.
  assert (Hgs : tl_global_step s1 = planned_steps (self w)).
  { unfold planned_steps in *. rewrite Hsteps, Hstep0.
    rewrite Z.abs_eq by lia.
    assert (0 <= len (dl_batches (train_dl (self w)))
                 / gradient_accumulation_steps (args (self w)))
      by (apply Z.div_pos; unfold len; lia).
    nia. }
  unfold train_model. unfold bind at 1. rewrite Hsetup.
  unfold bind at 1. rewrite Hepochs. run_monad. rewrite Hgs.
  unfold PyFloat.div_int. rewrite Hf. cbn [obind]. unfold PyFloat.div. rewrite Hnz.
  eexists _, _. reflexivity.
Qed.
End TrainModel.

(** ** Claims about train_model *)

Lemma accumulating_world_ready : train_ready (RT := Demo.runtime) (self Demo.accumulating_world).
Proof.
  split; [split; constructor|]. split; [reflexivity|]. split; [reflexivity|].
  split; [eexists; reflexivity|].
  split; [repeat constructor; eexists; reflexivity|].
  split; [right; intros fp m inp; eexists; reflexivity|].
  split; [reflexivity|]. eexists. split; reflexivity.
Qed.

(** C3, as stated, fails when the batches of an epoch do not fill the last
    window: two epochs of three batches with a step every second batch take
    two optimizer steps, not floor(6 / 2) = 3. *)
Lemma train_model_steps_restart_each_epoch :
  let t := self Demo.accumulating_world in
  epochs (args t) * len (dl_batches (train_dl t)) = 6
  /\ gradient_accumulation_steps (args t) = 2
  /\ (exists mean w',
        train_model (RT := Demo.runtime) None Demo.accumulating_world = (Ret (2, mean), w'))
  /\ 6 / 2 <> 2.
Proof.
  cbv zeta. split; [reflexivity|]. split; [reflexivity|]. split; [|discriminate].
  exact (train_model_returns (RT := Demo.runtime) None Demo.accumulating_world
           accumulating_world_ready).
Qed.

(** C3, amended. The step count that [train_model] returns as [global_step]
    is the number of epochs times floor(batches per epoch /
    accumulation steps): the window of accumulated batches restarts with
    every epoch. Every returning run returns this count, and a run on a
    ready trainer (see [train_ready]) returns. The count is
    floor(total batches / accumulation steps) when the accumulation steps
    divide the batches of an epoch, and the total batch count when they
    are 1. *)
Theorem train_model_step_count `{RT : Runtime} (device_arg : option string) (w : world) :
  let a := args (self w) in
  let per_epoch := len (dl_batches (train_dl (self w))) in
  (forall gs mean w',
     train_model device_arg w = (Ret (gs, mean), w') ->
     gs = Z.max 0 (epochs a) * (per_epoch / Z.abs (gradient_accumulation_steps a)))
  /\ (train_ready (self w) ->
      exists mean w',
        train_model device_arg w
        = (Ret (epochs a * (per_epoch / gradient_accumulation_steps a), mean), w'))
  /\ (0 < gradient_accumulation_steps a ->
      (gradient_accumulation_steps a | per_epoch) ->
      epochs a * (per_epoch / gradient_accumulation_steps a)
      = epochs a * per_epoch / gradient_accumulation_steps a)
  /\ (gradient_accumulation_steps a = 1 ->
      epochs a * (per_epoch / gradient_accumulation_steps a) = epochs a * per_epoch).
Proof.
  intros a per_epoch. split; [|split; [|split]].
  - intros gs mean w' Hrun. apply (train_model_inv _ _ _ _ _ Hrun).
  - apply train_model_returns.
  - intros Hacc [q Hq]. rewrite Hq. rewrite Z.div_mul by lia.
    replace (epochs a * (q * gradient_accumulation_steps a))
      with (epochs a * q * gradient_accumulation_steps a) by lia.
    rewrite Z.div_mul by lia. reflexivity.
  - intros ->. rewrite Z.div_1_r. reflexivity.
Qed.

Lemma train_model_step_count_witness :
  exists mean w',
    train_model (RT := Demo.runtime) None Demo.accumulating_world
    = (Ret (2 * (3 / 2), mean), w').
Proof.
  refine (proj1 (proj2 (train_model_step_count (RT := Demo.runtime) None
                          Demo.accumulating_world)) _).
  split; [split; constructor|]. split; [reflexivity|]. split; [reflexivity|].
  split; [eexists; reflexivity|].
  split; [repeat constructor; eexists; reflexivity|].
  split; [right; intros fp m inp; eexists; reflexivity|].
  split; [reflexivity|]. eexists. split; reflexivity.
Defined.

(** *** The FedProx term *)

Lemma Rsum_squares_nonneg (t : list R) : (0 <= Rsum (map (fun x => x * x) t))%R.
Proof.
  unfold Rsum. induction t as [|x t IH]; cbn [map fold_right]; [lra|].
  pose proof (Rle_0_sqr x) as Hx. unfold Rsqr in Hx. lra.
Qed.

Lemma norm_sub_squared (p g : list R) : ((t_norm (t_sub p g)) ^ 2 = sq_dist p g)%R.
Proof.
  unfold t_norm, t_sub, sq_dist. rewrite <- Rsqr_pow2, Rsqr_sqrt by apply Rsum_squares_nonneg.
  f_equal. revert g. induction p as [|x p IH]; intros [|y g]; try reflexivity.
  cbn. f_equal. apply IH.
Qed.

Section FedProx.
Context `{RT : Runtime}.

(** The accumulated [fed_prox_reg] of lines 174-178, for a finite
    [mu / 2]: the proximal term with the value of [mu / 2] as factor. *)
Lemma fed_prox_reg_sum (mu : pyfloat) (c : R) (m g : Model) :
  PyFloat.to_R (half mu) = Some c ->
  fed_prox_reg mu m g = proximal_term c m g.
Proof.
  intros Hc. unfold fed_prox_reg, proximal_term.
  assert (Hgen : forall l r0,
             fold_left (fun reg pg =>
                          (reg + scalar_mul (half mu)
                                   (t_norm (t_sub (param_data (fst pg))
                                                  (param_data (snd pg))) ^ 2))%R) l r0
             = (r0 + c * Rsum (map (fun pg => sq_dist (param_data (fst pg))
                                                      (param_data (snd pg))) l))%R).
  { induction l as [|pg l IH]; intros r0; cbn [fold_left map Rsum fold_right].
    - lra.
    - rewrite IH, (scalar_mul_finite _ c _ Hc), norm_sub_squared. unfold Rsum. lra. }
  rewrite Hgen. lra.
Qed.






End FedProx.

(** *** The quotient [mu / 2] *)













(** *** What the optimizer is bound to *)

Section OptimizerGroups.
Context `{RT : Runtime}.

Lemma select_optimizer_groups (a : config) (m : Model) :
  map pg_params (opt_param_groups (select_optimizer a m)) = [parameters m]
  /\ map (fun g => pg_options g !! "weight_decay"%string)
         (opt_param_groups (select_optimizer a m))
     = [Some (VFloat PyFloat.zero)].
Proof.
  unfold select_optimizer. destruct (_ || _); cbn; split; reflexivity.
Qed.

Lemma build_optimizer_groups (m : Model) (n : Z) (w : world)
    (opt : optimizer) (sched : scheduler) (w' : world) :
  build_optimizer m n w = (Ret (opt, sched), w') ->
  map pg_params (opt_param_groups opt) = [parameters m]
  /\ map (fun g => pg_options g !! "weight_decay"%string) (opt_param_groups opt)
     = [Some (VFloat PyFloat.zero)].
Proof.
  destruct (compute_warmup_steps (args (self w)) n) as [ws|e] eqn:Hws.
  - rewrite (build_optimizer_run m n w ws Hws). intros [= <- _ _].
    apply select_optimizer_groups.
  - rewrite (build_optimizer_raises m n w e Hws). discriminate.
Qed.
End OptimizerGroups.

(** C2: the claim does not hold of the code. [build_optimizer] builds the
    optimizer from [model.parameters()], a single group of all parameters
    with the library's weight decay 0, whatever groups lines 63-115 built,
    and this is the optimizer the loops of [train_model] step;
    on the trainer with one custom parameter group and one custom layer
    entry the five constructed groups and their weight-decay values are not
    what the optimizer holds. *)
Theorem build_optimizer_ignores_param_groups :
  (forall (RT : Runtime) (m : Model) (n : Z) (w : world) opt sched w',
     build_optimizer m n w = (Ret (opt, sched), w') ->
     map pg_params (opt_param_groups opt) = [parameters m]
     /\ map (fun g => pg_options g !! "weight_decay"%string) (opt_param_groups opt)
        = [Some (VFloat PyFloat.zero)])
  /\ (forall (RT : Runtime) device_arg (w : world) s0 w0,
        train_setup device_arg w = (Ret s0, w0) ->
        map pg_params (opt_param_groups (tl_optimizer s0))
        = [parameters (model_to (call_device device_arg (self w)) (model (self w)))])
  /\ exists groups a' opt sched w',
       build_param_groups (py_str (Runtime := Demo.runtime))
                          Demo.demo_model (args (self Demo.custom_world))
       = (Ret groups, a')
       /\ map pg_params groups = [ [[3%R]]; [[1%R; 2%R]]; [[0%R]]; []; [] ]
       /\ map (fun g => pg_options g !! "weight_decay"%string) groups
          = [ None; None; Some (VFloat PyFloat.zero);
              Some (VFloat PyFloat.hundredth); Some (VFloat PyFloat.zero) ]
       /\ build_optimizer (RT := Demo.runtime) Demo.demo_model 2 Demo.custom_world
          = (Ret (opt, sched), w')
       /\ map pg_params (opt_param_groups opt) = [ [[1%R; 2%R]; [0%R]; [3%R]] ]
       /\ map (fun g => pg_options g !! "weight_decay"%string) (opt_param_groups opt)
          = [ Some (VFloat PyFloat.zero) ].
Proof.
  split; [|split].
  - intros RT m n w opt sched w'. apply build_optimizer_groups.
  - intros RT device_arg w s0 w0 Hsetup.
    apply train_setup_inv in Hsetup as (ws & _ & _ & _ & _ & _ & ->).
    apply select_optimizer_groups.
  - eexists _, _, _, _, _. split; [reflexivity|]. split; [reflexivity|].
    split; [reflexivity|]. split; [reflexivity|]. split; reflexivity.
Qed.

(** *** What train_model does to the configuration *)

Lemma named_groups_consumed {P : Type} (named : list (string * P)) (gs : list pydict) :
  forall C r gs',
    named_groups named gs C = (Ret r, gs') -> gs' = map (delete "params"%string) gs.
Proof.
  induction gs as [|g gs IH]; intros C r gs' Hrun.
  - cbn in Hrun. injection Hrun as _ <-. reflexivity.
  - cbn [named_groups] in Hrun. unfold dict_pop in Hrun.
    destruct (g !! "params"%string) as [[x|n|s|names]|]; try discriminate.
    + destruct (named_groups named gs (C ∪ list_to_set (characters s)))
        as [[r1|e] rest] eqn:Hrest; [|discriminate].
      apply IH in Hrest as ->. injection Hrun as _ <-. reflexivity.
    + destruct (named_groups named gs (C ∪ list_to_set names)) as [[r1|e] rest] eqn:Hrest;
        [|discriminate].
      apply IH in Hrest as ->. injection Hrun as _ <-. reflexivity.
Qed.

Lemma layer_groups_consumed {P : Type} (repr : pyval -> string)
    (named : list (string * P)) (gs : list pydict) :
  forall C r gs',
    layer_groups repr named gs C = (Ret r, gs') -> gs' = map (delete "layer"%string) gs.
Proof.
  induction gs as [|g gs IH]; intros C r gs' Hrun.
  - cbn in Hrun. injection Hrun as _ <-. reflexivity.
  - cbn [layer_groups] in Hrun. unfold dict_pop in Hrun.
    destruct (g !! "layer"%string) as [v|]; [|discriminate].
    destruct (layer_split (layer_pattern repr v) named C) as [[d nd] names1].
    destruct (layer_groups repr named gs names1) as [[r1|e] rest] eqn:Hrest;
      [|discriminate].
    apply IH in Hrest as ->. injection Hrun as _ <-. reflexivity.
Qed.

Lemma build_param_groups_consumed {P : Type} (repr : pyval -> string)
    (named : list (string * P)) (a : config) (groups : list (param_group P)) :
  fst (build_param_groups repr named a) = Ret groups ->
  snd (build_param_groups repr named a)
  = set_custom_layer_parameters
      (map (delete "layer"%string) (custom_layer_parameters a))
      (set_custom_parameter_groups
         (map (delete "params"%string) (custom_parameter_groups a)) a).
Proof.
  unfold build_param_groups.
  destruct (named_groups named (custom_parameter_groups a) ∅) as [[[g1 n1]|e] cpg] eqn:H1;
    [|discriminate].
  apply named_groups_consumed in H1 as ->.
  cbn [custom_layer_parameters set_custom_parameter_groups].
  destruct (layer_groups repr named (custom_layer_parameters a) n1)
    as [[[g2 n2]|e] clp] eqn:H2; [|discriminate].
  apply layer_groups_consumed in H2 as ->. reflexivity.
Qed.

Section ConfigFrame.
Context `{RT : Runtime}.

Lemma train_setup_frame (device_arg : option string) (w : world)
    (o : outcome train_locals) (w0 : world) :
  train_setup device_arg w = (o, w0) ->
  other_fields (args (self w0)) = other_fields (args (self w)).
Proof.
  rewrite train_setup_cases.
  destruct (build_param_groups_frame py_str
              (named_parameters (model_to (call_device device_arg (self w))
                                          (model (self w))))
              (args (self w))) as (cpg & clp & Hframe).
  rewrite Hframe. destruct (fst _) as [groups|e]; [|intros [= _ <-]; reflexivity].
  destruct (py_floordiv _ _) as [per_epoch|e]; [|intros [= _ <-]; reflexivity].
  cbv zeta. destruct (compute_warmup_steps _ _) as [ws|e];
    [|intros [= _ <-]; reflexivity].
  destruct (evaluate_during_training _); intros [= _ <-]; reflexivity.
Qed.

(** Whatever a call of [train_model] does, the fields of the configuration
    other than the two custom lists and [warmup_steps] stay. *)
Lemma train_model_frame (device_arg : option string) (w : world)
    (o : outcome (Z * pyfloat)) (w' : world) :
  train_model device_arg w = (o, w') ->
  other_fields (args (self w')) = other_fields (args (self w)).
Proof.
  unfold train_model. unfold bind at 1.
  destruct (train_setup device_arg w) as [[s0|e] w0] eqn:Hsetup.
  2:{ intros [= _ <-]. exact (train_setup_frame _ _ _ _ Hsetup). }
  apply train_setup_frame in Hsetup. unfold bind at 1.
  destruct (train_epochs s0 w0) as [[s1|e] w1] eqn:Hloop.
  2:{ intros [= _ <-]. apply train_epochs_frame, model_changed_args in Hloop as [-> _].
      exact Hsetup. }
  apply train_epochs_frame, model_changed_args in Hloop as [Hargs _].
  run_monad. destruct (PyFloat.div_int _ _); intros [= _ <-]; rewrite Hargs;
    exact Hsetup.
Qed.

(** A returning call has popped the keys of every custom entry. *)
Lemma train_model_consumed (device_arg : option string) (w : world)
    (r : Z * pyfloat) (w' : world) :
  train_model device_arg w = (Ret r, w') ->
  custom_parameter_groups (args (self w'))
  = map (delete "params"%string) (custom_parameter_groups (args (self w)))
  /\ custom_layer_parameters (args (self w'))
     = map (delete "layer"%string) (custom_layer_parameters (args (self w))).
Proof.
  unfold train_model. unfold bind at 1.
  destruct (train_setup device_arg w) as [[s0|e] w0] eqn:Hsetup; [|discriminate].
  unfold bind at 1.
  destruct (train_epochs s0 w0) as [[s1|e] w1] eqn:Hloop; [|discriminate].
  run_monad. destruct (PyFloat.div_int _ _); [|discriminate]. intros [= _ <-].
  apply train_epochs_frame, model_changed_args in Hloop as [-> _].
  pose proof Hsetup as Hinv. apply train_setup_inv in Hinv as (ws & -> & _).
  rewrite train_setup_cases in Hsetup.
  destruct (fst (build_param_groups _ _ _)) as [groups|e] eqn:Hgroups; [|discriminate].
  rewrite (build_param_groups_consumed _ _ _ _ Hgroups). split; reflexivity.
Qed.

(** The warmup steps a returning call leaves in the configuration. *)
Lemma train_model_warmup (device_arg : option string) (w : world)
    (r : Z * pyfloat) (w' : world) :
  train_model device_arg w = (Ret r, w') ->
  compute_warmup_steps (args (self w))
    (len (dl_batches (train_dl (self w))) / gradient_accumulation_steps (args (self w))
     * epochs (args (self w)))
  = Ret (warmup_steps (args (self w'))).
Proof.
  unfold train_model. unfold bind at 1.
  destruct (train_setup device_arg w) as [[s0|e] w0] eqn:Hsetup; [|discriminate].
  unfold bind at 1.
  destruct (train_epochs s0 w0) as [[s1|e] w1] eqn:Hloop; [|discriminate].
  run_monad. destruct (PyFloat.div_int _ _); [|discriminate]. intros [= _ <-].
  apply train_epochs_frame, model_changed_args in Hloop as [-> _].
  rewrite train_setup_cases in Hsetup.
  destruct (build_param_groups_frame py_str
              (named_parameters (model_to (call_device device_arg (self w))
                                          (model (self w))))
              (args (self w))) as (cpg & clp & Hframe).
  rewrite Hframe in Hsetup. destruct (fst _) as [groups|e]; [|discriminate].
  cbn [gradient_accumulation_steps epochs set_custom_layer_parameters
       set_custom_parameter_groups] in Hsetup.
  unfold py_floordiv in Hsetup.
  destruct (gradient_accumulation_steps (args (self w)) =? 0); [discriminate|].
  cbv zeta in Hsetup.
  match type of Hsetup with
  | context [compute_warmup_steps ?a1 ?n] =>
      change (compute_warmup_steps a1 n)
        with (compute_warmup_steps (args (self w)) n) in Hsetup
  end.
  destruct (compute_warmup_steps (args (self w)) _) as [ws|e]; [|discriminate].
  destruct (evaluate_during_training _); [discriminate|].
  injection Hsetup as _ <-. reflexivity.
Qed.

(** A call on a configuration whose first custom parameter group has no
    "params" key raises. *)
Lemma train_model_missing_params (device_arg : option string) (w : world)
    (g : pydict) (rest : list pydict) :
  custom_parameter_groups (args (self w)) = g :: rest ->
  g !! "params"%string = None ->
  fst (train_model device_arg w) = Raise (KeyError "params").
Proof.
  intros Hgroups Hg. unfold train_model. unfold bind at 1.
  rewrite train_setup_cases. unfold build_param_groups. rewrite Hgroups.
  cbn [named_groups]. unfold dict_pop. rewrite Hg. reflexivity.
Qed.
End ConfigFrame.

(** C9: the claim does not hold of the code. The loops of lines 67-79 pop
    the "params" and "layer" keys out of the dictionaries of the
    configuration itself: after a returning call every custom entry has lost
    its key (the other fields, [warmup_steps] apart, are as before), and the
    next call on a trainer with a custom parameter group raises KeyError.
    On the trainer with one custom parameter group and one custom layer
    entry: the call returns, the two entries are left with their "lr" key
    only, [warmup_steps] is written, and a second call raises. *)
Theorem train_model_consumes_custom_entries :
  (forall (RT : Runtime) device_arg w r w',
     train_model device_arg w = (Ret r, w') ->
     custom_parameter_groups (args (self w'))
     = map (delete "params"%string) (custom_parameter_groups (args (self w)))
     /\ custom_layer_parameters (args (self w'))
        = map (delete "layer"%string) (custom_layer_parameters (args (self w)))
     /\ other_fields (args (self w')) = other_fields (args (self w))
     /\ (custom_parameter_groups (args (self w)) <> [] ->
         forall device_arg', fst (train_model device_arg' w') = Raise (KeyError "params")))
  /\ (forall (RT : Runtime) device_arg w o w',
        train_model device_arg w = (o, w') ->
        other_fields (args (self w')) = other_fields (args (self w)))
  /\ exists r w1,
       train_model (RT := Demo.runtime) None Demo.custom_world = (Ret r, w1)
       /\ custom_parameter_groups (args (self Demo.custom_world))
          = [ {[ "params"%string := VNames ["head.weight"%string];
                 "lr"%string := VFloat PyFloat.tenth ]} ]
       /\ custom_parameter_groups (args (self w1))
          = [ delete "params"%string
                {[ "params"%string := VNames ["head.weight"%string];
                   "lr"%string := VFloat PyFloat.tenth ]} ]
       /\ (forall g, g ∈ custom_parameter_groups (args (self w1)) ->
           g !! "params"%string = None /\ g !! "lr"%string = Some (VFloat PyFloat.tenth))
       /\ warmup_steps (args (self w1)) = 1
       /\ fst (train_model (RT := Demo.runtime) None w1) = Raise (KeyError "params").
Proof.
  assert (Hgen : forall (RT : Runtime) device_arg w r w',
     train_model device_arg w = (Ret r, w') ->
     custom_parameter_groups (args (self w'))
     = map (delete "params"%string) (custom_parameter_groups (args (self w)))
     /\ custom_layer_parameters (args (self w'))
        = map (delete "layer"%string) (custom_layer_parameters (args (self w)))
     /\ other_fields (args (self w')) = other_fields (args (self w))
     /\ (custom_parameter_groups (args (self w)) <> [] ->
         forall device_arg', fst (train_model device_arg' w') = Raise (KeyError "params"))).
  { intros RT device_arg w r w' Hrun.
    destruct (train_model_consumed _ _ _ _ Hrun) as [H1 H2].
    split; [exact H1|]. split; [exact H2|].
    split; [exact (train_model_frame _ _ _ _ Hrun)|].
    intros Hne device_arg'.
    destruct (custom_parameter_groups (args (self w))) as [|g rest]; [contradiction|].
    apply (train_model_missing_params device_arg' w' (delete "params"%string g)
             (map (delete "params"%string) rest) H1).
    apply lookup_delete_eq. }
  split; [exact Hgen|].
  split; [intros RT device_arg w o w'; apply train_model_frame|].
  destruct (train_model_returns (RT := Demo.runtime) None Demo.custom_world)
    as (mean & w1 & Hrun).
  { split; [split; repeat constructor; eexists; reflexivity|].
    split; [reflexivity|]. split; [reflexivity|].
    split; [eexists; reflexivity|].
    split; [repeat constructor; eexists; reflexivity|].
    split; [right; intros fp m inp; eexists; reflexivity|].
    split; [reflexivity|]. eexists. split; reflexivity. }
  destruct (Hgen Demo.runtime None Demo.custom_world _ w1 Hrun) as (H1 & _ & _ & Hnext).
  pose proof (train_model_warmup (RT := Demo.runtime) None Demo.custom_world _ w1 Hrun)
    as Hws.
  eexists _, w1. split; [exact Hrun|]. split; [reflexivity|]. split; [exact H1|].
  split; [|split].
  - rewrite H1. intros g Hg. apply list_elem_of_singleton in Hg as ->.
    split; [apply lookup_delete_eq|]. rewrite lookup_delete_ne by discriminate.
    reflexivity.
  - change (Ret 1 = Ret (warmup_steps (args (self w1)))) in Hws.
    injection Hws as <-. reflexivity.
  - apply Hnext. discriminate.
Qed.

(** ** More on the batch adapter *)

Lemma lookup_removelast {A : Type} (l : list A) (j : nat) :
  removelast l !! j = match l !! S j with Some _ => l !! j | None => None end.
Proof.
  revert j. induction l as [|a l IH]; intros j; [reflexivity|].
  destruct l as [|b l].
  - destruct j; reflexivity.
  - destruct j as [|j]; [reflexivity|].
    change (removelast (a :: b :: l)) with (a :: removelast (b :: l)).
    change ((a :: removelast (b :: l)) !! S j) with (removelast (b :: l) !! j).
    rewrite IH. reflexivity.
Qed.

Lemma it_entry_drop_last_col (y : itensor) (i j : nat) :
  it_entry (it_drop_last_col y) i j
  = match it_entry y i (S j) with Some _ => it_entry y i j | None => None end.
Proof.
  unfold it_entry, it_drop_last_col. cbn [it_rows].
  rewrite list_lookup_fmap. destruct (it_rows y !! i) as [row|]; [|reflexivity].
  cbn. apply lookup_removelast.
Qed.

Lemma it_entry_drop_first_col (y : itensor) (i j : nat) :
  it_entry (it_drop_first_col y) i j = it_entry y i (S j).
Proof.
  unfold it_entry, it_drop_first_col. cbn [it_rows].
  rewrite list_lookup_fmap. destruct (it_rows y !! i) as [row|]; [|reflexivity].
  cbn. apply lookup_tail.
Qed.

Lemma it_entry_masked_fill_by_self (v w : Z) (t : itensor) (i j : nat) :
  it_entry (it_masked_fill_by t v w (it_clone t)) i j
  = (fun x => if x =? v then w else x) <$> it_entry t i j.
Proof.
  unfold it_entry, it_masked_fill_by, it_clone. cbn [it_rows].
  rewrite lookup_zip_with. destruct (it_rows t !! i) as [row|]; [|reflexivity].
  cbn. rewrite lookup_zip_with. destruct (row !! j); reflexivity.
Qed.

Lemma elem_of_seq2seq (mt : string) :
  mt ∈ ["bart"; "marian"; "mbart"]%string
  <-> mt ∈ ["bart"; "marian"]%string \/ mt ∈ ["mbart"]%string.
Proof. rewrite !elem_of_cons, !elem_of_nil. tauto. Qed.

Section Adapter.
Context `{RT : Runtime}.

(** X1. For the model types bart and marian the adapter shifts the target
    ids by one position: [decoder_input_ids] is the target without its
    last column, and [labels] holds at position [j] the target id at
    position [j + 1], replaced by -100 where that id is the pad id of the
    encoder tokenizer; the source ids and mask pass through unchanged. *)
Theorem shifted_adapter_aligns_labels (t : trainer) (d : gmap string itensor)
    (ids mask y : itensor) :
  model_type (args t) ∈ ["bart"; "marian"]%string ->
  d !! "source_ids"%string = Some ids ->
  d !! "source_mask"%string = Some mask ->
  d !! "target_ids"%string = Some y ->
  exists (inp : inputs) (src att dec lab : itensor),
    self_get_inputs_dict t (BatchDict d) = Ret inp
    /\ inp !! "input_ids"%string = Some src /\ it_rows src = it_rows ids
    /\ inp !! "attention_mask"%string = Some att /\ it_rows att = it_rows mask
    /\ inp !! "decoder_input_ids"%string = Some dec
    /\ inp !! "labels"%string = Some lab
    /\ length (it_rows dec) = length (it_rows y)
    /\ length (it_rows lab) = length (it_rows y)
    /\ forall i j : nat,
         it_entry dec i j
         = match it_entry y i (S j) with Some _ => it_entry y i j | None => None end
         /\ it_entry lab i j
            = (fun x => if x =? pad_token_id (encoder_tokenizer t) then -100 else x)
                <$> it_entry y i (S j).
Proof.
  intros Hty Hids Hmask Hy. unfold self_get_inputs_dict, get_inputs_dict.
  rewrite bool_decide_eq_true_2 by exact Hty.
  cbn [batch_key]. rewrite Hids, Hmask, Hy. cbn [obind].
  eexists _, _, _, _, _. split; [reflexivity|].
  split; [reflexivity|]. split; [reflexivity|].
  split; [reflexivity|]. split; [reflexivity|].
  split; [reflexivity|]. split; [reflexivity|].
  split; [cbn; apply length_map|].
  split; [cbn; rewrite length_zip_with, length_map; lia|].
  intros i j. split.
  - exact (it_entry_drop_last_col y i j).
  - change (it_entry (it_to (device t)
              (it_masked_fill_by (it_drop_first_col y) (pad_token_id (encoder_tokenizer t))
                 ignore_index (it_clone (it_drop_first_col y)))) i j)
      with (it_entry (it_masked_fill_by (it_drop_first_col y)
              (pad_token_id (encoder_tokenizer t)) ignore_index
              (it_clone (it_drop_first_col y))) i j).
    rewrite it_entry_masked_fill_by_self, it_entry_drop_first_col. reflexivity.
Qed.

(** X2. Whatever the model type and the batch, every tensor the adapter
    returns is on the trainer's own device, and the returned mapping has
    the keys input_ids, decoder_input_ids and labels, with attention_mask
    exactly for the model types bart, marian and mbart. *)
Theorem adapter_device_and_keys (t : trainer) (b : batch) (inp : inputs) :
  self_get_inputs_dict t b = Ret inp ->
  (forall (k : string) (x : itensor), inp !! k = Some x -> it_device x = device t)
  /\ dom inp
     = (if bool_decide (model_type (args t) ∈ ["bart"; "marian"; "mbart"]%string)
        then {[ "input_ids"; "attention_mask"; "decoder_input_ids"; "labels" ]}
        else {[ "input_ids"; "decoder_input_ids"; "labels" ]} : gset string)%string.
Proof.
  unfold self_get_inputs_dict, get_inputs_dict.
  rewrite (bool_decide_ext _ _ (elem_of_seq2seq (model_type (args t)))).
  destruct (bool_decide (model_type (args t) ∈ ["bart"; "marian"]%string)) eqn:H1;
    [|destruct (bool_decide (model_type (args t) ∈ ["mbart"]%string)) eqn:H2].
  - apply bool_decide_eq_true_1 in H1.
    rewrite bool_decide_eq_true_2 by (left; exact H1).
    destruct (batch_key b "source_ids") as [x1|]; [|discriminate].
    destruct (batch_key b "source_mask") as [x2|]; [|discriminate].
    destruct (batch_key b "target_ids") as [x3|]; [|discriminate].
    cbn [obind]. intros [= <-]. split.
    + intros k x Hk. rewrite !lookup_insert_Some, lookup_singleton_Some in Hk.
      destruct Hk as [[_ <-]|[_ [[_ <-]|[_ [[_ <-]|[_ [_ <-]]]]]]]; reflexivity.
    + rewrite !dom_insert_L, dom_singleton_L. set_solver.
  - apply bool_decide_eq_true_1 in H2.
    rewrite bool_decide_eq_true_2 by (right; exact H2).
    destruct (batch_key b "input_ids") as [x1|]; [|discriminate].
    destruct (batch_key b "attention_mask") as [x2|]; [|discriminate].
    destruct (batch_key b "decoder_input_ids") as [x3|]; [|discriminate].
    destruct (batch_key b "labels") as [x4|]; [|discriminate].
    cbn [obind]. intros [= <-]. split.
    + intros k x Hk. rewrite !lookup_insert_Some, lookup_singleton_Some in Hk.
      destruct Hk as [[_ <-]|[_ [[_ <-]|[_ [[_ <-]|[_ [_ <-]]]]]]]; reflexivity.
    + rewrite !dom_insert_L, dom_singleton_L. set_solver.
  - apply bool_decide_eq_false_1 in H1. apply bool_decide_eq_false_1 in H2.
    rewrite bool_decide_eq_false_2 by tauto.
    destruct (batch_index b 1) as [x1|]; [|discriminate].
    destruct (batch_index b 0) as [x0|]; [|discriminate].
    cbn [obind]. intros [= <-]. split.
    + intros k x Hk. rewrite !lookup_insert_Some, lookup_singleton_Some in Hk.
      destruct Hk as [[_ <-]|[_ [[_ <-]|[_ [_ <-]]]]]; reflexivity.
    + rewrite !dom_insert_L, dom_singleton_L. set_solver.
Qed.

(** X3. What the adapter does with each of the three batch shapes of the
    embedding (a tuple of tensors, a mapping from names to tensors, a
    tuple of names; other objects that Python can index are not
    covered). For bart, marian and mbart: on a mapping it returns exactly
    when the mapping has the keys it reads - source_ids, source_mask and
    target_ids for bart and marian, input_ids, attention_mask,
    decoder_input_ids and labels for mbart - and on a tuple of either
    kind it raises TypeError. For every other model type: on a tuple of
    tensors it returns exactly when there are at least two, on a mapping
    it raises KeyError for the key 1, and on a tuple of names it raises
    AttributeError at [clone] when there are at least two names and
    IndexError otherwise. *)
Theorem adapter_by_batch_shape (t : trainer) :
  let adapt := self_get_inputs_dict t in
  let required : gset string :=
    if bool_decide (model_type (args t) ∈ ["bart"; "marian"]%string)
    then {[ "source_ids"; "source_mask"; "target_ids" ]}%string
    else {[ "input_ids"; "attention_mask"; "decoder_input_ids"; "labels" ]}%string in
  if bool_decide (model_type (args t) ∈ ["bart"; "marian"; "mbart"]%string) then
    (forall d, returns (adapt (BatchDict d)) <-> required ⊆ dom d)
    /\ (forall ts, adapt (BatchTuple ts) = Raise TypeError)
    /\ (forall ks, adapt (BatchKeys ks) = Raise TypeError)
  else
    (forall ts, returns (adapt (BatchTuple ts)) <-> (2 <= length ts)%nat)
    /\ (forall d, adapt (BatchDict d) = Raise (KeyError "1"))
    /\ (forall ks, adapt (BatchKeys ks)
                   = Raise (if bool_decide (2 <= length ks)%nat
                            then AttributeError "clone" else IndexError)).
Proof.
  intros adapt required. subst adapt required.
  unfold self_get_inputs_dict, get_inputs_dict, returns.
  assert (Hsplit : bool_decide (model_type (args t) ∈ ["bart"; "marian"; "mbart"]%string)
                   = bool_decide (model_type (args t) ∈ ["bart"; "marian"]%string)
                     || bool_decide (model_type (args t) ∈ ["mbart"]%string)).
  { apply eq_true_iff_eq.
    rewrite orb_true_iff, !bool_decide_eq_true, !elem_of_cons, !elem_of_nil. tauto. }
  rewrite Hsplit.
  destruct (bool_decide (model_type (args t) ∈ ["bart"; "marian"]%string));
    [|destruct (bool_decide (model_type (args t) ∈ ["mbart"]%string))];
    cbn [orb].
  - split; [|split; reflexivity]. intros d. cbn [batch_key]. split.
    + intros [inp H].
      destruct (d !! "source_ids"%string) as [x1|] eqn:E1; [|discriminate].
      destruct (d !! "source_mask"%string) as [x2|] eqn:E2; [|discriminate].
      destruct (d !! "target_ids"%string) as [x3|] eqn:E3; [|discriminate].
      intros k Hk. apply elem_of_dom.
      rewrite !elem_of_union, !elem_of_singleton in Hk.
      destruct Hk as [[->| ->]| ->]; eauto.
    + intros Hsub.
      destruct (d !! "source_ids"%string) as [x1|] eqn:E1.
      2:{ apply not_elem_of_dom in E1. set_solver. }
      destruct (d !! "source_mask"%string) as [x2|] eqn:E2.
      2:{ apply not_elem_of_dom in E2. set_solver. }
      destruct (d !! "target_ids"%string) as [x3|] eqn:E3.
      2:{ apply not_elem_of_dom in E3. set_solver. }
      cbn [obind]. eauto.
  - split; [|split; reflexivity]. intros d. cbn [batch_key]. split.
    + intros [inp H].
      destruct (d !! "input_ids"%string) as [x1|] eqn:E1; [|discriminate].
      destruct (d !! "attention_mask"%string) as [x2|] eqn:E2; [|discriminate].
      destruct (d !! "decoder_input_ids"%string) as [x3|] eqn:E3; [|discriminate].
      destruct (d !! "labels"%string) as [x4|] eqn:E4; [|discriminate].
      intros k Hk. apply elem_of_dom.
      rewrite !elem_of_union, !elem_of_singleton in Hk.
      destruct Hk as [[[->| ->]| ->]| ->]; eauto.
    + intros Hsub.
      destruct (d !! "input_ids"%string) as [x1|] eqn:E1.
      2:{ apply not_elem_of_dom in E1. set_solver. }
      destruct (d !! "attention_mask"%string) as [x2|] eqn:E2.
      2:{ apply not_elem_of_dom in E2. set_solver. }
      destruct (d !! "decoder_input_ids"%string) as [x3|] eqn:E3.
      2:{ apply not_elem_of_dom in E3. set_solver. }
      destruct (d !! "labels"%string) as [x4|] eqn:E4.
      2:{ apply not_elem_of_dom in E4. set_solver. }
      cbn [obind]. eauto.
  - split; [|split].
    + intros ts. cbn [batch_index]. destruct ts as [|x0 [|x1 ts]]; cbn.
      * split; [intros [? [=]]|lia].
      * split; [intros [? [=]]|lia].
      * split; [lia|eauto].
    + intros d. reflexivity.
    + intros ks. cbn [batch_index]. destruct ks as [|k0 [|k1 ks]]; reflexivity.
Qed.
End Adapter.

(** ** More on eval_model *)

Section EvalMore.
Context `{RT : Runtime}.

(** After [tuple(t for t in batch)] no batch can be indexed by a key. *)
Lemma adapter_rejects_tuple (t : trainer) (b : batch) :
  model_type (args t) ∈ ["bart"; "marian"; "mbart"]%string ->
  self_get_inputs_dict t (as_tuple b) = Raise TypeError.
Proof.
  intros Hty. apply elem_of_seq2seq in Hty.
  unfold self_get_inputs_dict, get_inputs_dict.
  destruct (bool_decide (model_type (args t) ∈ ["bart"; "marian"]%string)) eqn:H1.
  - destruct b; reflexivity.
  - apply bool_decide_eq_false_1 in H1.
    rewrite bool_decide_eq_true_2 by tauto. destruct b; reflexivity.
Qed.

Lemma eval_pass_first_batch (device_arg : option string) (w : world)
    (b : batch) (bs : list batch) (e : exn) :
  let t := eval_trainer device_arg (self w) in
  dl_batches (test_dl (self w)) = b :: bs ->
  self_get_inputs_dict t (as_tuple b) = Raise e ->
  eval_pass device_arg w
  = (Raise e,
     {| self := t; fs := fs w;
        events := events w ++ [LogEvalLen (len (b :: bs)) (len (b :: bs))] |}).
Proof.
  intros t Hbs He. unfold eval_pass. run_monad. cbn [self fs events].
  change (set_model _ (self w)) with t.
  change (test_dl t) with (test_dl (self w)). rewrite Hbs.
  unfold enumerate. unfold len. cbn [length]. rewrite Nat2Z.inj_succ.
  rewrite seqZ_cons by lia. cbn [zip zip_with for_each].
  unfold bind at 1. unfold eval_batch at 1. run_monad. cbn [self fs events].
  rewrite He. reflexivity.
Qed.

(** X4. For the model types bart, marian and mbart no call of
    [eval_model] gets past its first batch: the loop turns every batch
    into a tuple before the adapter indexes it by key, so the call raises
    TypeError (ZeroDivisionError on a stream without batches), having
    logged the stream length only; it leaves the file system and
    [self.results] as they were. *)
Theorem eval_model_rejects_keyed_models (device_arg : option string) (w : world) :
  let n := len (dl_batches (test_dl (self w))) in
  model_type (args (self w)) ∈ ["bart"; "marian"; "mbart"]%string ->
  exists w',
    eval_model device_arg w
    = (Raise (if bool_decide (n = 0) then ZeroDivisionError else TypeError), w')
    /\ fs w' = fs w
    /\ results (self w') = results (self w)
    /\ events w' = events w ++ [LogEvalLen n n].
Proof.
  intros n Hty. subst n. rewrite eval_model_cases.
  destruct (dl_batches (test_dl (self w))) as [|b bs] eqn:Hbs.
  - pose proof (eval_pass_run device_arg w [] ) as Hpass. cbv zeta in Hpass.
    rewrite Hbs in Hpass. rewrite (Hpass (Forall2_nil_2 _ _ _)). clear Hpass.
    rewrite eval_report_run. cbn [fold_left len length].
    change (PyFloat.div_int PyFloat.zero (Z.of_nat 0)) with
      (@Raise pyfloat ZeroDivisionError).
    eexists. split; [reflexivity|]. cbn. repeat split.
  - rewrite (eval_pass_first_batch device_arg w b bs TypeError Hbs)
      by (apply adapter_rejects_tuple; exact Hty).
    rewrite bool_decide_eq_false_2 by (unfold len; cbn [length]; lia).
    eexists. split; [reflexivity|]. cbn. repeat split.
Qed.

(** X5. With generated-text evaluation on, in a subclass that supplies
    [predict] and [compute_metrics], a call whose loss pass and file
    operations succeed returns the metrics of the predictions on the
    examples' input texts against their output texts, together with the
    predictions; these metrics are merged into [self.results] over the
    mean loss, but the results file holds the loss line only. *)
Theorem eval_model_generated_text (device_arg : option string) (w : world)
    (f : Model -> list string -> list string)
    (g : list string -> list string -> pydict)
    (exs : list example) (losses : list pyfloat) (v : pyfloat) :
  let t := eval_trainer device_arg (self w) in
  let n := len (dl_batches (test_dl (self w))) in
  let d := output_dir (args (self w)) in
  let path := path_join d "eval_results.txt" in
  let preds := f (model t) (map input_text exs) in
  let metrics := g (map output_text exs) preds in
  predict = Some f ->
  compute_metrics = Some g ->
  evaluate_generated_text (args (self w)) = true ->
  dl_examples (test_dl (self w)) = Some exs ->
  Forall2 (fun b x => eval_batch_loss t b = Ret x) (dl_batches (test_dl (self w))) losses ->
  PyFloat.div_int (fold_left PyFloat.add losses PyFloat.zero) n = Ret v ->
  d <> EmptyString ->
  d ∉ dom (fs_files (fs w)) ->
  path ∉ fs_dirs (fs w) ->
  exists w',
    eval_model device_arg w = (Ret (metrics, preds, tt), w')
    /\ results (self w') = metrics ∪ ({[ "eval_loss" := VFloat v ]} ∪ results (self w))
    /\ fs_files (fs w') !! path
       = Some ("eval_loss = " +:+ py_str (VFloat v) +:+ newline)%string
    /\ last (events w') = Some (LogResults (results (self w'))).
Proof.
  intros t n d path preds metrics Hf Hg Hflag Hexs Hall Hv Hd Hfile Hdir.
  rewrite eval_model_cases, (eval_pass_run device_arg w losses Hall).
  rewrite eval_report_run. cbn [self args fs events]. fold n. rewrite Hv. cbn zeta.
  change (output_dir (args (eval_trainer device_arg (self w)))) with d. fold path.
  unfold makedirs. rewrite bool_decide_eq_false_2 by exact Hd.
  rewrite bool_decide_eq_false_2 by exact Hfile.
  unfold write_file. cbn [fs_dirs fs_files].
  rewrite bool_decide_eq_false_2.
  2:{ rewrite elem_of_union, elem_of_singleton. intros [H|H]; [exact (Hdir H)|].
      exact (path_join_results_ne d H). }
  unfold generated_text. run_monad.
  cbn [self args fs events results set_results test_dl set_model eval_trainer model].
  change (evaluate_generated_text (args (eval_trainer device_arg (self w))))
    with (evaluate_generated_text (args (self w))).
  rewrite Hflag.
  change (test_dl (eval_trainer device_arg (self w))) with (test_dl (self w)).
  rewrite Hexs, Hf, Hg.
  eexists. split; [reflexivity|]. cbn [self fs events results set_results fs_files].
  split; [reflexivity|]. split; [apply lookup_insert_eq|].
  apply last_snoc.
Qed.

(** X6. In the class as it is written, which defines neither [predict]
    nor [compute_metrics], no call of [eval_model] returns: whatever the
    configuration and the data, the call ends in an exception. *)
Theorem eval_model_never_returns (device_arg : option string) (w : world) :
  predict = None ->
  exists e w', eval_model device_arg w = (Raise e, w').
Proof.
  intros Hpredict.
  destruct (evaluate_generated_text (args (self w))) eqn:Hflag;
    [|exact (eval_model_raises device_arg w Hflag)].
  rewrite eval_model_cases.
  destruct (eval_pass device_arg w) as [[acc|e] w1] eqn:Hpass; [|eauto].
  destruct acc as [l n]. rewrite eval_report_run.
  destruct (PyFloat.div_int l n) as [v|e]; [|eauto]. cbn zeta.
  destruct (makedirs _ (fs w1)) as [f1|e]; [|eauto].
  destruct (write_file _ _ f1) as [f2|e]; [|eauto].
  unfold generated_text. run_monad. cbn [self args set_results].
  destruct (evaluate_generated_text (args (self w1))).
  - destruct (dl_examples _); [|eauto]. rewrite Hpredict. eauto.
  - eauto.
Qed.

(** What a batch of the evaluation loop leaves alone, whether it returns
    or raises. *)
Lemma eval_batch_any (n test_len : Z) (s : pyfloat * Z) (ib : Z * batch)
    (w : world) (o : outcome (pyfloat * Z)) (w' : world) :
  eval_batch n test_len s ib w = (o, w') ->
  self w' = self w /\ fs w' = fs w /\ exists later, events w' = events w ++ later.
Proof.
  destruct ib as [i b], s as [l nb]. unfold eval_batch. run_monad. cbn.
  destruct (self_get_inputs_dict (self w) (as_tuple b)) as [inp|e]; cbn.
  2:{ intros [= _ <-]. repeat split. exists []. symmetry. apply app_nil_r. }
  destruct (t_item _) as [x|e]; cbn.
  2:{ intros [= _ <-]. repeat split. exists []. symmetry. apply app_nil_r. }
  intros [= _ <-]. repeat split. eexists. reflexivity.
Qed.

Lemma eval_pass_any (device_arg : option string) (w : world)
    (o : outcome (pyfloat * Z)) (w1 : world) :
  eval_pass device_arg w = (o, w1) ->
  self w1 = eval_trainer device_arg (self w) /\ fs w1 = fs w
  /\ exists later, events w1 = events w ++ later.
Proof.
  unfold eval_pass. run_monad. cbn. intros Hrun.
  eapply (for_each_world_invariant
            (fun w0 => self w0 = eval_trainer device_arg (self w) /\ fs w0 = fs w
                       /\ exists later, events w0 = events w ++ later))
    in Hrun; [exact Hrun| |].
  - intros s x w0 o0 w0' (Hs & Hf & later & Hev) Hb.
    apply eval_batch_any in Hb as (-> & -> & later' & ->).
    split; [exact Hs|]. split; [exact Hf|].
    exists (later ++ later'). rewrite Hev. symmetry. apply app_assoc.
  - cbn. repeat split. eexists. reflexivity.
Qed.

(** X7. Whatever a call of [eval_model] does, and whether it returns or
    raises, it leaves the configuration, the device, both data loaders
    and both tokenizers alone; the model ends up in evaluation mode on the
    device of the call; no key leaves [self.results]; no directory is
    removed; among the files, taken by their paths as written, only
    eval_results.txt in the output directory can be written; the log is
    only extended. Which directories the call adds is not stated:
    [os.makedirs] creates the missing parents of the output directory
    too. *)
Theorem eval_model_frame (device_arg : option string) (w : world) :
  let w' := snd (eval_model device_arg w) in
  let d := output_dir (args (self w)) in
  args (self w') = args (self w)
  /\ device (self w') = device (self w)
  /\ train_dl (self w') = train_dl (self w)
  /\ test_dl (self w') = test_dl (self w)
  /\ encoder_tokenizer (self w') = encoder_tokenizer (self w)
  /\ decoder_tokenizer (self w') = decoder_tokenizer (self w)
  /\ model (self w')
     = model_eval (model_to (call_device device_arg (self w)) (model (self w)))
  /\ dom (results (self w)) ⊆ dom (results (self w'))
  /\ fs_dirs (fs w) ⊆ fs_dirs (fs w')
  /\ (forall p, p <> path_join d "eval_results.txt" ->
        fs_files (fs w') !! p = fs_files (fs w) !! p)
  /\ exists later, events w' = events w ++ later.
Proof.
  intros w' d. subst w'. rewrite eval_model_cases.
  destruct (eval_pass device_arg w) as [[acc|e] w1] eqn:Hpass;
    apply eval_pass_any in Hpass as (Hself & Hfs & later1 & Hev);
    destruct w1 as [t1 f1 ev1]; cbn [self fs events] in Hself, Hfs, Hev;
    subst t1 f1 ev1.
  2:{ cbn. repeat split; first [reflexivity|apply union_subseteq_l|eexists; reflexivity]. }
  destruct acc as [l n]. rewrite eval_report_run. cbn [self fs events].
  change (output_dir (args (eval_trainer device_arg (self w)))) with d.
  destruct (PyFloat.div_int l n) as [v|e]; cbn zeta.
  2:{ cbn. repeat split; first [reflexivity|apply union_subseteq_l|eexists; reflexivity]. }
  unfold makedirs. destruct (bool_decide (d = EmptyString)).
  { cbn. repeat split; first [reflexivity|apply union_subseteq_l|idtac].
    eexists. rewrite <- app_assoc. reflexivity. }
  destruct (bool_decide (d ∈ dom (fs_files (fs w)))).
  { cbn. repeat split; first [reflexivity|apply union_subseteq_l|idtac].
    eexists. rewrite <- app_assoc. reflexivity. }
  unfold write_file. cbn [fs_dirs fs_files].
  destruct (bool_decide (path_join d "eval_results.txt" ∈ fs_dirs (fs w) ∪ {[d]})).
  { cbn. repeat split; first [reflexivity|apply union_subseteq_l|idtac].
    eexists. rewrite <- app_assoc. reflexivity. }
  match goal with
  | |- context [generated_text ?r ?w2] =>
      destruct (generated_text_run r w2) as (o & extra & -> & _)
  end.
  cbn [snd self args fs events results set_results eval_trainer set_model].
  assert (Hres : dom (results (self w))
                 ⊆ dom (extra ∪ ({[ "eval_loss"%string := VFloat v ]} ∪ results (self w)))).
  { rewrite !dom_union. etrans; [|apply union_subseteq_r]. apply union_subseteq_r. }
  assert (Hfiles : forall p, p <> path_join d "eval_results.txt" ->
            <[ path_join d "eval_results.txt"
               := ("eval_loss = " +:+ py_str (VFloat v) +:+ newline)%string ]>
              (fs_files (fs w)) !! p = fs_files (fs w) !! p).
  { intros p Hp. apply lookup_insert_ne. congruence. }
  destruct o as [[r p]|e]; cbn;
    (split; [reflexivity|]); (split; [reflexivity|]); (split; [reflexivity|]);
    (split; [reflexivity|]); (split; [reflexivity|]); (split; [reflexivity|]);
    (split; [reflexivity|]); (split; [exact Hres|]);
    (split; [apply union_subseteq_l|]);
    (split; [exact Hfiles|]); eexists; rewrite <- !app_assoc; reflexivity.
Qed.

(** X8. The metrics go to wandb before the output directory is made: when
    the loss pass succeeds but the configured output directory is the
    empty path or names an existing file, [eval_model] raises
    FileNotFoundError or FileExistsError after the wandb record, with
    nothing written and nothing merged into [self.results]. *)
Theorem eval_model_bad_output_dir (device_arg : option string) (w : world)
    (losses : list pyfloat) (v : pyfloat) :
  let t := eval_trainer device_arg (self w) in
  let n := len (dl_batches (test_dl (self w))) in
  let d := output_dir (args (self w)) in
  Forall2 (fun b x => eval_batch_loss t b = Ret x) (dl_batches (test_dl (self w))) losses ->
  PyFloat.div_int (fold_left PyFloat.add losses PyFloat.zero) n = Ret v ->
  d = EmptyString \/ d ∈ dom (fs_files (fs w)) ->
  exists w',
    eval_model device_arg w
    = (Raise (if bool_decide (d = EmptyString) then FileNotFoundError
              else FileExistsError d), w')
    /\ fs w' = fs w
    /\ results (self w') = results (self w)
    /\ events w'
       = events w ++ LogEvalLen n n :: map (range_event t) (seqZ 0 n)
         ++ [WandbLog {[ "eval_loss"%string := VFloat v ]}].
Proof.
  intros t n d Hall Hv Hbad.
  rewrite eval_model_cases, (eval_pass_run device_arg w losses Hall).
  rewrite eval_report_run. cbn [self args fs events]. fold n. rewrite Hv. cbn zeta.
  change (output_dir (args (eval_trainer device_arg (self w)))) with d.
  unfold makedirs. destruct (bool_decide (d = EmptyString)) eqn:Hempty.
  - eexists. split; [reflexivity|]. cbn. repeat split.
    rewrite <- app_assoc. reflexivity.
  - apply bool_decide_eq_false_1 in Hempty. destruct Hbad as [Hbad|Hbad]; [tauto|].
    rewrite bool_decide_eq_true_2 by exact Hbad.
    eexists. split; [reflexivity|]. cbn. repeat split.
    rewrite <- app_assoc. reflexivity.
Qed.
End EvalMore.

(** ** More on train_model *)

Section TrainMore.
Context `{RT : Runtime}.

(** The configuration after the two loops over the custom entries. *)
Lemma build_param_groups_flags {P : Type} (repr : pyval -> string)
    (named : list (string * P)) (a : config) :
  let a1 := snd (build_param_groups repr named a) in
  evaluate_during_training a1 = evaluate_during_training a
  /\ gradient_accumulation_steps a1 = gradient_accumulation_steps a
  /\ epochs a1 = epochs a
  /\ warmup_steps a1 = warmup_steps a
  /\ (forall n, compute_warmup_steps a1 n = compute_warmup_steps a n).
Proof.
  intros a1. subst a1.
  destruct (build_param_groups_frame repr named a) as (cpg & clp & ->).
  repeat split.
Qed.

(** What [train_setup] leaves alone, whether it returns or raises. *)
Lemma train_setup_any (device_arg : option string) (w : world)
    (o : outcome train_locals) (w0 : world) :
  train_setup device_arg w = (o, w0) ->
  (exists a m, self w0 = set_model m (set_args a (self w)))
  /\ fs w0 = fs w
  /\ exists later,
       events w0 = events w ++ LogTrainDevice (call_device device_arg (self w)) :: later
       /\ forall ep i n l, LogTrainBatch ep i n l ∉ later.
Proof.
  rewrite train_setup_cases.
  assert (Hnil : forall ep i n l, LogTrainBatch ep i n l ∉ @nil event)
    by (intros; apply not_elem_of_nil).
  assert (Hone : forall ws ep i n l, LogTrainBatch ep i n l ∉ [LogWarmupSteps ws]).
  { intros ws ep i n l H. apply list_elem_of_singleton in H. discriminate H. }
  destruct (fst _) as [groups|e].
  2:{ intros [= _ <-]. cbn. split; [eauto|]. split; [reflexivity|]. eauto. }
  destruct (py_floordiv _ _) as [per_epoch|e].
  2:{ intros [= _ <-]. cbn. split; [eauto|]. split; [reflexivity|]. eauto. }
  cbv zeta. destruct (compute_warmup_steps _ _) as [ws|e].
  2:{ intros [= _ <-]. cbn. split; [eauto|]. split; [reflexivity|]. eauto. }
  destruct (evaluate_during_training _); intros [= _ <-]; cbn;
    (split; [eexists _, _; reflexivity|]); (split; [reflexivity|]);
    exists [LogWarmupSteps ws]; rewrite <- app_assoc; split; [reflexivity|apply Hone
                                                             |reflexivity|apply Hone].
Qed.

(** X9. With [evaluate_during_training] set no call of [train_model]
    returns and no batch is trained: the method
    [_create_training_progress_scores] it calls does not exist. When the
    custom entries are well formed and the step counts can be computed,
    the exception is that AttributeError, raised after the custom entries
    were consumed and the warmup steps stored. *)
Theorem train_model_evaluate_during_training (device_arg : option string) (w : world) :
  let a := args (self w) in
  evaluate_during_training a = true ->
  exists e w' later,
    train_model device_arg w = (Raise e, w')
    /\ events w' = events w ++ LogTrainDevice (call_device device_arg (self w)) :: later
    /\ (forall ep i n l, LogTrainBatch ep i n l ∉ later)
    /\ (well_formed_groups a ->
        gradient_accumulation_steps a <> 0 ->
        forall ws,
          compute_warmup_steps a
            (len (dl_batches (train_dl (self w))) / gradient_accumulation_steps a
             * epochs a) = Ret ws ->
          e = AttributeError "_create_training_progress_scores"
          /\ later = [LogWarmupSteps ws]
          /\ args (self w') = set_warmup_steps ws (consumed a)).
Proof.
  intros a Hflag. unfold train_model. unfold bind at 1.
  destruct (train_setup device_arg w) as [[s0|e] w0] eqn:Hsetup.
  { exfalso. rewrite train_setup_cases in Hsetup.
    destruct (fst _); [|discriminate]. destruct (py_floordiv _ _); [|discriminate].
    cbv zeta in Hsetup. destruct (compute_warmup_steps _ _); [|discriminate].
    change (evaluate_during_training (set_warmup_steps ?ws ?a1))
      with (evaluate_during_training a1) in Hsetup.
    rewrite (proj1 (build_param_groups_flags _ _ _)) in Hsetup.
    fold a in Hsetup. rewrite Hflag in Hsetup. discriminate. }
  destruct (train_setup_any _ _ _ _ Hsetup) as (_ & _ & later & Hev & Hno).
  exists e, w0, later. split; [reflexivity|]. split; [exact Hev|]. split; [exact Hno|].
  intros Hwf Hacc ws Hws. rewrite train_setup_cases in Hsetup.
  destruct (build_param_groups_returns py_str
              (named_parameters (model_to (call_device device_arg (self w))
                                          (model (self w))))
              (args (self w)) Hwf) as [groups Hgroups].
  rewrite Hgroups in Hsetup.
  cbn [fst snd gradient_accumulation_steps set_custom_layer_parameters
       set_custom_parameter_groups epochs] in Hsetup.
  unfold py_floordiv in Hsetup. fold a in Hsetup.
  rewrite (proj2 (Z.eqb_neq _ 0) Hacc) in Hsetup. cbv zeta in Hsetup.
  match type of Hsetup with
  | context [compute_warmup_steps ?a1 ?n] =>
      change (compute_warmup_steps a1 n) with (compute_warmup_steps a n) in Hsetup
  end.
  rewrite Hws in Hsetup.
  cbn [evaluate_during_training set_warmup_steps set_custom_layer_parameters
       set_custom_parameter_groups] in Hsetup.
  rewrite Hflag in Hsetup. injection Hsetup as <- <-.
  split; [reflexivity|]. cbn [events] in Hev. rewrite <- app_assoc in Hev.
  apply app_inv_head in Hev. injection Hev as <-. split; reflexivity.
Qed.

(** X10. With [gradient_accumulation_steps] zero, [train_model] raises
    ZeroDivisionError when it computes the total number of iterations:
    by then the model is on the device of the call and the custom entries
    have lost their keys, while no optimizer was built, no warmup steps
    stored and no batch read. *)
Theorem train_model_zero_accumulation (device_arg : option string) (w : world) :
  let a := args (self w) in
  let dev := call_device device_arg (self w) in
  gradient_accumulation_steps a = 0 ->
  well_formed_groups a ->
  exists w',
    train_model device_arg w = (Raise ZeroDivisionError, w')
    /\ events w' = events w ++ [LogTrainDevice dev]
    /\ model (self w') = model_to dev (model (self w))
    /\ args (self w') = consumed a.
Proof.
  intros a dev Hacc Hwf. unfold train_model. unfold bind at 1.
  rewrite train_setup_cases.
  destruct (build_param_groups_returns py_str
              (named_parameters (model_to (call_device device_arg (self w))
                                          (model (self w))))
              (args (self w)) Hwf) as [groups ->].
  cbn [fst snd gradient_accumulation_steps set_custom_layer_parameters
       set_custom_parameter_groups epochs].
  unfold py_floordiv. fold a. rewrite Hacc. cbn [Z.eqb].
  eexists. split; [reflexivity|]. cbn. repeat split.
Qed.

(** *** The training log *)

Lemma train_batches_events (epoch : Z) (bs : list batch) :
  forall (k : Z) (s : train_locals) (w : world) (s' : train_locals) (w' : world),
    for_each (train_batch epoch) (zip (seqZ k (len bs)) bs) s w = (Ret s', w') ->
    exists later,
      events w' = events w ++ later
      /\ map train_batch_key later
         = map (fun i => Some (epoch, i, len (dl_batches (train_dl (self w)))))
               (seqZ k (len bs)).
Proof.
  induction bs as [|b bs IH]; intros k s w s' w' Hrun.
  - cbn in Hrun. injection Hrun as <- <-. exists []. split; [|reflexivity].
    symmetry. apply app_nil_r.
  - unfold len in *. cbn [length] in Hrun |- *. rewrite Nat2Z.inj_succ in Hrun |- *.
    rewrite seqZ_cons in Hrun |- * by lia. rewrite Z.pred_succ in Hrun |- *.
    cbn [zip zip_with for_each] in Hrun. unfold bind in Hrun.
    destruct (train_batch epoch s (k, b) w) as [[s1|e] w1] eqn:Hb; [|discriminate].
    pose proof (train_batch_frame _ _ _ _ _ _ Hb) as Hframe.
    destruct (model_changed_args _ _ Hframe) as (_ & Hdl & _).
    apply train_batch_inv in Hb as (inp & x & _ & _ & _ & _ & _ & Hev).
    apply IH in Hrun as (later & Hev' & Hkeys). rewrite Hdl in Hkeys.
    eexists (_ :: later). split.
    + rewrite Hev', Hev, <- app_assoc. reflexivity.
    + cbn [map train_batch_key]. rewrite Hkeys. reflexivity.
Qed.

Lemma train_epoch_events (s : train_locals) (epoch : Z) (w : world)
    (s' : train_locals) (w' : world) :
  let n := len (dl_batches (train_dl (self w))) in
  train_epoch s epoch w = (Ret s', w') ->
  exists later,
    events w' = events w ++ later
    /\ map train_batch_key later = map (fun i => Some (epoch, i, n)) (seqZ 0 n).
Proof.
  intros n. unfold train_epoch. run_monad. cbn. unfold enumerate. intros Hrun.
  apply train_batches_events in Hrun as (later & Hev & Hkeys).
  exists later. split; [exact Hev|exact Hkeys].
Qed.

Lemma train_epochs_list_events (es : list Z) :
  forall (s : train_locals) (w : world) (s' : train_locals) (w' : world),
    let n := len (dl_batches (train_dl (self w))) in
    for_each train_epoch es s w = (Ret s', w') ->
    exists later,
      events w' = events w ++ later
      /\ map train_batch_key later
         = map Some (flat_map (fun e => map (fun i => (e, i, n)) (seqZ 0 n)) es).
Proof.
  induction es as [|e es IH]; intros s w s' w' n Hrun.
  - cbn in Hrun. injection Hrun as <- <-. exists []. split; [|reflexivity].
    symmetry. apply app_nil_r.
  - cbn [for_each] in Hrun. unfold bind in Hrun.
    destruct (train_epoch s e w) as [[s1|ex] w1] eqn:He; [|discriminate].
    pose proof (train_epoch_frame _ _ _ _ _ He) as Hframe.
    destruct (model_changed_args _ _ Hframe) as (_ & Hdl & _).
    apply train_epoch_events in He as (later1 & Hev1 & Hkeys1).
    apply IH in Hrun as (later2 & Hev2 & Hkeys2). rewrite Hdl in Hkeys2.
    exists (later1 ++ later2). split.
    + rewrite Hev2, Hev1, <- app_assoc. reflexivity.
    + cbn [flat_map]. rewrite !map_app, Hkeys1, Hkeys2. fold n.
      rewrite map_map. reflexivity.
Qed.

Lemma train_epochs_events (s : train_locals) (w : world)
    (s' : train_locals) (w' : world) :
  train_epochs s w = (Ret s', w') ->
  exists later,
    events w' = events w ++ later
    /\ map train_batch_key later
       = map Some (batch_keys (epochs (args (self w)))
                              (len (dl_batches (train_dl (self w))))).
Proof.
  unfold train_epochs. run_monad. cbn. intros Hrun.
  exact (train_epochs_list_events _ _ _ _ _ Hrun).
Qed.

(** A trainer that is ready for the loops gets through them. *)
Lemma train_loops_return (device_arg : option string) (w : world) :
  let a := args (self w) in
  loops_ready (self w) ->
  exists ws s0 s1 w1 later,
    train_setup device_arg w
    = (Ret s0,
       {| self := set_model (setup_model device_arg (self w)
                                         (set_warmup_steps ws (consumed a)))
                            (set_args (set_warmup_steps ws (consumed a)) (self w));
          fs := fs w;
          events := (events w ++ [LogTrainDevice (call_device device_arg (self w))])
                    ++ [LogWarmupSteps ws] |})
    /\ compute_warmup_steps a
         (len (dl_batches (train_dl (self w))) / gradient_accumulation_steps a
          * epochs a) = Ret ws
    /\ train_epochs s0
         {| self := set_model (setup_model device_arg (self w)
                                           (set_warmup_steps ws (consumed a)))
                              (set_args (set_warmup_steps ws (consumed a)) (self w));
            fs := fs w;
            events := (events w ++ [LogTrainDevice (call_device device_arg (self w))])
                      ++ [LogWarmupSteps ws] |}
       = (Ret s1, w1)
    /\ tl_global_step s1
       = Z.max 0 (epochs a)
         * (len (dl_batches (train_dl (self w))) / Z.abs (gradient_accumulation_steps a))
    /\ args (self w1) = set_warmup_steps ws (consumed a)
    /\ events w1
       = events w ++ LogTrainDevice (call_device device_arg (self w))
         :: LogWarmupSteps ws :: later
    /\ map train_batch_key later
       = map Some (batch_keys (epochs a) (len (dl_batches (train_dl (self w))))).
Proof.
  intros a (Hwf & Hacc & Heval & [ws Hws] & Hadapt & Hscalar). subst a.
  set (a := args (self w)) in *.
  assert (Hsetup : train_setup device_arg w
    = (Ret {| tl_optimizer :=
                fst (get_linear_schedule_with_warmup
                       (select_optimizer (set_warmup_steps ws (consumed a))
                          (model_to (call_device device_arg (self w)) (model (self w))))
                       ws (len (dl_batches (train_dl (self w)))
                           / gradient_accumulation_steps a * epochs a));
              tl_scheduler :=
                snd (get_linear_schedule_with_warmup
                       (select_optimizer (set_warmup_steps ws (consumed a))
                          (model_to (call_device device_arg (self w)) (model (self w))))
                       ws (len (dl_batches (train_dl (self w)))
                           / gradient_accumulation_steps a * epochs a));
              tl_scaler := if fp16 a then Some grad_scaler else None;
              tl_global_model :=
                if bool_decide (fl_algorithm a = "FedProx"%string)
                then Some (deepcopy (setup_model device_arg (self w)
                                       (set_warmup_steps ws (consumed a))))
                else None;
              tl_global_step := 0;
              tl_tr_loss := PyFloat.zero |},
       {| self := set_model (setup_model device_arg (self w)
                                         (set_warmup_steps ws (consumed a)))
                            (set_args (set_warmup_steps ws (consumed a)) (self w));
          fs := fs w;
          events := (events w ++ [LogTrainDevice (call_device device_arg (self w))])
                    ++ [LogWarmupSteps ws] |})).
  { rewrite train_setup_cases.
    destruct (build_param_groups_returns py_str
                (named_parameters (model_to (call_device device_arg (self w))
                                            (model (self w))))
                (args (self w)) Hwf) as [groups ->].
    cbn [fst snd gradient_accumulation_steps set_custom_layer_parameters
         set_custom_parameter_groups epochs].
    unfold py_floordiv. fold a. rewrite (proj2 (Z.eqb_neq _ 0) Hacc). cbv zeta.
    match goal with
    | |- context [compute_warmup_steps ?a1 ?n] =>
        change (compute_warmup_steps a1 n) with (compute_warmup_steps a n)
    end.
    rewrite Hws.
    cbn [evaluate_during_training set_warmup_steps set_custom_layer_parameters
         set_custom_parameter_groups].
    fold a. rewrite Heval. reflexivity. }
  match type of Hsetup with _ = (Ret ?s, ?w0') => set (s0 := s) in *; set (w0 := w0') in * end.
  destruct (train_epochs_list_returns (seqZ 0 (epochs (args (self w0)))) s0 w0)
    as (s1 & w1 & Hloop); [exact Hadapt|exact Hscalar|exact Hacc|].
  assert (Hepochs : train_epochs s0 w0 = (Ret s1, w1)).
  { unfold train_epochs. run_monad. exact Hloop. }
  pose proof (train_epochs_inv _ _ _ _ Hepochs) as [Hsteps _].
  pose proof (train_epochs_frame _ _ _ _ Hepochs) as Hframe.
  destruct (model_changed_args _ _ Hframe) as (Hargs & _).
  destruct (train_epochs_events _ _ _ _ Hepochs) as (later & Hev & Hkeys).
  exists ws, s0, s1, w1, later.
  split; [exact Hsetup|]. split; [exact Hws|]. split; [exact Hepochs|].
  split; [exact Hsteps|]. split; [exact Hargs|].
  split; [|exact Hkeys].
  rewrite Hev. subst w0. cbn [events]. rewrite <- !app_assoc. reflexivity.
Qed.

(** X11. A run that completes no optimizer step - no epoch, or fewer
    batches per epoch than accumulation steps - still trains on every
    batch and then fails at the return statement: [tr_loss / global_step]
    raises ZeroDivisionError. *)
Theorem train_model_without_steps (device_arg : option string) (w : world) :
  let a := args (self w) in
  let n := len (dl_batches (train_dl (self w))) in
  loops_ready (self w) ->
  epochs a <= 0 \/ n < Z.abs (gradient_accumulation_steps a) ->
  exists w' ws later,
    train_model device_arg w = (Raise ZeroDivisionError, w')
    /\ args (self w') = set_warmup_steps ws (consumed a)
    /\ events w'
       = events w ++ LogTrainDevice (call_device device_arg (self w))
         :: LogWarmupSteps ws :: later
    /\ map train_batch_key later = map Some (batch_keys (epochs a) n).
Proof.
  intros a n Hready Hnone.
  destruct (train_loops_return device_arg w Hready)
    as (ws & s0 & s1 & w1 & later & Hsetup & _ & Hloop & Hsteps & Hargs & Hev & Hkeys).
  assert (Hzero : tl_global_step s1 = 0).
  { rewrite Hsteps. fold a n. destruct Hnone as [He|Hn].
    - rewrite Z.max_l by lia. reflexivity.
    - rewrite Z.div_small; [lia|]. unfold n, len in *. lia. }
  exists w1, ws, later. unfold train_model. unfold bind at 1. rewrite Hsetup.
  unfold bind at 1. rewrite Hloop. run_monad. rewrite Hzero.
  change (PyFloat.div_int (tl_tr_loss s1) 0) with (@Raise pyfloat ZeroDivisionError).
  split; [reflexivity|]. split; [exact Hargs|]. split; [exact Hev|exact Hkeys].
Qed.

(** X12. A returning run of [train_model] logs the device, then the
    warmup steps, then one line per batch: every batch index of every
    epoch once, epoch by epoch and in batch order, each line with the
    number of batches of the loader. *)
Theorem train_model_log_order (device_arg : option string) (w : world)
    (r : Z * pyfloat) (w' : world) :
  let a := args (self w) in
  train_model device_arg w = (Ret r, w') ->
  exists ws later,
    events w'
    = events w ++ LogTrainDevice (call_device device_arg (self w))
      :: LogWarmupSteps ws :: later
    /\ map train_batch_key later
       = map Some (batch_keys (epochs a) (len (dl_batches (train_dl (self w))))).
Proof.
  intros a. unfold train_model. unfold bind at 1.
  destruct (train_setup device_arg w) as [[s0|e] w0] eqn:Hsetup; [|discriminate].
  unfold bind at 1.
  destruct (train_epochs s0 w0) as [[s1|e] w1] eqn:Hloop; [|discriminate].
  run_monad. destruct (PyFloat.div_int _ _); [|discriminate]. intros [= _ <-].
  destruct (train_epochs_events _ _ _ _ Hloop) as (later & Hev & Hkeys).
  rewrite train_setup_cases in Hsetup.
  pose proof (build_param_groups_flags py_str
                (named_parameters (model_to (call_device device_arg (self w))
                                            (model (self w))))
                (args (self w))) as (_ & _ & Hepochs & _).
  cbv zeta in Hepochs.
  destruct (fst _) as [groups|e]; [|discriminate].
  destruct (py_floordiv _ _) as [per_epoch|e]; [|discriminate].
  cbv zeta in Hsetup. destruct (compute_warmup_steps _ _) as [ws|e]; [|discriminate].
  destruct (evaluate_during_training _); [discriminate|].
  injection Hsetup as _ <-. cbn [self args train_dl events set_model set_args] in *.
  change (epochs (set_warmup_steps ws ?a1)) with (epochs a1) in Hkeys.
  rewrite Hepochs in Hkeys.
  exists ws, later. split; [|exact Hkeys].
  rewrite Hev, <- !app_assoc. reflexivity.
Qed.

(** What a training batch does to the log, whether it returns or raises. *)
Lemma train_batch_log_any (epoch : Z) (s : train_locals) (ib : Z * batch)
    (w : world) (o : outcome train_locals) (w' : world) :
  train_batch epoch s ib w = (o, w') -> exists later, events w' = events w ++ later.
Proof.
  assert (Hnil : forall evs : list event, exists later, evs = evs ++ later)
    by (intros evs; exists []; symmetry; apply app_nil_r).
  destruct ib as [i b]. unfold train_batch. run_monad. cbn.
  destruct (self_get_inputs_dict (self w) b) as [inp|e]; cbn.
  2:{ intros [= _ <-]. apply Hnil. }
  destruct (t_item (batch_loss _ _ _ _)) as [x|e]; cbn.
  2:{ intros [= _ <-]. apply Hnil. }
  destruct (t_item (scaled_loss _ _ _ _)) as [y|e]; cbn.
  2:{ intros [= _ <-]. apply Hnil. }
  destruct (py_mod _ _) as [r|e]; cbn.
  2:{ intros [= _ <-]. eexists. reflexivity. }
  destruct (r =? 0).
  - destruct (optimizer_update _ _ _) as [s1 m1]. cbn.
    intros [= _ <-]. eexists. reflexivity.
  - intros [= _ <-]. eexists. reflexivity.
Qed.

Lemma train_epochs_log_any (s : train_locals) (w : world)
    (o : outcome train_locals) (w' : world) :
  train_epochs s w = (o, w') -> exists later, events w' = events w ++ later.
Proof.
  unfold train_epochs. run_monad. cbn. intros Hrun.
  eapply (for_each_world_invariant (fun w0 => exists later, events w0 = events w ++ later));
    [| |exact Hrun].
  - intros s0 ep w0 o0 w0' [later Hev]. unfold train_epoch. run_monad. cbn.
    intros Hep.
    eapply (for_each_world_invariant
              (fun w1 => exists later, events w1 = events w ++ later)); [| |exact Hep].
    + intros s1 x w1 o1 w1' [later1 Hev1] Hb.
      apply train_batch_log_any in Hb as [later2 ->].
      exists (later1 ++ later2). rewrite Hev1, <- app_assoc. reflexivity.
    + cbn. exists later. exact Hev.
  - exists []. symmetry. apply app_nil_r.
Qed.

(** X13. Whatever a call of [train_model] does, and whether it returns
    or raises, it leaves the file system, [self.results], the device,
    both data loaders and both tokenizers alone, and of the configuration
    everything but the two custom lists and the warmup steps; its first
    log line names the device of the call. *)
Theorem train_model_keeps_surroundings (device_arg : option string) (w : world) :
  let w' := snd (train_model device_arg w) in
  fs w' = fs w
  /\ results (self w') = results (self w)
  /\ device (self w') = device (self w)
  /\ train_dl (self w') = train_dl (self w)
  /\ test_dl (self w') = test_dl (self w)
  /\ encoder_tokenizer (self w') = encoder_tokenizer (self w)
  /\ decoder_tokenizer (self w') = decoder_tokenizer (self w)
  /\ other_fields (args (self w')) = other_fields (args (self w))
  /\ exists later,
       events w' = events w ++ LogTrainDevice (call_device device_arg (self w)) :: later.
Proof.
  intros w'. subst w'.
  destruct (train_model device_arg w) as [o w'] eqn:Hrun. cbn [snd].
  pose proof (train_model_frame _ _ _ _ Hrun) as Hother.
  unfold train_model in Hrun. unfold bind at 1 in Hrun.
  destruct (train_setup device_arg w) as [[s0|e] w0] eqn:Hsetup.
  2:{ injection Hrun as _ <-.
      apply train_setup_any in Hsetup as ((a1 & m1 & Hself) & Hfs & later & Hev & _).
      rewrite Hself. cbn. repeat split; first [assumption|idtac].
      - rewrite <- Hother, Hself. reflexivity.
      - eauto. }
  apply train_setup_any in Hsetup as ((a1 & m1 & Hself) & Hfs & later & Hev & _).
  unfold bind at 1 in Hrun.
  destruct (train_epochs s0 w0) as [[s1|e] w1] eqn:Hloop.
  - pose proof (train_epochs_frame _ _ _ _ Hloop) as [[m2 Hself2] Hfs2].
    apply train_epochs_log_any in Hloop as [later2 Hev2].
    assert (w' = w1) as ->.
    { revert Hrun. run_monad. destruct (PyFloat.div_int _ _); intros [= _ <-]; reflexivity. }
    rewrite Hself2, Hself, Hfs2, Hfs. cbn. repeat split.
    + rewrite <- Hother, Hself2, Hself. reflexivity.
    + exists (later ++ later2). rewrite Hev2, Hev, <- app_assoc. reflexivity.
  - injection Hrun as _ <-.
    pose proof (train_epochs_frame _ _ _ _ Hloop) as [[m2 Hself2] Hfs2].
    apply train_epochs_log_any in Hloop as [later2 Hev2].
    rewrite Hself2, Hself, Hfs2, Hfs. cbn. repeat split.
    + rewrite <- Hother, Hself2, Hself. reflexivity.
    + exists (later ++ later2). rewrite Hev2, Hev, <- app_assoc. reflexivity.
Qed.
End TrainMore.

(** ** More on the parameter groups *)

(** *** Substring tests *)

Lemma append_cons (c : ascii) (s t : string) :
  (String c s +:+ t)%string = String c (s +:+ t)%string.
Proof. reflexivity. Qed.

Lemma prefix_spec (sub s : string) :
  String.prefix sub s = true <-> exists post, s = (sub +:+ post)%string.
Proof.
  revert s. induction sub as [|a sub IH]; intros s.
  - destruct s; cbn [String.prefix]; (split; [intros _; eexists; reflexivity|reflexivity]).
  - destruct s as [|b s]; cbn [String.prefix].
    + split; [discriminate|]. intros [post H]. rewrite append_cons in H. discriminate H.
    + destruct (Ascii.ascii_dec a b) as [->|Hab].
      * rewrite IH. split; intros [post Hpost]; exists post.
        -- rewrite append_cons, Hpost. reflexivity.
        -- rewrite append_cons in Hpost. injection Hpost as ->. reflexivity.
      * split; [discriminate|]. intros [post H]. rewrite append_cons in H.
        injection H as -> _. contradiction.
Qed.

Lemma str_contains_spec (sub s : string) :
  str_contains sub s = true <-> exists pre post, s = (pre +:+ sub +:+ post)%string.
Proof.
  induction s as [|c s IH].
  - cbn [str_contains]. rewrite orb_false_r, prefix_spec. split.
    + intros [post ->]. exists EmptyString, post. reflexivity.
    + intros ([|c pre] & post & H).
      * exists post. exact H.
      * rewrite append_cons in H. discriminate H.
  - cbn [str_contains]. rewrite orb_true_iff, IH, prefix_spec. split.
    + intros [[post ->]|(pre & post & ->)].
      * exists EmptyString, post. reflexivity.
      * exists (String c pre), post. reflexivity.
    + intros ([|c' pre] & post & H).
      * left. exists post. exact H.
      * right. rewrite append_cons in H. injection H as _ ->. eauto.
Qed.

Section GroupsMore.
Context {P : Type}.
Implicit Types (named : list (string * P)) (gs : list pydict) (C : gset string).

(** *** The options of the groups *)

Lemma layer_groups_options (repr : pyval -> string) named gs :
  Forall (fun g => is_Some (g !! "layer"%string)) gs ->
  forall C, exists pgs names',
    layer_groups repr named gs C = (Ret (pgs, names'), map (delete "layer"%string) gs)
    /\ map pg_options pgs
       = flat_map (fun g => [ delete "layer"%string g;
                              <[ "weight_decay"%string := VFloat PyFloat.zero ]>
                                (delete "layer"%string g) ]) gs.
Proof.
  induction 1 as [|g gs [v Hg] _ IH]; intros C.
  - eexists _, _. split; reflexivity.
  - cbn [layer_groups]. unfold dict_pop. rewrite Hg.
    destruct (layer_split (layer_pattern repr v) named C) as [[d nd] names1].
    destruct (IH names1) as (pgs & names' & -> & Hopts). cbn [obind].
    eexists _, _. split; [reflexivity|]. cbn [map flat_map pg_options app].
    rewrite Hopts. reflexivity.
Qed.

(** X14. The options of the constructed groups: a custom parameter group
    keeps the keys of its entry other than "params"; a custom layer entry
    gives a first group with its keys other than "layer" and a second
    group with the same keys and weight_decay forced to 0.0; the two
    catch-all groups, unless only custom parameters are trained, carry
    the configured weight decay and 0.0. *)
Theorem param_group_options (repr : pyval -> string) named (a : config) :
  well_formed_groups a ->
  exists groups a',
    build_param_groups repr named a = (Ret groups, a')
    /\ map pg_options groups
       = map (delete "params"%string) (custom_parameter_groups a)
         ++ flat_map (fun g => [ delete "layer"%string g;
                                 <[ "weight_decay"%string := VFloat PyFloat.zero ]>
                                   (delete "layer"%string g) ])
                     (custom_layer_parameters a)
         ++ (if train_custom_parameters_only a then []
             else [ {[ "weight_decay"%string := VFloat (weight_decay a) ]};
                    {[ "weight_decay"%string := VFloat PyFloat.zero ]} ]).
Proof.
  intros [Hwf1 Hwf2]. unfold build_param_groups.
  destruct (named_groups_run named _ Hwf1 ∅) as (G1 & -> & _ & Hopts1).
  cbn [custom_layer_parameters set_custom_parameter_groups].
  destruct (layer_groups_options repr named _ Hwf2
              (∅ ∪ list_to_set (concat (map group_names (custom_parameter_groups a)))))
    as (G2 & names2 & -> & Hopts2).
  eexists _, _. split; [reflexivity|].
  rewrite !map_app, Hopts1, Hopts2.
  cbn [train_custom_parameters_only weight_decay set_custom_layer_parameters
       set_custom_parameter_groups].
  destruct (train_custom_parameters_only a); reflexivity.
Qed.

(** *** Precedence among the layer entries *)

Lemma layer_groups_precedence (repr : pyval -> string) named gs :
  NoDup (map fst named) ->
  Forall (fun g => is_Some (g !! "layer"%string)) gs ->
  forall C, exists pgs names',
    layer_groups repr named gs C = (Ret (pgs, names'), map (delete "layer"%string) gs)
    /\ forall (i : nat) g, gs !! i = Some g ->
         exists gd gnd,
           pgs !! (2 * i)%nat = Some gd /\ pgs !! (2 * i + 1)%nat = Some gnd
           /\ pg_params gd
              = select (fun n => bool_decide (n ∉ C)
                                 && negb (matches_any (map (group_layer repr) (take i gs)) n)
                                 && str_contains (group_layer repr g) n
                                 && negb (is_no_decay n)) named
           /\ pg_params gnd
              = select (fun n => bool_decide (n ∉ C)
                                 && negb (matches_any (map (group_layer repr) (take i gs)) n)
                                 && str_contains (group_layer repr g) n
                                 && is_no_decay n) named.
Proof.
  intros Hnd. induction 1 as [|g0 gs [v Hg] _ IH]; intros C.
  - eexists _, _. split; [reflexivity|]. intros i g Hi. discriminate Hi.
  - cbn [layer_groups]. unfold dict_pop. rewrite Hg.
    assert (Hl : group_layer repr g0 = layer_pattern repr v)
      by (unfold group_layer; rewrite Hg; reflexivity).
    destruct (layer_split_run (layer_pattern repr v) named Hnd C)
      as (names1 & -> & Hnames1).
    destruct (IH names1) as (pgs & names' & -> & Hrest). cbn [obind].
    eexists _, _. split; [reflexivity|]. intros [|i] g Hi.
    + injection Hi as <-. eexists _, _. split; [reflexivity|]. split; [reflexivity|].
      cbn [pg_params take map matches_any existsb negb]. rewrite Hl.
      split; apply select_ext; intros n _; rewrite andb_true_r; reflexivity.
    + cbn [lookup list_lookup] in Hi.
      destruct (Hrest i g Hi) as (gd & gnd & Hd & Hnd' & Hpd & Hpnd).
      exists gd, gnd.
      replace (2 * S i)%nat with (S (S (2 * i))) by lia.
      replace (S (S (2 * i)) + 1)%nat with (S (S (2 * i + 1))) by lia.
      split; [exact Hd|]. split; [exact Hnd'|].
      assert (Hdec : forall n, n ∈ map fst named ->
                bool_decide (n ∉ names1)
                && negb (matches_any (map (group_layer repr) (take i gs)) n)
                = bool_decide (n ∉ C)
                  && negb (matches_any (map (group_layer repr) (take (S i) (g0 :: gs))) n)).
      { intros n Hn. cbn [take map matches_any existsb]. rewrite Hl.
        fold (matches_any (map (group_layer repr) (take i gs)) n).
        rewrite negb_orb, andb_assoc. f_equal.
        apply eq_true_iff_eq.
        rewrite andb_true_iff, negb_true_iff, !bool_decide_eq_true, Hnames1.
        destruct (str_contains (layer_pattern repr v) n); split.
        - intros H. exfalso. apply H. right. split; [exact Hn|reflexivity].
        - intros [_ ?]. discriminate.
        - intros H. split; [|reflexivity]. intros HC. apply H. left. exact HC.
        - intros [H _] [HC|[_ ?]]; [exact (H HC)|discriminate]. }
      split; [rewrite Hpd|rewrite Hpnd]; apply select_ext; intros n Hn;
        rewrite (Hdec n Hn); reflexivity.
Qed.

(** X15. Among the custom layer entries the earlier one wins: the two
    groups of entry [i] hold exactly the parameters whose name contains
    its layer pattern, is listed by no custom parameter group and
    contains the pattern of no earlier layer entry, split by the no-decay
    markers. *)
Theorem layer_entry_precedence (repr : pyval -> string) named (a : config)
    (i : nat) (g : pydict) :
  NoDup (map fst named) ->
  well_formed_groups a ->
  custom_layer_parameters a !! i = Some g ->
  exists groups a' gd gnd,
    build_param_groups repr named a = (Ret groups, a')
    /\ groups !! (length (custom_parameter_groups a) + 2 * i)%nat = Some gd
    /\ groups !! (length (custom_parameter_groups a) + 2 * i + 1)%nat = Some gnd
    /\ pg_params gd
       = select (fun n => negb (in_custom a n)
                          && negb (matches_any (take i (layer_patterns repr a)) n)
                          && str_contains (group_layer repr g) n
                          && negb (is_no_decay n)) named
    /\ pg_params gnd
       = select (fun n => negb (in_custom a n)
                          && negb (matches_any (take i (layer_patterns repr a)) n)
                          && str_contains (group_layer repr g) n
                          && is_no_decay n) named.
Proof.
  intros Hnd [Hwf1 Hwf2] Hi. unfold build_param_groups.
  destruct (named_groups_run named _ Hwf1 ∅) as (G1 & -> & Hp1 & _).
  cbn [custom_layer_parameters set_custom_parameter_groups].
  destruct (layer_groups_precedence repr named _ Hnd Hwf2
              (∅ ∪ list_to_set (concat (map group_names (custom_parameter_groups a)))))
    as (G2 & names2 & -> & Hprec).
  destruct (Hprec i g Hi) as (gd & gnd & Hd & Hnd' & Hpd & Hpnd).
  assert (Hlen : length G1 = length (custom_parameter_groups a)).
  { rewrite <- (length_map pg_params G1), Hp1, length_map. reflexivity. }
  assert (Hin : forall n,
             bool_decide (n ∉ (∅ ∪ list_to_set (custom_names a) : gset string))
             = negb (in_custom a n)).
  { intros n. unfold in_custom. apply eq_true_iff_eq.
    rewrite negb_true_iff, bool_decide_eq_true, bool_decide_eq_false.
    rewrite (left_id_L ∅ (∪)), elem_of_list_to_set. reflexivity. }
  eexists _, _, gd, gnd. split; [reflexivity|].
  split; [|split; [|split]].
  - rewrite <- Hlen, lookup_app_r by lia.
    replace (length G1 + 2 * i - length G1)%nat with (2 * i)%nat by lia.
    apply lookup_app_l_Some. exact Hd.
  - rewrite <- Hlen, lookup_app_r by lia.
    replace (length G1 + 2 * i + 1 - length G1)%nat with (2 * i + 1)%nat by lia.
    apply lookup_app_l_Some. exact Hnd'.
  - rewrite Hpd. apply select_ext. intros n _. fold (custom_names a).
    rewrite Hin. unfold layer_patterns. rewrite firstn_map. reflexivity.
  - rewrite Hpnd. apply select_ext. intros n _. fold (custom_names a).
    rewrite Hin. unfold layer_patterns. rewrite firstn_map. reflexivity.
Qed.

(** X16. With [train_custom_parameters_only] set there are no catch-all
    groups: the groups are one per custom parameter group and two per
    custom layer entry, and together they hold exactly the parameters
    that a custom group lists or whose name contains a layer pattern. *)
Theorem custom_only_groups (repr : pyval -> string) named (a : config) :
  NoDup (map fst named) ->
  well_formed_groups a ->
  disjoint_groups a ->
  train_custom_parameters_only a = true ->
  exists groups a',
    build_param_groups repr named a = (Ret groups, a')
    /\ length groups
       = (length (custom_parameter_groups a)
          + 2 * length (custom_layer_parameters a))%nat
    /\ concat (map pg_params groups)
       ≡ₚ select (fun n => in_custom a n || in_layer repr a n) named.
Proof.
  intros Hnd Hwf Hdis Honly.
  destruct (build_param_groups_run repr named a Hnd Hwf)
    as (G1 & G2 & names2 & Hrun & Hp1 & Hlen & Hp2 & _).
  rewrite Honly in Hrun. rewrite app_nil_r in Hrun.
  eexists _, _. split; [exact Hrun|]. split.
  - rewrite length_app, Hlen. f_equal.
    rewrite <- (length_map pg_params G1), Hp1, length_map. reflexivity.
  - rewrite map_app, concat_app, Hp1, Hp2, (named_groups_perm named _ Hdis).
    fold (custom_names a).
    rewrite select_or.
    + rewrite (select_ext _ (fun n => in_custom a n || in_layer repr a n));
        [reflexivity|].
      intros n _. unfold in_custom.
      destruct (bool_decide (n ∈ custom_names a)), (in_layer repr a n); reflexivity.
    + intros n _ H1 H2. unfold in_custom in H2. rewrite H1 in H2. discriminate.
Qed.

(** X17. Without custom entries the parameters are split by plain
    substring tests on their names: the group with weight decay 0.0 holds
    the parameters whose name contains "bias" or "LayerNorm.weight"
    anywhere, the group with the configured weight decay holds all
    others, and the configuration is left as it was. *)
Theorem default_groups_by_substring (repr : pyval -> string) named (a : config) :
  custom_parameter_groups a = [] ->
  custom_layer_parameters a = [] ->
  train_custom_parameters_only a = false ->
  exists gd gnd,
    build_param_groups repr named a = (Ret [gd; gnd], a)
    /\ pg_options gd = {[ "weight_decay"%string := VFloat (weight_decay a) ]}
    /\ pg_options gnd = {[ "weight_decay"%string := VFloat PyFloat.zero ]}
    /\ pg_params gd = select (fun n => negb (is_no_decay n)) named
    /\ pg_params gnd = select is_no_decay named
    /\ forall n : string,
         is_no_decay n = true
         <-> exists pre post,
               n = (pre +:+ "bias" +:+ post)%string
               \/ n = (pre +:+ "LayerNorm.weight" +:+ post)%string.
Proof.
  intros Hcpg Hclp Hall. unfold build_param_groups. rewrite Hcpg. cbn [named_groups].
  cbn [custom_layer_parameters set_custom_parameter_groups]. rewrite Hclp.
  cbn [layer_groups train_custom_parameters_only weight_decay
       set_custom_layer_parameters set_custom_parameter_groups].
  rewrite Hall. unfold default_groups. cbn [app].
  eexists _, _. split.
  { f_equal. destruct a. cbn in *. subst. reflexivity. }
  cbn [pg_options pg_params]. split; [reflexivity|]. split; [reflexivity|].
  split; [|split].
  - apply select_ext. intros n _.
    rewrite bool_decide_eq_true_2 by apply not_elem_of_empty. reflexivity.
  - apply select_ext. intros n _.
    rewrite bool_decide_eq_true_2 by apply not_elem_of_empty. reflexivity.
  - intros n. unfold is_no_decay, no_decay. cbn [existsb].
    rewrite orb_false_r, orb_true_iff, !str_contains_spec. split.
    + intros [(pre & post & H)|(pre & post & H)]; exists pre, post; eauto.
    + intros (pre & post & [H|H]); [left|right]; eauto.
Qed.
End GroupsMore.

(** *** A custom entry without its key *)

Lemma layer_groups_missing {P : Type} (repr : pyval -> string)
    (named : list (string * P)) (pre : list pydict) (g : pydict) (post : list pydict) :
  Forall (fun g => is_Some (g !! "layer"%string)) pre ->
  g !! "layer"%string = None ->
  forall C,
    layer_groups repr named (pre ++ g :: post) C
    = (Raise (KeyError "layer"), map (delete "layer"%string) pre ++ g :: post).
Proof.
  intros Hpre Hg. induction Hpre as [|g0 pre [v Hg0] _ IH]; intros C.
  - cbn [app layer_groups map]. unfold dict_pop. rewrite Hg. reflexivity.
  - cbn [app layer_groups map]. unfold dict_pop. rewrite Hg0.
    destruct (layer_split (layer_pattern repr v) named C) as [[d nd] names1].
    rewrite IH. reflexivity.
Qed.

Section MissingKey.
Context `{RT : Runtime}.

(** X18. A custom layer entry without a "layer" key makes [train_model]
    raise KeyError before any optimizer is built, and leaves the
    configuration half consumed: every custom parameter group and every
    layer entry before the faulty one has lost its key, the faulty entry
    and the later ones are as they were. *)
Theorem train_model_missing_layer_key (device_arg : option string) (w : world)
    (pre : list pydict) (g : pydict) (post : list pydict) :
  let a := args (self w) in
  Forall (fun g => exists names, g !! "params"%string = Some (VNames names))
         (custom_parameter_groups a) ->
  custom_layer_parameters a = pre ++ g :: post ->
  Forall (fun g => is_Some (g !! "layer"%string)) pre ->
  g !! "layer"%string = None ->
  exists w',
    train_model device_arg w = (Raise (KeyError "layer"), w')
    /\ custom_parameter_groups (args (self w'))
       = map (delete "params"%string) (custom_parameter_groups a)
    /\ custom_layer_parameters (args (self w'))
       = map (delete "layer"%string) pre ++ g :: post
    /\ warmup_steps (args (self w')) = warmup_steps a
    /\ events w' = events w ++ [LogTrainDevice (call_device device_arg (self w))].
Proof.
  intros a Hwf1 Hclp Hpre Hg. subst a. unfold train_model. unfold bind at 1.
  rewrite train_setup_cases. unfold build_param_groups.
  destruct (named_groups_run
              (named_parameters (model_to (call_device device_arg (self w))
                                          (model (self w))))
              _ Hwf1 ∅) as (G1 & -> & _).
  cbn [custom_layer_parameters set_custom_parameter_groups]. rewrite Hclp.
  rewrite (layer_groups_missing py_str _ pre g post Hpre Hg).
  cbn [fst snd]. eexists. split; [reflexivity|]. cbn. repeat split.
Qed.
End MissingKey.

(** ** More on build_optimizer and the FedProx term *)

Section OptimizerMore.
Context `{RT : Runtime}.

Lemma compute_warmup_steps_again (a : config) (n ws : Z) :
  compute_warmup_steps a n = Ret ws ->
  compute_warmup_steps (set_warmup_steps ws a) n = Ret ws.
Proof.
  unfold compute_warmup_steps. cbn [warmup_ratio warmup_steps set_warmup_steps].
  destruct (PyFloat.int_mul n (warmup_ratio a)) as [product|e]; [|discriminate].
  cbn [obind]. destruct (PyFloat.ceil product) as [c|e]; [|discriminate].
  cbn [obind]. intros [= <-]. f_equal.
  destruct (Z.eqb_spec (warmup_steps a) 0) as [H0|Hn0].
  - destruct (c =? 0); reflexivity.
  - rewrite (proj2 (Z.eqb_neq _ 0) Hn0). reflexivity.
Qed.

Lemma compute_warmup_steps_kept (a : config) (n ws : Z) :
  warmup_steps a <> 0 ->
  compute_warmup_steps a n = Ret ws -> ws = warmup_steps a.
Proof.
  intros Hn0. unfold compute_warmup_steps.
  destruct (PyFloat.int_mul n (warmup_ratio a)) as [product|e]; [|discriminate].
  cbn [obind]. destruct (PyFloat.ceil product) as [c|e]; [|discriminate].
  cbn [obind]. rewrite (proj2 (Z.eqb_neq _ 0) Hn0). intros [= <-]. reflexivity.
Qed.

(** X19. Building the optimizer again changes nothing in the trainer:
    after a call of [build_optimizer] that returned, a second call for
    the same number of iterations returns the same scheduler and leaves
    the trainer as it is; and once the stored warmup steps are not zero,
    no later call, for whatever number of iterations and whether it
    returns or raises, changes the configuration. *)
Theorem build_optimizer_again (m m' : Model) (n : Z) (w w1 : world)
    (r : optimizer * scheduler) :
  build_optimizer m n w = (Ret r, w1) ->
  (exists r2,
     build_optimizer m' n w1
     = (Ret r2,
        {| self := self w1; fs := fs w1;
           events := events w1 ++ [LogWarmupSteps (warmup_steps (args (self w1)))] |})
     /\ snd r2 = snd r)
  /\ (warmup_steps (args (self w1)) <> 0 ->
      forall n' o w2, build_optimizer m' n' w1 = (o, w2) -> self w2 = self w1).
Proof.
  intros Hrun.
  destruct (compute_warmup_steps (args (self w)) n) as [ws|e] eqn:Hws.
  2:{ rewrite (build_optimizer_raises m n w e Hws) in Hrun. discriminate. }
  rewrite (build_optimizer_run m n w ws Hws) in Hrun. injection Hrun as <- <-.
  cbn [self fs events args set_args warmup_steps set_warmup_steps]. split.
  - eexists. split.
    + rewrite (build_optimizer_run m' n _ ws);
        [|cbn [self args set_args]; apply compute_warmup_steps_again, Hws].
      cbn [self fs events args set_args]. reflexivity.
    + reflexivity.
  - intros Hn0 n' o w2 Hagain.
    destruct (compute_warmup_steps (set_warmup_steps ws (args (self w))) n')
      as [ws'|e] eqn:Hws'.
    + pose proof (compute_warmup_steps_kept
                    (set_warmup_steps ws (args (self w))) n' ws' Hn0 Hws') as Heq.
      cbn [warmup_steps set_warmup_steps] in Heq. subst ws'.
      match type of Hagain with
      | build_optimizer _ _ ?w1 = _ =>
          rewrite (build_optimizer_run m' n' w1 ws Hws') in Hagain
      end.
      injection Hagain as _ <-. reflexivity.
    + match type of Hagain with
      | build_optimizer _ _ ?w1 = _ =>
          rewrite (build_optimizer_raises m' n' w1 e Hws') in Hagain
      end.
      injection Hagain as _ <-. reflexivity.
Qed.

(** *** The FedProx term at the global model *)

Lemma sq_dist_same (x : list R) : sq_dist x x = 0%R.
Proof.
  unfold sq_dist, Rsum. induction x as [|v x IH]; cbn [zip_with fold_right]; [reflexivity|].
  rewrite IH. lra.
Qed.

Lemma sq_dist_sum_same (ps gs : list Param) :
  map param_data gs = map param_data ps ->
  Rsum (map (fun pg => sq_dist (param_data (fst pg)) (param_data (snd pg))) (zip ps gs))
  = 0%R.
Proof.
  revert gs. induction ps as [|p ps IH]; intros [|g gs] Heq; try reflexivity.
  cbn [map] in Heq. injection Heq as Hg Hrest.
  cbn [zip zip_with map fst snd]. unfold Rsum. cbn [fold_right].
  fold (Rsum (map (fun pg => sq_dist (param_data (fst pg)) (param_data (snd pg)))
                  (zip ps gs))).
  rewrite (IH gs Hrest), Hg, sq_dist_same. lra.
Qed.

(** X20. Against its own deep copy a model has no FedProx penalty, as
    long as [fedprox_mu / 2] is a finite float: the proximal term is zero
    and the loss of the batch is the loss of the model call. (With
    [fedprox_mu] an infinity or NaN line 178 multiplies it with a zero
    norm; the product is NaN, and the embedding, whose tensors are real,
    says nothing of it.) *)
Theorem fedprox_vanishes_at_copy (a : config) (inp : inputs) (m : Model) (c : R) :
  PyFloat.to_R (SFdiv PyFloat.prec PyFloat.emax (fedprox_mu a) PyFloat.two) = Some c ->
  fed_prox_reg (fedprox_mu a) m (deepcopy m) = 0%R
  /\ batch_loss a (Some (deepcopy m)) inp m = model_loss a inp m.
Proof.
  intros Hc.
  assert (Hzero : fed_prox_reg (fedprox_mu a) m (deepcopy m) = 0%R).
  { rewrite (fed_prox_reg_sum _ c _ _ Hc). unfold proximal_term, parameters.
    rewrite sq_dist_sum_same by apply deepcopy_data. lra. }
  split; [exact Hzero|]. unfold batch_loss. rewrite Hzero.
  destruct (bool_decide _); [|reflexivity].
  induction (model_loss a inp m) as [|x l IH]; [reflexivity|].
  cbn [map]. rewrite IH. f_equal. lra.
Qed.
End OptimizerMore.

(** ** The further properties on concrete trainers *)

Lemma shifted_adapter_aligns_labels_witness :
  exists (inp : inputs) (src att dec lab : itensor),
    self_get_inputs_dict (RT := Demo.runtime) (self Cases.bart_world)
                         (BatchDict Cases.keyed) = Ret inp
    /\ inp !! "input_ids"%string = Some src /\ it_rows src = [[5; 6; 7]; [8; 9; 0]]
    /\ inp !! "attention_mask"%string = Some att /\ it_rows att = [[1; 1; 1]; [1; 1; 0]]
    /\ inp !! "decoder_input_ids"%string = Some dec
    /\ inp !! "labels"%string = Some lab
    /\ length (it_rows dec) = 2%nat
    /\ length (it_rows lab) = 2%nat
    /\ forall i j : nat,
         it_entry dec i j
         = match it_entry Cases.target_ids i (S j) with
           | Some _ => it_entry Cases.target_ids i j
           | None => None
           end
         /\ it_entry lab i j
            = (fun x => if x =? 0 then -100 else x) <$> it_entry Cases.target_ids i (S j).
Proof.
  refine (shifted_adapter_aligns_labels (RT := Demo.runtime) (self Cases.bart_world)
            Cases.keyed Cases.source_ids Cases.source_mask Cases.target_ids _ _ _ _).
  - apply (bool_decide_unpack _). vm_compute. exact I.
  - reflexivity.
  - reflexivity.
  - reflexivity.
Defined.

Lemma adapter_device_and_keys_witness :
  exists inp : inputs,
    self_get_inputs_dict (RT := Demo.runtime) (self Demo.eval_world) Demo.demo_batch = Ret inp
    /\ (forall (k : string) (x : itensor), inp !! k = Some x -> it_device x = "cpu"%string)
    /\ dom inp = ({[ "input_ids"; "decoder_input_ids"; "labels" ]} : gset string)%string.
Proof.
  eexists. split; [reflexivity|].
  exact (adapter_device_and_keys (RT := Demo.runtime) (self Demo.eval_world)
           Demo.demo_batch _ eq_refl).
Defined.

Lemma eval_model_rejects_keyed_models_witness :
  exists w',
    eval_model (RT := Demo.runtime) None Cases.bart_world = (Raise TypeError, w')
    /\ fs w' = fs Cases.bart_world
    /\ results (self w') = ∅
    /\ events w' = [LogEvalLen 2 2].
Proof.
  refine (eval_model_rejects_keyed_models (RT := Demo.runtime) None Cases.bart_world _).
  apply (bool_decide_unpack _). vm_compute. exact I.
Defined.

Lemma eval_model_generated_text_witness :
  exists w',
    eval_model (RT := Cases.scoring) None Cases.scoring_world
    = (Ret (({[ "references" := VInt 2 ]} : pydict)%string, ["a b"; "c"]%string, tt), w')
    /\ results (self w')
       = (({[ "references" := VInt 2 ]} : pydict)
          ∪ ({[ "eval_loss" := VFloat PyFloat.zero ]} ∪ ∅))%string
    /\ fs_files (fs w') !! "/tmp/eval_results.txt"%string
       = Some ("eval_loss = " +:+ "0.0" +:+ newline)%string
    /\ last (events w') = Some (LogResults (results (self w'))).
Proof.
  refine (eval_model_generated_text (RT := Cases.scoring) None Cases.scoring_world
            (fun _ texts => texts)
            (fun references _ => {[ "references"%string := VInt (len references) ]})
            Cases.examples [PyFloat.zero; PyFloat.zero] PyFloat.zero
            eq_refl eq_refl eq_refl eq_refl _ _ _ _ _).
  - repeat constructor.
  - reflexivity.
  - discriminate.
  - apply not_elem_of_dom. reflexivity.
  - apply not_elem_of_empty.
Defined.

Lemma eval_model_never_returns_witness :
  exists e w',
    eval_model (RT := Demo.runtime) None
      (Demo.demo_world (Cases.variant "bert" [] [] 1 1 false true false "/tmp/")
                       (Demo.demo_loader 1 8) (Demo.demo_loader 3 21))
    = (Raise e, w').
Proof.
  exact (eval_model_never_returns (RT := Demo.runtime) None
           (Demo.demo_world (Cases.variant "bert" [] [] 1 1 false true false "/tmp/")
                            (Demo.demo_loader 1 8) (Demo.demo_loader 3 21))
           eq_refl).
Defined.

Lemma eval_model_bad_output_dir_witness :
  exists w',
    eval_model (RT := Demo.runtime) None Cases.homeless_world
    = (Raise FileNotFoundError, w')
    /\ fs w' = fs Cases.homeless_world
    /\ results (self w') = ∅
    /\ events w'
       = [ LogEvalLen 3 3; LogEvalRange 0 0 8; LogEvalRange 1 8 16; LogEvalRange 2 16 21;
           WandbLog {[ "eval_loss"%string := VFloat PyFloat.zero ]} ].
Proof.
  refine (eval_model_bad_output_dir (RT := Demo.runtime) None Cases.homeless_world
            [PyFloat.zero; PyFloat.zero; PyFloat.zero] PyFloat.zero _ _ _).
  - repeat constructor.
  - reflexivity.
  - left. reflexivity.
Defined.

Lemma train_model_evaluate_during_training_witness :
  exists w',
    train_model (RT := Demo.runtime) None Cases.during_world
    = (Raise (AttributeError "_create_training_progress_scores"), w')
    /\ events w' = [LogTrainDevice "cpu"; LogWarmupSteps 1]
    /\ args (self w') = set_warmup_steps 1 (consumed (args (self Cases.during_world))).
Proof.
  destruct (train_model_evaluate_during_training (RT := Demo.runtime) None
              Cases.during_world eq_refl)
    as (e & w' & later & Hrun & Hev & _ & Hspec).
  assert (Hwf : well_formed_groups (args (self Cases.during_world)))
    by (split; repeat constructor; eexists; reflexivity).
  destruct (Hspec Hwf ltac:(discriminate) 1 eq_refl) as (He & Hlater & Hargs).
  exists w'. rewrite <- He. split; [exact Hrun|].
  split; [rewrite Hev, Hlater; reflexivity|exact Hargs].
Defined.

Lemma train_model_zero_accumulation_witness :
  exists w',
    train_model (RT := Demo.runtime) None Cases.zero_accumulation_world
    = (Raise ZeroDivisionError, w')
    /\ events w' = [LogTrainDevice "cpu"]
    /\ model (self w') = Demo.demo_model
    /\ args (self w') = consumed (args (self Cases.zero_accumulation_world)).
Proof.
  refine (train_model_zero_accumulation (RT := Demo.runtime) None
            Cases.zero_accumulation_world eq_refl _).
  split; repeat constructor; eexists; reflexivity.
Defined.

Lemma train_model_without_steps_witness :
  exists w' ws later,
    train_model (RT := Demo.runtime) None Cases.stepless_world
    = (Raise ZeroDivisionError, w')
    /\ args (self w') = set_warmup_steps ws (consumed (args (self Cases.stepless_world)))
    /\ events w' = LogTrainDevice "cpu" :: LogWarmupSteps ws :: later
    /\ map train_batch_key later
       = map Some [ (0, 0, 3); (0, 1, 3); (0, 2, 3); (1, 0, 3); (1, 1, 3); (1, 2, 3) ].
Proof.
  refine (train_model_without_steps (RT := Demo.runtime) None Cases.stepless_world _ _).
  - split; [split; constructor|]. split; [discriminate|]. split; [reflexivity|].
    split; [eexists; reflexivity|].
    split; [repeat constructor; eexists; reflexivity|].
    right. intros fp m inp. eexists. reflexivity.
  - right. reflexivity.
Defined.

Lemma train_model_log_order_witness :
  exists r w' ws later,
    train_model (RT := Demo.runtime) None Demo.accumulating_world = (Ret r, w')
    /\ events w' = LogTrainDevice "cpu" :: LogWarmupSteps ws :: later
    /\ map train_batch_key later
       = map Some [ (0, 0, 3); (0, 1, 3); (0, 2, 3); (1, 0, 3); (1, 1, 3); (1, 2, 3) ].
Proof.
  assert (Hready : train_ready (RT := Demo.runtime) (self Demo.accumulating_world)).
  { split; [split; constructor|]. split; [reflexivity|]. split; [reflexivity|].
    split; [eexists; reflexivity|].
    split; [repeat constructor; eexists; reflexivity|].
    split; [right; intros fp m inp; eexists; reflexivity|].
    split; [reflexivity|]. eexists. split; reflexivity. }
  destruct (train_model_returns (RT := Demo.runtime) None Demo.accumulating_world Hready)
    as (mean & w' & Hrun).
  destruct (train_model_log_order (RT := Demo.runtime) None Demo.accumulating_world
              _ w' Hrun) as (ws & later & Hev & Hkeys).
  eexists _, w', ws, later. split; [exact Hrun|]. split; [exact Hev|exact Hkeys].
Defined.

Lemma param_group_options_witness :
  exists groups a',
    build_param_groups (fun _ => EmptyString) Demo.layered Cases.twice_layered_args
    = (Ret groups, a')
    /\ map pg_options groups
       = [ {[ "lr" := VFloat PyFloat.tenth ]};
           {[ "lr" := VFloat PyFloat.hundredth ]};
           {[ "lr" := VFloat PyFloat.hundredth; "weight_decay" := VFloat PyFloat.zero ]};
           {[ "weight_decay" := VFloat PyFloat.tenth ]};
           {[ "weight_decay" := VFloat PyFloat.zero ]};
           {[ "weight_decay" := VFloat PyFloat.hundredth ]};
           {[ "weight_decay" := VFloat PyFloat.zero ]} ]%string.
Proof.
  refine (param_group_options (fun _ => EmptyString) Demo.layered
            Cases.twice_layered_args _).
  split; repeat constructor; eexists; reflexivity.
Defined.

Lemma layer_entry_precedence_witness :
  exists groups a' gd gnd,
    build_param_groups (fun _ => EmptyString) Demo.layered Cases.twice_layered_args
    = (Ret groups, a')
    /\ groups !! 3%nat = Some gd
    /\ groups !! 4%nat = Some gnd
    /\ pg_params gd = []
    /\ pg_params gnd = [].
Proof.
  refine (layer_entry_precedence (fun _ => EmptyString) Demo.layered
            Cases.twice_layered_args 1 Cases.layer_0_again _ _ _).
  - apply (bool_decide_unpack _). vm_compute. exact I.
  - split; repeat constructor; eexists; reflexivity.
  - reflexivity.
Defined.

Lemma custom_only_groups_witness :
  exists groups a',
    build_param_groups (fun _ => EmptyString) Demo.layered Cases.custom_only_args
    = (Ret groups, a')
    /\ length groups = 3%nat
    /\ concat (map pg_params groups) ≡ₚ [0; 1; 3]%nat.
Proof.
  refine (custom_only_groups (fun _ => EmptyString) Demo.layered Cases.custom_only_args
            _ _ _ _).
  - apply (bool_decide_unpack _). vm_compute. exact I.
  - split; repeat constructor; eexists; reflexivity.
  - repeat constructor.
  - reflexivity.
Defined.

Lemma default_groups_by_substring_witness :
  exists gd gnd,
    build_param_groups (fun _ => EmptyString) Demo.layered Demo.demo_args
    = (Ret [gd; gnd], Demo.demo_args)
    /\ pg_options gd = {[ "weight_decay"%string := VFloat PyFloat.hundredth ]}
    /\ pg_options gnd = {[ "weight_decay"%string := VFloat PyFloat.zero ]}
    /\ pg_params gd = [0; 2; 3]%nat
    /\ pg_params gnd = [1; 4]%nat
    /\ forall n : string,
         is_no_decay n = true
         <-> exists pre post,
               n = (pre +:+ "bias" +:+ post)%string
               \/ n = (pre +:+ "LayerNorm.weight" +:+ post)%string.
Proof.
  exact (default_groups_by_substring (fun _ => EmptyString) Demo.layered Demo.demo_args
           eq_refl eq_refl eq_refl).
Defined.

Lemma train_model_missing_layer_key_witness :
  exists w',
    train_model (RT := Demo.runtime) None Cases.faulty_world
    = (Raise (KeyError "layer"), w')
    /\ custom_parameter_groups (args (self w'))
       = [ {[ "lr"%string := VFloat PyFloat.tenth ]} ]
    /\ custom_layer_parameters (args (self w'))
       = [ {[ "lr"%string := VFloat PyFloat.hundredth ]}; Cases.keyless; Cases.layer_1 ]
    /\ warmup_steps (args (self w')) = 0
    /\ events w' = [LogTrainDevice "cpu"].
Proof.
  refine (train_model_missing_layer_key (RT := Demo.runtime) None Cases.faulty_world
            [Cases.layer_0] Cases.keyless [Cases.layer_1] _ eq_refl _ eq_refl).
  - repeat constructor. eexists. reflexivity.
  - repeat constructor. eexists. reflexivity.
Defined.

Lemma build_optimizer_again_witness :
  let w0 := Demo.demo_world Demo.demo_args (Demo.demo_loader 1 1) (Demo.demo_loader 1 1) in
  exists r w1,
    build_optimizer (RT := Demo.runtime) Demo.demo_model 1000 w0 = (Ret r, w1)
    /\ warmup_steps (args (self w1)) = 100
    /\ (exists r2,
          build_optimizer (RT := Demo.runtime) Demo.demo_model 1000 w1
          = (Ret r2,
             {| self := self w1; fs := fs w1;
                events := events w1 ++ [LogWarmupSteps 100] |})
          /\ snd r2 = snd r)
    /\ (warmup_steps (args (self w1)) <> 0 ->
        forall n' o w2,
          build_optimizer (RT := Demo.runtime) Demo.demo_model n' w1 = (o, w2) ->
          self w2 = self w1).
Proof.
  intros w0. eexists _, _. split; [reflexivity|]. split; [reflexivity|].
  exact (build_optimizer_again (RT := Demo.runtime) Demo.demo_model Demo.demo_model
           1000 w0 _ _ eq_refl).
Defined.

Lemma fedprox_vanishes_at_copy_witness :
  fed_prox_reg (RT := Demo.runtime) PyFloat.tenth Demo.demo_model
               (@deepcopy Demo.runtime Demo.demo_model) = 0%R
  /\ batch_loss (RT := Demo.runtime) Demo.demo_args (Some (@deepcopy Demo.runtime Demo.demo_model)) ∅
                Demo.demo_model
     = model_loss (RT := Demo.runtime) Demo.demo_args ∅ Demo.demo_model.
Proof.
  apply (fedprox_vanishes_at_copy (RT := Demo.runtime) Demo.demo_args ∅ Demo.demo_model
           (IZR 7205759403792794 * powerRZ 2 (-57))).
  reflexivity.
Defined.
